(** * Codebase analyzer: token-budget chunker and result aggregator

    A shallow embedding of the Python sources

      - [src/repository_manager.py]  (class [CodeFile],
                                      [get_repository_info])
      - [src/chunker.py]             (classes [CodeChunk], [CodeChunker])
      - [src/llm_provider.py]        ([LLMProvider.analyze_code_chunk],
                                      [generate_project_overview])
      - [src/analyzer.py]            ([CodeAnalyzer])
      - [src/output_formatter.py]    ([OutputFormatter])
      - [main.py]                    ([main] and its exit status)

    followed by the properties of the design document, each stated over
    these definitions.

    Conventions.  A Python [str] is a [string] whose characters are code
    points below 256; a Python [int] is a [Z], or a [nat] where the source
    obtains it from [len].  Exceptions are values of [exn] carried by the
    [result] type.  External collaborators (the tokenizer, the language
    model, [json.loads], radon's [cc_visit], the float builtins) are
    [Variable]s of the sections that use them. *)

From Stdlib Require Import List String Ascii ZArith NArith Arith Bool Lia.
From Stdlib Require Import Permutation Sorted DecimalString.
Import ListNotations.

Set Warnings "-register-all".

Local Open Scope list_scope.
Local Open Scope string_scope.
Local Open Scope nat_scope.

(* ================================================================== *)
(** * Python string operations used by the program *)
(* ================================================================== *)

Module PyStr.

(** [chr(10)], the newline written [\n] in the sources. *)
Definition LF : string := String (ascii_of_nat 10) EmptyString.

(** The double quote character, as a one-character string. *)
Definition DQ : string := String (ascii_of_nat 34) EmptyString.

(** [sep.join(parts)] *)
Fixpoint join (sep : string) (parts : list string) : string :=
  match parts with
  | [] => EmptyString
  | [p] => p
  | p :: rest => p ++ sep ++ join sep rest
  end.

(** [s * n] *)
Fixpoint repeat (s : string) (n : nat) : string :=
  match n with
  | O => EmptyString
  | S k => s ++ repeat s k
  end.

(** [str(n)] / [f"{n}"] for a non-negative integer. *)
Definition of_nat (n : nat) : string :=
  NilEmpty.string_of_uint (Nat.to_uint n).

(** Number of occurrences of the character [c]. *)
Fixpoint count_char (c : ascii) (s : string) : nat :=
  match s with
  | EmptyString => 0
  | String a rest =>
      (if Ascii.eqb a c then 1 else 0) + count_char c rest
  end.

(** [len(s.split(chr(10)))]: splitting on a one-character separator
    yields one more piece than there are separators. *)
Definition line_count (s : string) : nat :=
  S (count_char (ascii_of_nat 10) s).

(** [c.lower()] on code points below 256: the ASCII capitals and the
    Latin-1 capitals U+00C0..U+00DE (without the sign U+00D7) move up
    by 32. *)
Definition lower_char (c : ascii) : ascii :=
  let n := nat_of_ascii c in
  if ((65 <=? n) && (n <=? 90))
     || ((192 <=? n) && (n <=? 222) && negb (n =? 215))
  then ascii_of_nat (n + 32) else c.

(** [s.lower()] *)
Fixpoint lower (s : string) : string :=
  match s with
  | EmptyString => EmptyString
  | String c rest => String (lower_char c) (lower rest)
  end.

(** [s.startswith(p)] *)
Definition startswith (p s : string) : bool := String.prefix p s.

(** [sub in s] *)
Fixpoint contains (sub s : string) : bool :=
  startswith sub s ||
  match s with
  | EmptyString => false
  | String _ rest => contains sub rest
  end.

(** Index of the first occurrence of [sub] in [s], counted from
    [base]; [-1] when there is none. *)
Fixpoint find_from (sub s : string) (base : Z) : Z :=
  if startswith sub s then base
  else match s with
       | EmptyString => (-1)%Z
       | String _ rest => find_from sub rest (base + 1)
       end.

(** [s[n:]] for [n >= 0] *)
Fixpoint drop (n : nat) (s : string) : string :=
  match n, s with
  | O, _ => s
  | S _, EmptyString => EmptyString
  | S k, String _ rest => drop k rest
  end.

(** [s[:n]] for [n >= 0] *)
Fixpoint take (n : nat) (s : string) : string :=
  match n, s with
  | O, _ => EmptyString
  | S _, EmptyString => EmptyString
  | S k, String c rest => String c (take k rest)
  end.

(** [s.find(sub)] *)
Definition find (sub s : string) : Z := find_from sub s 0.

(** [s.find(sub, start)] for [0 <= start]: the search begins at
    [start]; a start beyond the end finds nothing. *)
Definition find_at (sub s : string) (start : Z) : Z :=
  if (Z.of_nat (String.length s) <? start)%Z then (-1)%Z
  else find_from sub (drop (Z.to_nat start) s) start.

(** Slice bound normalisation: a negative index counts from the end,
    and the result is clamped to [0 .. len]. *)
Definition clamp (len i : Z) : Z :=
  let j := if (i <? 0)%Z then (i + len)%Z else i in
  Z.max 0 (Z.min len j).

(** [s[a:b]] *)
Definition slice (s : string) (a b : Z) : string :=
  let len := Z.of_nat (String.length s) in
  let lo := clamp len a in
  let hi := clamp len b in
  take (Z.to_nat (hi - lo)) (drop (Z.to_nat lo) s).

(** [c.isspace()] on code points below 256. *)
Definition is_space (c : ascii) : bool :=
  let n := nat_of_ascii c in
  ((9 <=? n) && (n <=? 13)) || ((28 <=? n) && (n <=? 32))
  || (n =? 133) || (n =? 160).

(** [s.lstrip()] *)
Fixpoint lstrip (s : string) : string :=
  match s with
  | EmptyString => EmptyString
  | String c rest => if is_space c then lstrip rest else s
  end.

(** [s.rstrip()] *)
Fixpoint rstrip (s : string) : string :=
  match s with
  | EmptyString => EmptyString
  | String c rest =>
      match rstrip rest with
      | EmptyString => if is_space c then EmptyString
                       else String c EmptyString
      | r => String c r
      end
  end.

(** [s.strip()] *)
Definition strip (s : string) : string := rstrip (lstrip s).

(** [not s] *)
Definition is_empty (s : string) : bool :=
  match s with EmptyString => true | _ => false end.

(** [a <= b] on strings: lexicographic on code points. *)
Definition leb (a b : string) : bool := String.leb a b.

(** [sorted(l, key=key)] for string keys.  Python's sort is stable, and
    a stable sort is determined by the order on the keys; it is written
    here as insertion from the right, each element being placed before
    the first element whose key is not smaller. *)
Fixpoint insert_by {A : Type} (key : A -> string) (x : A) (l : list A)
  : list A :=
  match l with
  | [] => [x]
  | y :: rest =>
      if leb (key x) (key y) then x :: y :: rest
      else y :: insert_by key x rest
  end.

Fixpoint sorted_by {A : Type} (key : A -> string) (l : list A) : list A :=
  match l with
  | [] => []
  | x :: rest => insert_by key x (sorted_by key rest)
  end.

(** [sorted(l)] for a list of strings. *)
Definition sorted (l : list string) : list string :=
  sorted_by (fun s => s) l.

End PyStr.

(* ================================================================== *)
(** * [src/repository_manager.py] *)
(* ================================================================== *)

Module RepositoryManager.

(** class [CodeFile]; the attribute [size] is [len(content)], set by
    the constructor. *)
Record CodeFile : Type := mkCodeFile {
  path : string;
  relative_path : string;
  content : string;
  extension : string
}.

Definition size (f : CodeFile) : nat := String.length (content f).

End RepositoryManager.

Export RepositoryManager.

(* ================================================================== *)
(** * [src/chunker.py] *)
(* ================================================================== *)

Module Chunker.

(** class [CodeChunk]: the constructor sets exactly the attributes
    [files], [chunk_id] and [token_count] (the last one to 0). *)
Record CodeChunk : Type := mkCodeChunk {
  files : list CodeFile;
  chunk_id : nat;
  token_count : nat
}.

Definition new_CodeChunk (fs : list CodeFile) (id : nat) : CodeChunk :=
  {| files := fs; chunk_id := id; token_count := 0 |}.

Definition set_token_count (c : CodeChunk) (n : nat) : CodeChunk :=
  {| files := files c; chunk_id := chunk_id c; token_count := n |}.

(** The five text parts [CodeChunk.to_text] appends for one file. *)
Definition file_parts (f : CodeFile) : list string :=
  [ "=== File: " ++ relative_path f ++ " ===";
    "Extension: " ++ extension f;
    "Lines: " ++ PyStr.of_nat (PyStr.line_count (content f));
    PyStr.LF ++ "Content:" ++ PyStr.LF ++ content f ++ PyStr.LF;
    PyStr.repeat "=" 80 ].

(** [CodeChunk.to_text] *)
Definition to_text (c : CodeChunk) : string :=
  PyStr.join PyStr.LF (flat_map file_parts (files c)).

(** [CodeChunk.get_file_list] *)
Definition get_file_list (c : CodeChunk) : list string :=
  map relative_path (files c).

(** Lookup of a data attribute on a [CodeChunk] object.  Only the three
    attributes assigned in [__init__] exist (the two methods are the
    functions above); any other name raises [AttributeError], rendered
    here as [None]. *)
Inductive attr : Type :=
| AFiles (fs : list CodeFile)
| AInt (n : nat)
| ABool (b : bool).

Definition getattr (c : CodeChunk) (name : string) : option attr :=
  if String.eqb name "files" then Some (AFiles (files c))
  else if String.eqb name "chunk_id" then Some (AInt (chunk_id c))
  else if String.eqb name "token_count" then Some (AInt (token_count c))
  else None.

(** [sorted(code_files, key=lambda f: f.relative_path)] *)
Definition sorted_by_path (l : list CodeFile) : list CodeFile :=
  PyStr.sorted_by relative_path l.

Section CodeChunker.

(** [CodeChunker.count_tokens]: the length of the tiktoken encoding
    of a text; the encoder is an external collaborator. *)
Variable count_tokens : string -> nat.

(** [self.max_tokens = config.max_tokens_per_chunk] *)
Variable max_tokens : Z.

(** The local variables of the loop of [create_chunks]. *)
Record loop_state : Type := mkLoop {
  chunks : list CodeChunk;
  current_chunk_files : list CodeFile;
  current_tokens : nat;
  next_chunk_id : nat
}.

Definition initial : loop_state :=
  {| chunks := []; current_chunk_files := [];
     current_tokens := 0; next_chunk_id := 0 |}.

(** [x > self.max_tokens] *)
Definition exceeds (tokens : nat) : bool :=
  (max_tokens <? Z.of_nat tokens)%Z.

(** Truth value of a list: non-empty. *)
Definition truthy {A : Type} (l : list A) : bool :=
  match l with [] => false | _ => true end.

(** [test_tokens] of one iteration. *)
Definition test_tokens_of (st : loop_state) (file : CodeFile) : nat :=
  count_tokens
    (to_text (new_CodeChunk ((current_chunk_files st ++ [file])%list)
                            (next_chunk_id st))).

(** First conditional of the loop body (lines 77-91). *)
Definition finalize_or_add (st : loop_state) (file : CodeFile)
  : loop_state :=
  let test_tokens := test_tokens_of st file in
  if exceeds test_tokens && truthy (current_chunk_files st)
  then
    let chunk :=
      set_token_count
        (new_CodeChunk (current_chunk_files st) (next_chunk_id st))
        (current_tokens st) in
    let id := S (next_chunk_id st) in
    {| chunks := (chunks st ++ [chunk])%list;
       current_chunk_files := [file];
       current_tokens :=
         count_tokens (to_text (new_CodeChunk [file] id));
       next_chunk_id := id |}
  else
    {| chunks := chunks st;
       current_chunk_files := (current_chunk_files st ++ [file])%list;
       current_tokens := test_tokens;
       next_chunk_id := next_chunk_id st |}.

(** Second conditional of the loop body (lines 93-104); it reads
    the [test_tokens] computed at the top of the iteration and the
    pending list as the first conditional left it. *)
Definition separate_large (test_tokens : nat) (st : loop_state)
           (file : CodeFile) : loop_state :=
  if exceeds test_tokens
     && negb (truthy (removelast (current_chunk_files st)))
  then
    let chunk :=
      set_token_count (new_CodeChunk [file] (next_chunk_id st))
                      test_tokens in
    {| chunks := (chunks st ++ [chunk])%list;
       current_chunk_files := [];
       current_tokens := 0;
       next_chunk_id := S (next_chunk_id st) |}
  else st.

(** One iteration of [for file in sorted_files]. *)
Definition loop_body (st : loop_state) (file : CodeFile)
  : loop_state :=
  separate_large (test_tokens_of st file)
                 (finalize_or_add st file) file.

(** The statement after the loop (lines 106-111). *)
Definition add_remaining (st : loop_state) : list CodeChunk :=
  if truthy (current_chunk_files st)
  then (chunks st ++
        [set_token_count
           (new_CodeChunk (current_chunk_files st) (next_chunk_id st))
           (current_tokens st)])%list
  else chunks st.

(** [CodeChunker.create_chunks] *)
Definition create_chunks (code_files : list CodeFile)
  : list CodeChunk :=
  add_remaining
    (fold_left loop_body (sorted_by_path code_files) initial).

End CodeChunker.

(** ** [CodeChunker.create_project_overview_chunk] *)

(** The dictionary [files_by_ext], in insertion order. *)
Definition ext_table : Type := list (string * list string).

(** [if ext not in files_by_ext: files_by_ext[ext] = []] followed by
    [files_by_ext[ext].append(p)]. *)
Fixpoint add_path (ext p : string) (d : ext_table) : ext_table :=
  match d with
  | [] => [(ext, [p])]
  | (k, ps) :: rest =>
      if String.eqb k ext then (k, (ps ++ [p])%list) :: rest
      else (k, ps) :: add_path ext p rest
  end.

(** [file.extension or "no_extension"] *)
Definition ext_or_default (f : CodeFile) : string :=
  if PyStr.is_empty (extension f) then "no_extension" else extension f.

(** ["readme" in file.relative_path.lower()] *)
Definition is_readme (f : CodeFile) : bool :=
  PyStr.contains "readme" (PyStr.lower (relative_path f)).

(** The two variables the first loop updates: the table and
    [readme_content] ([None] until a match is seen). *)
Definition overview_state : Type := (ext_table * option string)%type.

Definition overview_step (st : overview_state) (f : CodeFile)
  : overview_state :=
  let d := add_path (ext_or_default f) (relative_path f) (fst st) in
  (d, if is_readme f then Some (content f) else snd st).

(** The lines appended for one entry of [sorted(files_by_ext.items())]. *)
Definition ext_parts (entry : string * list string) : list string :=
  let (ext, fs) := entry in
  let header :=
    PyStr.LF ++ ext ++ " files (" ++ PyStr.of_nat (List.length fs) ++ "):" in
  let more := "  ... and " ++ PyStr.of_nat (List.length fs - 50) ++ " more" in
  (header
   :: map (fun p => "  - " ++ p)%string (firstn 50 (PyStr.sorted fs))
   ++ (if 50 <? List.length fs then [more] else []))%list.

(** [if readme_content: ...]: [None] and the empty string are false. *)
Definition readme_parts (readme_content : option string) : list string :=
  match readme_content with
  | None => []
  | Some c =>
      if PyStr.is_empty c then []
      else [PyStr.LF ++ PyStr.LF ++ "=== README CONTENT ===" ++ PyStr.LF; c]
  end.

Definition create_project_overview_chunk (code_files : list CodeFile)
  : string :=
  let st := fold_left overview_step code_files ([], None) in
  let title := "=== PROJECT STRUCTURE ===" ++ PyStr.LF in
  PyStr.join PyStr.LF
    (title
     :: flat_map ext_parts (PyStr.sorted_by fst (fst st))
     ++ readme_parts (snd st))%list.

End Chunker.

(* ================================================================== *)
(** * Python values, exceptions and the operations applied to them *)
(* ================================================================== *)

Module Py.

(** The exceptions that occur in the modelled code.  [ExternalError]
    stands for whatever an external collaborator raises. *)
Inductive exn : Type :=
| JSONDecodeError (msg : string)
| TypeError
| AttributeError
| KeyError
| ExternalError (msg : string).

(** A computation that returns a value or raises. *)
Inductive result (A : Type) : Type :=
| Ok (a : A)
| Raise (e : exn).

Arguments Ok {A} a.
Arguments Raise {A} e.

Definition bind {A B : Type} (c : result A) (k : A -> result B)
  : result B :=
  match c with
  | Ok a => k a
  | Raise e => Raise e
  end.

Notation "x <- c ;; k" := (bind c (fun x => k))
  (at level 61, c at next level, right associativity).

(** Running [f] on every element in order, stopping at the first
    exception: a [for] loop whose body may raise. *)
Fixpoint mapM {A B : Type} (f : A -> result B) (l : list A)
  : result (list B) :=
  match l with
  | [] => Ok []
  | x :: rest =>
      y <- f x ;;
      ys <- mapM f rest ;;
      Ok (y :: ys)
  end.

(** An IEEE-754 double, by its bit pattern. *)
Definition float64 : Type := Z.

(** The objects [json.loads] produces.  A [dict] is its list of items
    in insertion order; the keys of a JSON object are strings. *)
Inductive value : Type :=
| VNone
| VBool (b : bool)
| VInt (z : Z)
| VFloat (f : float64)
| VStr (s : string)
| VList (items : list value)
| VDict (items : list (string * value)).

(** [d[k]] on the items of a dict. *)
Fixpoint lookup (k : string) (d : list (string * value)) : option value :=
  match d with
  | [] => None
  | (k', v) :: rest => if String.eqb k' k then Some v else lookup k rest
  end.

Definition is_str (k : string) (v : value) : bool :=
  match v with
  | VStr s => String.eqb s k
  | _ => false
  end.

(** [k in v] for a string [k]: key membership in a dict, element
    membership in a list, substring test in a string; the other types
    are not containers. *)
Definition contains (k : string) (v : value) : result bool :=
  match v with
  | VDict d => Ok (match lookup k d with Some _ => true | None => false end)
  | VList l => Ok (existsb (is_str k) l)
  | VStr s => Ok (PyStr.contains k s)
  | _ => Raise TypeError
  end.

(** [v[k]] for a string [k]. *)
Definition getitem (v : value) (k : string) : result value :=
  match v with
  | VDict d =>
      match lookup k d with
      | Some x => Ok x
      | None => Raise KeyError
      end
  | _ => Raise TypeError
  end.

(** The characters of a string, each as a one-character string. *)
Fixpoint chars (s : string) : list value :=
  match s with
  | EmptyString => []
  | String c rest => VStr (String c EmptyString) :: chars rest
  end.

(** [for x in v]: the elements of a list, the keys of a dict, the
    characters of a string. *)
Definition iter (v : value) : result (list value) :=
  match v with
  | VList l => Ok l
  | VDict d => Ok (map (fun kv => VStr (fst kv)) d)
  | VStr s => Ok (chars s)
  | _ => Raise TypeError
  end.

(** [v.get(k, default)]: only a dict has the method. *)
Definition get (v : value) (k : string) (default : value) : result value :=
  match v with
  | VDict d =>
      Ok (match lookup k d with Some x => x | None => default end)
  | _ => Raise AttributeError
  end.

(** [len(v)] *)
Definition len (v : value) : result nat :=
  match v with
  | VList l => Ok (List.length l)
  | VDict d => Ok (List.length d)
  | VStr s => Ok (String.length s)
  | _ => Raise TypeError
  end.

(** [v[:n]]: lists and strings can be sliced; a dict rejects a slice
    as a key, and the other types are not subscriptable. *)
Definition slice_to (n : nat) (v : value) : result value :=
  match v with
  | VList l => Ok (VList (firstn n l))
  | VStr s => Ok (VStr (PyStr.take n s))
  | _ => Raise TypeError
  end.

End Py.

Export Py.

(* ================================================================== *)
(** * [src/llm_provider.py] *)
(* ================================================================== *)

Module LLMProvider.

(** A text between double quotes. *)
Definition q (s : string) : string := PyStr.DQ ++ s ++ PyStr.DQ.

(** The system prompt of [analyze_code_chunk]. *)
Definition system_prompt : string :=
  PyStr.join PyStr.LF
    [ "You are an expert code analyzer. Analyze the provided code and extract structured information.";
      "Focus on:";
      "1. Key classes and their purposes";
      "2. Important methods with signatures and descriptions";
      "3. Design patterns used";
      "4. Code complexity indicators";
      "5. Dependencies and relationships";
      "";
      "Return your analysis in a structured JSON format." ].

(** The user prompt of [analyze_code_chunk], an f-string over the chunk
    text, the chunk index and the number of chunks. *)
Definition user_prompt (chunk_text : string) (chunk_id total_chunks : nat)
  : string :=
  PyStr.join PyStr.LF
    [ "Analyze the following code (Chunk " ++ PyStr.of_nat (chunk_id + 1)
        ++ "/" ++ PyStr.of_nat total_chunks ++ "):";
      "";
      chunk_text;
      "";
      "Please provide a JSON response with the following structure:";
      "{";
      "    " ++ q "chunk_id" ++ ": " ++ PyStr.of_nat chunk_id ++ ",";
      "    " ++ q "files" ++ ": [";
      "        {";
      "            " ++ q "path" ++ ": " ++ q "file/path" ++ ",";
      "            " ++ q "classes" ++ ": [";
      "                {";
      "                    " ++ q "name" ++ ": " ++ q "ClassName" ++ ",";
      "                    " ++ q "purpose" ++ ": "
        ++ q "Brief description" ++ ",";
      "                    " ++ q "methods" ++ ": [";
      "                        {";
      "                            " ++ q "name" ++ ": "
        ++ q "methodName" ++ ",";
      "                            " ++ q "signature" ++ ": "
        ++ q "returnType methodName(params)" ++ ",";
      "                            " ++ q "description" ++ ": "
        ++ q "What this method does" ++ ",";
      "                            " ++ q "complexity" ++ ": "
        ++ q "low/medium/high";
      "                        }";
      "                    ],";
      "                    " ++ q "relationships" ++ ": ["
        ++ q "depends on X" ++ ", " ++ q "implements Y" ++ "]";
      "                }";
      "            ],";
      "            " ++ q "key_functions" ++ ": [],";
      "            " ++ q "complexity_notes" ++ ": "
        ++ q "Overall complexity assessment";
      "        }";
      "    ]";
      "}";
      "";
      "Be concise but thorough. Focus on the most important elements." ].

(** Lines 143-150: the text handed to [json.loads].  With a tagged
    fence the payload starts 7 characters after it, with an untagged
    fence 3 characters after it, and runs to the next fence; [find]
    answers [-1] when the closing fence is missing, and the slice then
    ends one character before the end. *)
Definition extract_json (response : string) : string :=
  if PyStr.contains "```json" response then
    let json_start := (PyStr.find "```json" response + 7)%Z in
    let json_end := PyStr.find_at "```" response json_start in
    PyStr.strip (PyStr.slice response json_start json_end)
  else if PyStr.contains "```" response then
    let json_start := (PyStr.find "```" response + 3)%Z in
    let json_end := PyStr.find_at "```" response json_start in
    PyStr.strip (PyStr.slice response json_start json_end)
  else response.

(** The dict returned by the [except json.JSONDecodeError] branch; at
    that point the variable [response] holds the extracted text. *)
Definition parse_fallback (chunk_id : nat) (response msg : string)
  : value :=
  VDict [ ("chunk_id", VInt (Z.of_nat chunk_id));
          ("files", VList []);
          ("raw_response", VStr response);
          ("parse_error", VStr msg) ].

Section Provider.

(** [json.loads]; it raises [JSONDecodeError] on a text that is not
    JSON, and [str(e)] is the message the exception carries. *)
Variable json_loads : string -> result value.

(** The remote model.  [self.invoke(system_prompt, user_prompt)]
    answers with the response text or raises, and the service moves to
    a new state. *)
Variable llm : Type.
Variable invoke : llm -> string -> string -> result string * llm.

(** Lines 139-161 of [analyze_code_chunk]: everything after the call
    of the model.  Only [JSONDecodeError] is caught. *)
Definition parse_response (response : string) (chunk_id : nat)
  : result value :=
  let response := extract_json response in
  match json_loads response with
  | Ok v => Ok v
  | Raise (JSONDecodeError msg) =>
      Ok (parse_fallback chunk_id response msg)
  | Raise e => Raise e
  end.

(** [LLMProvider.analyze_code_chunk] *)
Definition analyze_code_chunk (st : llm) (chunk_text : string)
           (chunk_id total_chunks : nat) : result value * llm :=
  let (r, st') :=
    invoke st system_prompt (user_prompt chunk_text chunk_id total_chunks) in
  match r with
  | Ok response => (parse_response response chunk_id, st')
  | Raise e => (Raise e, st')
  end.

End Provider.

End LLMProvider.

(* ================================================================== *)
(** * [src/analyzer.py] *)
(* ================================================================== *)

Module Analyzer.

Import Chunker.

(** One block reported by radon's [cc_visit]: the attributes
    [name], [complexity], [letter] and [lineno] the code reads. *)
Record cc_item : Type := mkItem {
  item_name : string;
  item_complexity : Z;
  item_letter : string;
  item_lineno : Z
}.

(** An entry of [file_complexity["functions"]]. *)
Record function_entry : Type := mkFunction {
  fn_name : string;
  fn_complexity : Z;
  fn_type : string;
  fn_line : Z;
  fn_complexity_level : string
}.

(** The dict [file_complexity]. *)
Record file_complexity : Type := mkFileComplexity {
  fc_path : string;
  fc_functions : list function_entry;
  fc_max_complexity : Z;
  fc_complexity_level : string
}.

(** An entry of [summary["high_complexity_files"]]. *)
Record high_entry : Type := mkHigh {
  he_path : string;
  he_max_complexity : Z
}.

(** [CodeAnalyzer._classify_complexity] *)
Definition _classify_complexity (score : Z) : string :=
  if (score <=? 5)%Z then "low"
  else if (score <=? 10)%Z then "medium"
  else "high".

(** [file.extension not in ['.py', '.java']], negated. *)
Definition supported (f : CodeFile) : bool :=
  String.eqb (extension f) ".py" || String.eqb (extension f) ".java".

Section Complexity.

(** Python floats with the two builtins applied to them: true division
    of integers and [round(x, ndigits)]. *)
Variable float : Type.
Variable truediv : Z -> Z -> float.
Variable round : float -> Z -> float.

(** radon's [cc_visit]; any exception it raises is swallowed by the
    [except Exception] of the loop. *)
Variable cc_visit : string -> result (list cc_item).

(** The value of [summary["average_complexity"]]: the integer [0] it
    is initialised with, or the float assigned after the loop. *)
Inductive number : Type :=
| NInt (z : Z)
| NFloat (x : float).

(** [complexity_results["summary"]] *)
Record summary : Type := mkSummary {
  total_files : nat;
  analyzed_files : nat;
  high_complexity_files : list high_entry;
  average_complexity : number
}.

(** [complexity_results] *)
Record complexity_results : Type := mkResults {
  cr_files : list file_complexity;
  cr_summary : summary
}.

(** The inner loop over [cc_results]: the running maximum starts at 0
    and the entries are appended in order. *)
Definition visit_items (items : list cc_item)
  : list function_entry * Z :=
  fold_left
    (fun (acc : list function_entry * Z) (item : cc_item) =>
       let complexity_score := item_complexity item in
       ((fst acc ++
           [ {| fn_name := item_name item;
                fn_complexity := complexity_score;
                fn_type := item_letter item;
                fn_line := item_lineno item;
                fn_complexity_level :=
                  _classify_complexity complexity_score |} ])%list,
        Z.max (snd acc) complexity_score))
    items ([], 0%Z).

(** The variables the outer loop updates. *)
Record acc : Type := mkAcc {
  acc_files : list file_complexity;
  acc_high : list high_entry;
  total_complexity : Z;
  analyzed_count : nat
}.

(** One iteration of [for file in code_files]. *)
Definition visit_file (a : acc) (file : CodeFile) : acc :=
  if negb (supported file) then a
  else
    match cc_visit (content file) with
    | Raise _ => a
    | Ok cc_results =>
        let (functions, max_complexity) := visit_items cc_results in
        let fc :=
          {| fc_path := relative_path file;
             fc_functions := functions;
             fc_max_complexity := max_complexity;
             fc_complexity_level := _classify_complexity max_complexity |} in
        {| acc_files := (acc_files a ++ [fc])%list;
           acc_high :=
             if (10 <? max_complexity)%Z
             then (acc_high a ++
                   [ {| he_path := relative_path file;
                        he_max_complexity := max_complexity |} ])%list
             else acc_high a;
           total_complexity := (total_complexity a + max_complexity)%Z;
           analyzed_count := S (analyzed_count a) |}
    end.

(** [CodeAnalyzer.analyze_complexity] *)
Definition analyze_complexity (code_files : list CodeFile)
  : complexity_results :=
  let a :=
    fold_left visit_file code_files
      {| acc_files := []; acc_high := [];
         total_complexity := 0%Z; analyzed_count := 0 |} in
  {| cr_files := acc_files a;
     cr_summary :=
       {| total_files := List.length code_files;
          analyzed_files := analyzed_count a;
          high_complexity_files := acc_high a;
          average_complexity :=
            if 0 <? analyzed_count a
            then NFloat (round (truediv (total_complexity a)
                                        (Z.of_nat (analyzed_count a))) 2)
            else NInt 0 |} |}.

End Complexity.

Section Chunks.

Variable json_loads : string -> result value.
Variable llm : Type.
Variable invoke : llm -> string -> string -> result string * llm.

(** Step 3 of [CodeAnalyzer.analyze_with_llm] (lines 172-177): the loop
    [for i, chunk in enumerate(chunks)], entered at index [i] with the
    model in state [st].  An exception of a call leaves the loop. *)
Fixpoint analyze_chunks_from (st : llm) (i total : nat)
         (chunks : list CodeChunk) : result (list value) * llm :=
  match chunks with
  | [] => (Ok [], st)
  | chunk :: rest =>
      let chunk_text := to_text chunk in
      let (r, st1) :=
        LLMProvider.analyze_code_chunk json_loads llm invoke
          st chunk_text i total in
      match r with
      | Raise e => (Raise e, st1)
      | Ok analysis =>
          let (rs, st2) := analyze_chunks_from st1 (S i) total rest in
          (match rs with
           | Ok analyses => Ok (analysis :: analyses)
           | Raise e => Raise e
           end, st2)
      end
  end.

Definition analyze_chunks (st : llm) (chunks : list CodeChunk)
  : result (list value) * llm :=
  analyze_chunks_from st 0 (List.length chunks) chunks.

End Chunks.

End Analyzer.

(* ================================================================== *)
(** * [src/output_formatter.py] *)
(* ================================================================== *)

Module OutputFormatter.

Import Analyzer.

(** ** [_format_complexity_analysis] *)

(** An entry of [complex_functions]. *)
Record complex_function : Type := mkComplexFunction {
  cf_name : string;
  cf_complexity : Z;
  cf_line : Z
}.

(** An entry of [detailed_metrics]. *)
Record detailed_metric : Type := mkMetric {
  dm_file : string;
  dm_max_complexity : Z;
  dm_complexity_level : string;
  dm_complex_functions : list complex_function
}.

Section FormatComplexity.

Variable float : Type.

(** The dict under the key [summary] of the formatted result. *)
Record complexity_summary : Type := mkComplexitySummary {
  total_files_analyzed : nat;
  cs_average_complexity : number float;
  high_complexity_count : nat
}.

(** The formatted result: the placeholder returned for an empty
    [complexity_data], or the three keys of the normal case. *)
Inductive complexity_report : Type :=
| NoComplexity (summary : string) (high_complexity_files : list high_entry)
| Complexity (summary : complexity_summary)
             (high_complexity_files : list high_entry)
             (detailed_metrics : list detailed_metric).

(** The inner comprehension with its [[:10]]. *)
Definition complex_functions_of (f : file_complexity)
  : list complex_function :=
  firstn 10
    (map (fun func =>
            {| cf_name := fn_name func;
               cf_complexity := fn_complexity func;
               cf_line := fn_line func |})
         (filter (fun func => (5 <? fn_complexity func)%Z)
                 (fc_functions f))).

(** The outer comprehension with its [[:20]]. *)
Definition detailed_metrics_of (fs : list file_complexity)
  : list detailed_metric :=
  firstn 20
    (map (fun f =>
            {| dm_file := fc_path f;
               dm_max_complexity := fc_max_complexity f;
               dm_complexity_level := fc_complexity_level f;
               dm_complex_functions := complex_functions_of f |})
         (filter (fun f => (5 <? fc_max_complexity f)%Z) fs)).

(** [OutputFormatter._format_complexity_analysis]; [None] is the empty
    dict [format_results] passes when the key is missing. *)
Definition _format_complexity_analysis
           (complexity_data : option (complexity_results float))
  : complexity_report :=
  match complexity_data with
  | None => NoComplexity "No complexity analysis available" []
  | Some data =>
      let summary := cr_summary float data in
      Complexity
        {| total_files_analyzed := analyzed_files float summary;
           cs_average_complexity := average_complexity float summary;
           high_complexity_count :=
             List.length (high_complexity_files float summary) |}
        (high_complexity_files float summary)
        (detailed_metrics_of (cr_files float data))
  end.

End FormatComplexity.

(** The [high_complexity_files] list of a formatted result. *)
Definition report_high_complexity_files {float : Type}
           (r : complexity_report float) : list high_entry :=
  match r with
  | NoComplexity _ _ h => h
  | Complexity _ _ h _ => h
  end.

(** The [detailed_metrics] list of a formatted result (absent from the
    placeholder). *)
Definition report_detailed_metrics {float : Type}
           (r : complexity_report float) : list detailed_metric :=
  match r with
  | NoComplexity _ _ _ => []
  | Complexity _ _ _ d => d
  end.

(** ** [_format_detailed_analysis] *)

(** An entry of [key_methods]. *)
Record method_info : Type := mkMethod {
  m_name : value;
  m_signature : value;
  m_description : value;
  m_complexity : value
}.

(** The dict [class_info]. *)
Record class_info : Type := mkClass {
  c_name : value;
  c_file : value;
  c_purpose : value;
  c_method_count : nat;
  c_key_methods : list method_info;
  c_relationships : value
}.

(** An entry of [all_key_functions]. *)
Record function_info : Type := mkFunctionInfo {
  f_name : value;
  f_file : value;
  f_description : value
}.

(** The dict the method returns. *)
Record detailed_report : Type := mkDetailed {
  total_classes_identified : nat;
  total_key_functions_identified : nat;
  classes : list class_info;
  key_functions : list function_info
}.

(** One element of the [key_methods] comprehension. *)
Definition format_method (m : value) : result method_info :=
  name <- Py.get m "name" (VStr "") ;;
  signature <- Py.get m "signature" (VStr "") ;;
  description <- Py.get m "description" (VStr "") ;;
  complexity <- Py.get m "complexity" (VStr "unknown") ;;
  Ok {| m_name := name; m_signature := signature;
        m_description := description; m_complexity := complexity |}.

(** The body of [for cls in file_analysis.get("classes", [])]; the
    items of the dict literal are evaluated in order. *)
Definition format_class (file_path : value) (cls : value)
  : result class_info :=
  name <- Py.get cls "name" (VStr "") ;;
  purpose <- Py.get cls "purpose" (VStr "") ;;
  methods <- Py.get cls "methods" (VList []) ;;
  method_count <- Py.len methods ;;
  methods' <- Py.get cls "methods" (VList []) ;;
  top <- Py.slice_to 5 methods' ;;
  ms <- Py.iter top ;;
  key_methods <- mapM format_method ms ;;
  relationships <- Py.get cls "relationships" (VList []) ;;
  Ok {| c_name := name; c_file := file_path; c_purpose := purpose;
        c_method_count := method_count; c_key_methods := key_methods;
        c_relationships := relationships |}.

(** The body of [for func in file_analysis.get("key_functions", [])]. *)
Definition format_function (file_path : value) (func : value)
  : result function_info :=
  name <- Py.get func "name" (VStr "") ;;
  description <- Py.get func "description" (VStr "") ;;
  Ok {| f_name := name; f_file := file_path;
        f_description := description |}.

(** The body of [for file_analysis in chunk["files"]]: what one file
    entry appends to [all_classes] and to [all_key_functions]. *)
Definition format_file (file_analysis : value)
  : result (list class_info * list function_info) :=
  file_path <- Py.get file_analysis "path" (VStr "unknown") ;;
  cls_value <- Py.get file_analysis "classes" (VList []) ;;
  cls_items <- Py.iter cls_value ;;
  cs <- mapM (format_class file_path) cls_items ;;
  fn_value <- Py.get file_analysis "key_functions" (VList []) ;;
  fn_items <- Py.iter fn_value ;;
  fs <- mapM (format_function file_path) fn_items ;;
  Ok (cs, fs).

(** The body of [for chunk in chunk_analyses]. *)
Definition format_chunk (chunk : value)
  : result (list class_info * list function_info) :=
  has_files <- Py.contains "files" chunk ;;
  if has_files : bool then
    files_value <- Py.getitem chunk "files" ;;
    file_items <- Py.iter files_value ;;
    per_file <- mapM format_file file_items ;;
    Ok (List.concat (map fst per_file), List.concat (map snd per_file))
  else Ok ([], []).

(** The two accumulators after the loop over [chunk_analyses]. *)
Definition collect (chunk_analyses : list value)
  : result (list class_info * list function_info) :=
  per_chunk <- mapM format_chunk chunk_analyses ;;
  Ok (List.concat (map fst per_chunk), List.concat (map snd per_chunk)).

(** [OutputFormatter._format_detailed_analysis] *)
Definition _format_detailed_analysis (chunk_analyses : list value)
  : result detailed_report :=
  acc <- collect chunk_analyses ;;
  let all_classes := fst acc in
  let all_key_functions := snd acc in
  Ok {| total_classes_identified := List.length all_classes;
        total_key_functions_identified := List.length all_key_functions;
        classes := all_classes;
        key_functions := firstn 50 all_key_functions |}.

End OutputFormatter.

(* ================================================================== *)
(** * [main.py] *)
(* ================================================================== *)

Module Main.

(** The body of [main] runs under [try]; it ends with [return 0], and
    both handlers ([KeyboardInterrupt], [Exception]) end with
    [return 1]. *)
Definition exit_status {A : Type} (body : result A) : Z :=
  match body with
  | Ok _ => 0%Z
  | Raise _ => 1%Z
  end.

End Main.

(* ================================================================== *)
(** * Further operations on Python values *)
(* ================================================================== *)

Module PyMore.

(** [d[k] = v] on the items of a dict: an existing key keeps its
    position and takes the new value, a new key goes to the end. *)
Fixpoint dict_set {V : Type} (k : string) (v : V) (d : list (string * V))
  : list (string * V) :=
  match d with
  | [] => [(k, v)]
  | (k', v') :: rest =>
      if String.eqb k' k then (k', v) :: rest
      else (k', v') :: dict_set k v rest
  end.

(** [d.get(k)] on the items of a dict. *)
Fixpoint dict_get {V : Type} (k : string) (d : list (string * V))
  : option V :=
  match d with
  | [] => None
  | (k', v) :: rest => if String.eqb k' k then Some v else dict_get k rest
  end.

(** [v[k] = x] for a string [k]: only a dict accepts it. *)
Definition setitem (v : value) (k : string) (x : value) : result value :=
  match v with
  | VDict d => Ok (VDict (dict_set k x d))
  | _ => Raise TypeError
  end.

(** [s.rstrip(c)] for a one-character argument. *)
Fixpoint rstrip_char (c : ascii) (s : string) : string :=
  match s with
  | EmptyString => EmptyString
  | String a rest =>
      match rstrip_char c rest with
      | EmptyString => if Ascii.eqb a c then EmptyString
                       else String a EmptyString
      | r => String a r
      end
  end.

(** [sum(...)] over natural numbers. *)
Definition total (l : list nat) : nat := fold_right Nat.add 0 l.

End PyMore.

(* ================================================================== *)
(** * [src/repository_manager.py]: repository information *)
(* ================================================================== *)

Module RepositoryInfo.

(** What [get_repository_info] reads from the head of the repository:
    branch name, abbreviated hash, author, date and message. *)
Record head_info : Type := mkHead {
  branch : string;
  hash : string;
  author : string;
  date : string;
  message : string
}.

(** The attribute [self.repo] when it is set: reading the head may
    raise (the git library is an external collaborator). *)
Record repo_handle : Type := mkRepo {
  head : result head_info
}.

(** The three dicts [get_repository_info] can return. *)
Inductive repository_info : Type :=
| RepoNone
| RepoBasic (url local_path : string)
| RepoFull (url local_path : string) (h : head_info).

(** [RepositoryManager.get_repository_info] for the configured
    [repo_url] and [local_path]. *)
Definition get_repository_info (repo_url local_path : string)
           (repo : option repo_handle) : repository_info :=
  match repo with
  | None => RepoNone
  | Some r =>
      match head r with
      | Ok h => RepoFull repo_url local_path h
      | Raise _ => RepoBasic repo_url local_path
      end
  end.

(** The dict itself. *)
Definition to_value (info : repository_info) : value :=
  match info with
  | RepoNone => VDict []
  | RepoBasic url local_path =>
      VDict [("url", VStr url); ("local_path", VStr local_path)]
  | RepoFull url local_path h =>
      VDict [ ("url", VStr url);
              ("local_path", VStr local_path);
              ("branch", VStr (branch h));
              ("last_commit",
               VDict [ ("hash", VStr (hash h));
                       ("author", VStr (author h));
                       ("date", VStr (date h));
                       ("message", VStr (message h)) ]) ]
  end.

(** [repo_info.get('url', 'Unknown')] as it is formatted into a
    prompt. *)
Definition url_text (info : repository_info) : string :=
  match info with
  | RepoNone => "Unknown"
  | RepoBasic url _ => url
  | RepoFull url _ _ => url
  end.

End RepositoryInfo.

(* ================================================================== *)
(** * [src/llm_provider.py]: the project overview *)
(* ================================================================== *)

Module ProjectOverview.

Import LLMProvider RepositoryInfo.

(** The system prompt of [generate_project_overview]. *)
Definition system_prompt : string :=
  PyStr.join PyStr.LF
    [ "You are an expert software architect analyzing a codebase. ";
      "Provide a high-level overview of the project including its purpose, architecture, and key technologies." ].

(** The user prompt of [generate_project_overview]. *)
Definition user_prompt (overview_text : string) (repo_info : repository_info)
  : string :=
  PyStr.join PyStr.LF
    [ "Analyze this project overview:";
      "";
      "Repository: " ++ url_text repo_info;
      "";
      overview_text;
      "";
      "Please provide a JSON response with:";
      "{";
      "    " ++ q "project_name" ++ ": " ++ q "Name of the project" ++ ",";
      "    " ++ q "purpose" ++ ": " ++ q "What this project does" ++ ",";
      "    " ++ q "domain" ++ ": "
        ++ q "Application domain (e.g., e-commerce, data processing, web app)"
        ++ ",";
      "    " ++ q "key_technologies" ++ ": [" ++ q "tech1" ++ ", "
        ++ q "tech2" ++ "],";
      "    " ++ q "architecture_style" ++ ": "
        ++ q "MVC, Microservices, Layered, etc." ++ ",";
      "    " ++ q "main_components" ++ ": [";
      "        {";
      "            " ++ q "name" ++ ": " ++ q "component name" ++ ",";
      "            " ++ q "description" ++ ": " ++ q "what it does";
      "        }";
      "    ],";
      "    " ++ q "estimated_complexity" ++ ": " ++ q "low/medium/high" ++ ",";
      "    " ++ q "notable_features" ++ ": [" ++ q "feature1" ++ ", "
        ++ q "feature2" ++ "]";
      "}" ].

(** The dict returned by the [except json.JSONDecodeError] branch. *)
Definition overview_fallback (response : string)
           (repo_info : repository_info) (msg : string) : value :=
  VDict [ ("project_name", VStr "Unknown");
          ("purpose", VStr (PyStr.take 500 response));
          ("repository_info", to_value repo_info);
          ("parse_error", VStr msg) ].

Section Provider.

Variable json_loads : string -> result value.
Variable llm : Type.
Variable invoke : llm -> string -> string -> result string * llm.

(** Lines 202-224: everything after the call of the model.  The item
    assignment is inside the [try], and only [JSONDecodeError] is
    caught. *)
Definition parse_overview (response : string) (repo_info : repository_info)
  : result value :=
  let response := extract_json response in
  match json_loads response with
  | Ok overview =>
      PyMore.setitem overview "repository_info" (to_value repo_info)
  | Raise (JSONDecodeError msg) =>
      Ok (overview_fallback response repo_info msg)
  | Raise e => Raise e
  end.

(** [LLMProvider.generate_project_overview] *)
Definition generate_project_overview (st : llm) (overview_text : string)
           (repo_info : repository_info) : result value * llm :=
  let (r, st') :=
    invoke st system_prompt (user_prompt overview_text repo_info) in
  match r with
  | Ok response => (parse_overview response repo_info, st')
  | Raise e => (Raise e, st')
  end.

End Provider.

End ProjectOverview.

(* ================================================================== *)
(** * [src/analyzer.py]: signatures, statistics and the whole analysis *)
(* ================================================================== *)

Module Pipeline.

Import Chunker Analyzer RepositoryInfo.

(** An entry of the list [extract_method_signatures] builds per file. *)
Record method_sig : Type := mkSig {
  sig_signature : string;
  sig_name : string;
  sig_type : string
}.

(** The two patterns of [extract_method_signatures]. *)
Definition java_method_pattern : string :=
  "(public|private|protected|static|\s)+[\w\<\>\[\]]+\s+(\w+)\s*\([^\)]*\)\s*\{".

Definition python_method_pattern : string :=
  "def\s+(\w+)\s*\([^\)]*\):".

(** [CodeAnalyzer._count_files_by_extension]: the dict [counts], in
    insertion order. *)
Definition count_step (counts : list (string * nat)) (file : CodeFile)
  : list (string * nat) :=
  let ext := ext_or_default file in
  let old := match PyMore.dict_get ext counts with
             | Some n => n
             | None => 0
             end in
  PyMore.dict_set ext (old + 1) counts.

Definition _count_files_by_extension (code_files : list CodeFile)
  : list (string * nat) :=
  fold_left count_step code_files [].

(** The dict under the key [statistics]. *)
Record statistics : Type := mkStatistics {
  total_files : nat;
  total_chunks : nat;
  total_lines : nat;
  total_size_bytes : nat;
  files_by_extension : list (string * nat)
}.

Section Signatures.

(** [re.finditer(pattern, text)]: the matches in order, each one by
    its [group] function. *)
Variable finditer : string -> string -> list (nat -> string).

(** The list [methods] built for one file. *)
Definition methods_of (file : CodeFile) : list method_sig :=
  if String.eqb (extension file) ".java" then
    map (fun m : nat -> string =>
           {| sig_signature :=
                PyMore.rstrip_char "{"%char (PyStr.strip (m 0));
              sig_name := m 2;
              sig_type := "java_method" |})
        (finditer java_method_pattern (content file))
  else if String.eqb (extension file) ".py" then
    map (fun m : nat -> string =>
           {| sig_signature := PyStr.strip (m 0);
              sig_name := m 1;
              sig_type := "python_function" |})
        (finditer python_method_pattern (content file))
  else [].

(** One iteration of the loop: a file with at least one method is
    stored under its relative path. *)
Definition signature_step (methods_by_file : list (string * list method_sig))
           (file : CodeFile) : list (string * list method_sig) :=
  match methods_of file with
  | [] => methods_by_file
  | methods => PyMore.dict_set (relative_path file) methods methods_by_file
  end.

(** [CodeAnalyzer.extract_method_signatures] *)
Definition extract_method_signatures (code_files : list CodeFile)
  : list (string * list method_sig) :=
  fold_left signature_step code_files [].

End Signatures.

Section Analysis.

Variable count_tokens : string -> nat.
Variable max_tokens : Z.
Variable json_loads : string -> result value.
Variable llm : Type.
Variable invoke : llm -> string -> string -> result string * llm.
Variable float : Type.
Variable truediv : Z -> Z -> float.
Variable round : float -> Z -> float.
Variable cc_visit : string -> result (list cc_item).
Variable finditer : string -> string -> list (nat -> string).

(** The dict [results] of [analyze_with_llm]. *)
Record analysis_results : Type := mkAnalysis {
  project_overview : value;
  chunk_analyses : list value;
  complexity_analysis : complexity_results float;
  method_signatures : list (string * list method_sig);
  stats : statistics
}.

(** [CodeAnalyzer.analyze_with_llm]: the overview call, the chunking,
    the loop over the chunks, the metrics pass and the signatures; an
    exception of a call of the model leaves the method at once. *)
Definition analyze_with_llm (st : llm) (code_files : list CodeFile)
           (repo_info : repository_info) : result analysis_results * llm :=
  let overview_text := create_project_overview_chunk code_files in
  let (r1, st1) :=
    ProjectOverview.generate_project_overview json_loads llm invoke
      st overview_text repo_info in
  match r1 with
  | Raise e => (Raise e, st1)
  | Ok overview =>
      let chunks := create_chunks count_tokens max_tokens code_files in
      let (r2, st2) := analyze_chunks json_loads llm invoke st1 chunks in
      match r2 with
      | Raise e => (Raise e, st2)
      | Ok analyses =>
          let complexity_results :=
            analyze_complexity float truediv round cc_visit code_files in
          let signatures := extract_method_signatures finditer code_files in
          (Ok {| project_overview := overview;
                 chunk_analyses := analyses;
                 complexity_analysis := complexity_results;
                 method_signatures := signatures;
                 stats :=
                   {| total_files := List.length code_files;
                      total_chunks := List.length chunks;
                      total_lines :=
                        PyMore.total
                          (map (fun f => PyStr.line_count (content f))
                               code_files);
                      total_size_bytes := PyMore.total (map size code_files);
                      files_by_extension :=
                        _count_files_by_extension code_files |} |},
           st2)
      end
  end.

End Analysis.

End Pipeline.

(* ================================================================== *)
(** * [src/output_formatter.py]: the formatted document *)
(* ================================================================== *)

Module Report.

Import Analyzer OutputFormatter Pipeline.

(** An entry of [files_info]. *)
Record file_info : Type := mkFileInfo {
  fi_path : string;
  fi_method_count : nat;
  fi_methods : list method_sig
}.

(** The dict [_format_code_structure] returns. *)
Record code_structure : Type := mkStructure {
  total_files_with_methods : nat;
  cs_files : list file_info
}.

(** The body of [_format_code_structure], applied to the dict of
    method signatures. *)
Definition code_structure_of
           (method_sigs : list (string * list method_sig)) : code_structure :=
  let files_info :=
    map (fun entry : string * list method_sig =>
           {| fi_path := fst entry;
              fi_method_count := List.length (snd entry);
              fi_methods := firstn 20 (snd entry) |})
        method_sigs in
  {| total_files_with_methods := List.length files_info;
     cs_files := files_info |}.

(** The dict under the key [metadata]. *)
Record metadata : Type := mkMetadata {
  analysis_date : string;
  analyzer_version : string;
  md_llm_provider : string;
  repository : value
}.

(** The dict under the key [project_overview]. *)
Record overview_section : Type := mkOverview {
  ov_name : value;
  ov_purpose : value;
  ov_domain : value;
  ov_architecture : value;
  ov_key_technologies : value;
  ov_main_components : value;
  ov_estimated_complexity : value;
  ov_notable_features : value
}.

Section Format.

Variable float : Type.

(** [datetime.now().isoformat()] and [config.llm_provider]. *)
Variable now : string.
Variable llm_provider : string.

(** The document [format_results] returns. *)
Record formatted_results : Type := mkFormatted {
  fr_metadata : metadata;
  fr_project_overview : overview_section;
  fr_statistics : statistics;
  fr_code_structure : code_structure;
  fr_complexity_analysis : complexity_report float;
  fr_detailed_analysis : detailed_report
}.

(** [OutputFormatter._format_code_structure] *)
Definition _format_code_structure (analysis : analysis_results float)
  : code_structure :=
  code_structure_of (method_signatures float analysis).

(** [OutputFormatter.format_results]; the items of the dict literal are
    evaluated in order. *)
Definition format_results (analysis : analysis_results float)
  : result formatted_results :=
  let overview := project_overview float analysis in
  repository <- Py.get overview "repository_info" (VDict []) ;;
  name <- Py.get overview "project_name" (VStr "Unknown") ;;
  purpose <- Py.get overview "purpose" (VStr "") ;;
  domain <- Py.get overview "domain" (VStr "") ;;
  architecture <- Py.get overview "architecture_style" (VStr "") ;;
  key_technologies <- Py.get overview "key_technologies" (VList []) ;;
  main_components <- Py.get overview "main_components" (VList []) ;;
  estimated_complexity <- Py.get overview "estimated_complexity" (VStr "") ;;
  notable_features <- Py.get overview "notable_features" (VList []) ;;
  detailed <- _format_detailed_analysis (chunk_analyses float analysis) ;;
  Ok {| fr_metadata :=
          {| analysis_date := now;
             analyzer_version := "1.0.0";
             md_llm_provider := llm_provider;
             repository := repository |};
        fr_project_overview :=
          {| ov_name := name;
             ov_purpose := purpose;
             ov_domain := domain;
             ov_architecture := architecture;
             ov_key_technologies := key_technologies;
             ov_main_components := main_components;
             ov_estimated_complexity := estimated_complexity;
             ov_notable_features := notable_features |};
        fr_statistics := stats float analysis;
        fr_code_structure := _format_code_structure analysis;
        fr_complexity_analysis :=
          _format_complexity_analysis float
            (Some (complexity_analysis float analysis));
        fr_detailed_analysis := detailed |}.

End Format.

End Report.

(* ================================================================== *)
(** * [main.py]: the pipeline *)
(* ================================================================== *)

Module Program.

Import Chunker Analyzer Pipeline Report RepositoryInfo.

Section Main.

Variable count_tokens : string -> nat.
Variable max_tokens : Z.
Variable json_loads : string -> result value.
Variable llm : Type.
Variable invoke : llm -> string -> string -> result string * llm.
Variable float : Type.
Variable truediv : Z -> Z -> float.
Variable round : float -> Z -> float.
Variable cc_visit : string -> result (list cc_item).
Variable finditer : string -> string -> list (nat -> string).
Variable now : string.
Variable llm_provider : string.

(** [config.repo_url] and [str(Path(config.repo_local_path))]. *)
Variable repo_url : string.
Variable local_path : string.

(** [RepositoryManager.clone_repository]: the value of [self.repo]
    after the call, or the exception of a failed clone. *)
Variable clone_repository : result (option repo_handle).

(** [RepositoryManager.read_codebase] *)
Variable read_codebase : result (list CodeFile).

(** [OutputFormatter.save_results] and [save_summary]: the path
    written, or the exception of the file system. *)
Variable save_results :
  formatted_results float -> option string -> result string.
Variable save_summary : formatted_results float -> result string.

(** Step 1 of [main]: with [--skip-clone] a fresh manager is asked,
    whose [self.repo] is [None]. *)
Definition repository_step (skip_clone : bool) : result repository_info :=
  if skip_clone
  then Ok (get_repository_info repo_url local_path None)
  else repo <- clone_repository ;;
       Ok (get_repository_info repo_url local_path repo).

(** The constructors [CodeAnalyzer()] (which builds the client of the
    model and loads the tokenizer) and [OutputFormatter()] (which
    creates the output directory): each returns or raises. *)
Variable new_analyzer : result unit.
Variable new_formatter : result unit.

(** Steps 3 to 5, after the files were read and found non-empty. *)
Definition analyze_and_save (st : llm) (code_files : list CodeFile)
           (repo_info : repository_info) (output_file : option string)
  : result unit * llm :=
  match new_analyzer with
  | Raise e => (Raise e, st)
  | Ok _ =>
      let (r, st') :=
        analyze_with_llm count_tokens max_tokens json_loads llm invoke
          float truediv round cc_visit finditer st code_files repo_info in
      (analysis <- r ;;
       _ <- new_formatter ;;
       formatted <- format_results float now llm_provider analysis ;;
       _ <- save_results formatted output_file ;;
       _ <- save_summary formatted ;;
       Ok tt,
       st')
  end.

(** [main]: the exit status and the state the model is left in. *)
Definition main (st : llm) (skip_clone : bool) (output_file : option string)
  : Z * llm :=
  match repository_step skip_clone with
  | Raise _ => (1%Z, st)
  | Ok repo_info =>
      match read_codebase with
      | Raise _ => (1%Z, st)
      | Ok [] => (1%Z, st)
      | Ok code_files =>
          let (r, st') :=
            analyze_and_save st code_files repo_info output_file in
          (Main.exit_status r, st')
      end
  end.

End Main.

End Program.

(* ================================================================== *)
(** * Concrete inputs used by the examples *)
(* ================================================================== *)

Module Fixtures.

Import Chunker.

(** A tokenizer that makes every character one token. *)
Definition count_chars (text : string) : nat := String.length text.

Definition doc_a : CodeFile := mkCodeFile "/repo/a.py" "a.py" "x = 1" ".py".
Definition doc_b : CodeFile := mkCodeFile "/repo/b.py" "b.py" "y = 2" ".py".
Definition doc_c : CodeFile := mkCodeFile "/repo/c.py" "c.py" "z = 3" ".py".
Definition doc_d : CodeFile := mkCodeFile "/repo/d.py" "d.py" "w = 4" ".py".

(** Two documents whose paths match [readme], and one that does not. *)
Definition readme_first : CodeFile :=
  mkCodeFile "/repo/README.md" "README.md" "first text" ".md".
Definition readme_first' : CodeFile :=
  mkCodeFile "/repo/README.md" "README.md" "another text" ".md".
Definition readme_last : CodeFile :=
  mkCodeFile "/repo/docs/Readme.txt" "docs/Readme.txt" "last text" ".txt".

(** The JSON text of an analysis with three classes and one key
    function, and the object it denotes. *)
Definition structured_text : string :=
  let q := LLMProvider.q in
  "{" ++ q "chunk_id" ++ ": 0, " ++ q "files" ++ ": [{"
  ++ q "path" ++ ": " ++ q "a.py" ++ ", "
  ++ q "classes" ++ ": [{" ++ q "name" ++ ": " ++ q "Parser" ++ "}, {"
  ++ q "name" ++ ": " ++ q "Lexer" ++ "}, {"
  ++ q "name" ++ ": " ++ q "Printer" ++ "}], "
  ++ q "key_functions" ++ ": [{" ++ q "name" ++ ": " ++ q "main" ++ "}]}]}".

Definition structured_value : value :=
  VDict
    [ ("chunk_id", VInt 0);
      ("files",
       VList
         [ VDict
             [ ("path", VStr "a.py");
               ("classes",
                VList [ VDict [("name", VStr "Parser")];
                        VDict [("name", VStr "Lexer")];
                        VDict [("name", VStr "Printer")] ]);
               ("key_functions",
                VList [ VDict [("name", VStr "main")] ]) ] ]) ].

(** A decoder that knows this one document and rejects every other
    text the way [json.loads] rejects a text that starts with a letter. *)
Definition decode (text : string) : result value :=
  if String.eqb text structured_text then Ok structured_value
  else Raise (JSONDecodeError "Expecting value: line 1 column 1 (char 0)").

(** A response that wraps a payload in a tagged fence. *)
Definition fenced (payload : string) : string :=
  "```json" ++ PyStr.LF ++ payload ++ PyStr.LF ++ "```".

(** A model that answers its first call with the structured document
    and every later call with a text that is not JSON; its state is
    the number of calls answered. *)
Definition canned_invoke (calls : nat) (system user : string)
  : result string * nat :=
  (Ok (nth calls [fenced structured_text] (fenced "nope")), S calls).

(** The fallback the second chunk of a run degrades to. *)
Definition raw_partial : value :=
  LLMProvider.parse_fallback 1 "nope"
    "Expecting value: line 1 column 1 (char 0)".

(** Floats kept symbolic: a quotient and a rounding are recorded, not
    evaluated. *)
Inductive sym_float : Type :=
| Quot (a b : Z)
| Rounded (x : sym_float) (ndigits : Z).

(** A Python function with ten [if] statements: one block named [f] at
    line 1, of cyclomatic complexity 11. *)
Definition branchy_source : string :=
  "def f(x):" ++ PyStr.repeat (PyStr.LF ++ "    if x: pass") 10.

(** A metrics collaborator that knows this one source text and reports
    no block for any other. *)
Definition cc_known (source : string) : result (list Analyzer.cc_item) :=
  if String.eqb source branchy_source
  then Ok [Analyzer.mkItem "f" 11 "F" 1]
  else Ok [].

(** Twenty-one Python files with that source. *)
Definition complex_files : list CodeFile :=
  map (fun i =>
         let name := "m" ++ PyStr.of_nat i ++ ".py" in
         mkCodeFile ("/repo/" ++ name) name branchy_source ".py")
      (seq 0 21).

(** An analysis with [n] key functions in one file. *)
Definition many_functions (n : nat) : value :=
  VDict
    [ ("files",
       VList
         [ VDict
             [ ("path", VStr "a.py");
               ("key_functions",
                VList (List.repeat (VDict [("name", VStr "f")]) n)) ] ]) ].

(** The two chunks of a run over three small files. *)
Definition two_chunks : list CodeChunk :=
  create_chunks count_chars 300 [doc_a; doc_b; doc_c].

End Fixtures.

(* ================================================================== *)
(** * The properties as the design document words them *)
(* ================================================================== *)

Module Stated.

Import Chunker.

(** A chunk carries an attribute [oversized] that is true. *)
Definition flagged_oversized (c : CodeChunk) : Prop :=
  getattr c "oversized" = Some (ABool true).

(** Budget respect: the cost of the serialized chunk is within the
    budget, or the chunk is a flagged singleton. *)
Definition budget_respect (count_tokens : string -> nat) (max_tokens : Z)
           (code_files : list CodeFile) : Prop :=
  forall c : CodeChunk,
    In c (create_chunks count_tokens max_tokens code_files) ->
    (Z.of_nat (count_tokens (to_text c)) <= max_tokens)%Z
    \/ (List.length (files c) = 1 /\ flagged_oversized c).

(** The last document, in input order, whose path matches [readme]. *)
Fixpoint last_readme (code_files : list CodeFile) : option CodeFile :=
  match code_files with
  | [] => None
  | f :: rest =>
      match last_readme rest with
      | Some r => Some r
      | None => if is_readme f then Some f else None
      end
  end.

(** The extension table as a function of the extensions and paths
    alone. *)
Definition table_of (names : list (string * string)) : ext_table :=
  fold_left (fun d n => add_path (fst n) (snd n) d) names [].

Definition name_of (f : CodeFile) : string * string :=
  (ext_or_default f, relative_path f).

(** The overview text for a given table and README text. *)
Definition overview_text (d : ext_table) (readme : option string)
  : string :=
  let title := "=== PROJECT STRUCTURE ===" ++ PyStr.LF in
  PyStr.join PyStr.LF
    (title :: flat_map ext_parts (PyStr.sorted_by fst d)
     ++ readme_parts readme)%list.

(** Two documents with the same path and extension. *)
Definition same_name (f g : CodeFile) : Prop :=
  relative_path f = relative_path g /\ extension f = extension g.

(** Parse-failure fallback: the result carries the original response
    text and the error description. *)
Definition fallback_keeps_original (json_loads : string -> result value)
           (response : string) (chunk_id : nat) : Prop :=
  forall msg : string,
    json_loads (LLMProvider.extract_json response)
    = Raise (JSONDecodeError msg) ->
    LLMProvider.parse_response json_loads response chunk_id
    = Ok (LLMProvider.parse_fallback chunk_id response msg).

(** The files whose maximum complexity exceeds [bound]. *)
Definition above (bound : Z) (fs : list Analyzer.file_complexity)
  : list Analyzer.file_complexity :=
  filter (fun f => (bound <? Analyzer.fc_max_complexity f)%Z) fs.

(** Cap on the high-complexity file list: its length is the number of
    qualifying files, at most 20. *)
Definition high_complexity_capped (float : Type)
           (results : Analyzer.complexity_results float) : Prop :=
  List.length
    (OutputFormatter.report_high_complexity_files
       (OutputFormatter._format_complexity_analysis float (Some results)))
  = Nat.min (List.length (above 10 (Analyzer.cr_files float results))) 20.

(** The maximum score of a file: the largest of 0 and the scores of its
    blocks. *)
Definition file_maximum (items : list Analyzer.cc_item) : Z :=
  fold_right Z.max 0%Z (map Analyzer.item_complexity items).

(** The blocks of a file that was successfully analyzed: its extension
    is supported and the metrics collaborator did not fail on it. *)
Definition scored (cc_visit : string -> result (list Analyzer.cc_item))
           (f : CodeFile) : option (list Analyzer.cc_item) :=
  if Analyzer.supported f then
    match cc_visit (content f) with
    | Ok items => Some items
    | Raise _ => None
    end
  else None.

(** The maxima of the successfully analyzed files, in input order. *)
Definition scored_maxima
           (cc_visit : string -> result (list Analyzer.cc_item))
           (code_files : list CodeFile) : list Z :=
  flat_map (fun f => match scored cc_visit f with
                     | Some items => [file_maximum items]
                     | None => []
                     end) code_files.

Definition sum (l : list Z) : Z := fold_right Z.add 0%Z l.

(** The state of the model when the loop of [analyze_with_llm] reaches
    the chunk at position [i]: the state left by the calls for the
    chunks before it. *)
Definition state_before (json_loads : string -> result value)
           (llm : Type)
           (invoke : llm -> string -> string -> result string * llm)
           (st : llm) (chunks : list CodeChunk) (i : nat) : llm :=
  snd (Analyzer.analyze_chunks_from json_loads llm invoke st 0
         (List.length chunks) (firstn i chunks)).

End Stated.

(* ================================================================== *)
(** * Invariants and auxiliary notions of the proofs *)
(* ================================================================== *)

Module Invariants.

Import Chunker Analyzer Stated.
Local Open Scope list_scope.

Section Keys.

Context {A : Type} (key : A -> string).

(** Keys in non-decreasing order. *)
Definition key_le (x y : A) : Prop := PyStr.leb (key x) (key y) = true.

End Keys.

(** Everything the loop has consumed so far: the sealed chunks in
    order, then the pending files. *)
Definition consumed (st : loop_state) : list CodeFile :=
  List.concat (map files (chunks st)) ++ current_chunk_files st.

(** The sealed chunks carry the numbers 0, 1, 2, ... and the next
    number is their count. *)
Definition numbered (st : loop_state) : Prop :=
  map chunk_id (chunks st) = seq 0 (List.length (chunks st))
  /\ next_chunk_id st = List.length (chunks st).

Section Budget.

Variable count_tokens : string -> nat.
Variable max_tokens : Z.

(** Cost of the serialized text of a group of files. *)
Definition cost (fs : list CodeFile) : nat :=
  count_tokens (to_text (new_CodeChunk fs 0)).

Definition within_budget (fs : list CodeFile) : Prop :=
  (Z.of_nat (cost fs) <= max_tokens)%Z.

(** What holds of every sealed chunk: it is not empty, and either its
    text fits and its recorded count is the cost of that text, or it
    holds one file and its recorded count is above the budget. *)
Definition chunk_ok (c : CodeChunk) : Prop :=
  files c <> []
  /\ ((within_budget (files c) /\ token_count c = cost (files c))
      \/ (List.length (files c) = 1
          /\ (max_tokens < Z.of_nat (token_count c))%Z)).

(** What holds of the pending files while the loop runs. *)
Definition pending_ok (st : loop_state) : Prop :=
  current_chunk_files st <> [] ->
  within_budget (current_chunk_files st)
  /\ current_tokens st = cost (current_chunk_files st).

Definition budget_inv (st : loop_state) : Prop :=
  Forall chunk_ok (chunks st) /\ pending_ok st.

End Budget.

Section Metrics.

Variable cc_visit : string -> result (list cc_item).

(** The entry the outer loop appends for a file, if any. *)
Definition entry_of (f : CodeFile) : list file_complexity :=
  match scored cc_visit f with
  | Some items =>
      [ {| fc_path := relative_path f;
           fc_functions := fst (visit_items items);
           fc_max_complexity := file_maximum items;
           fc_complexity_level :=
             _classify_complexity (file_maximum items) |} ]
  | None => []
  end.

End Metrics.

Definition high_of (fc : file_complexity) : high_entry :=
  {| he_path := fc_path fc; he_max_complexity := fc_max_complexity fc |}.

End Invariants.

(* ================================================================== *)
(** * Notions used to state further properties *)
(* ================================================================== *)

Module Notions.

Import Chunker Analyzer Stated.
Local Open Scope list_scope.

(** One chunk per file, numbered from [n], each recording the cost of
    its own text. *)
Fixpoint singles (count_tokens : string -> nat) (n : nat)
         (l : list CodeFile) : list CodeChunk :=
  match l with
  | [] => []
  | f :: rest =>
      mkCodeChunk [f] n (Invariants.cost count_tokens [f])
      :: singles count_tokens (S n) rest
  end.

(** The serialized block of one file. *)
Definition single_text (f : CodeFile) : string :=
  to_text (new_CodeChunk [f] 0).

(** A text without the fence character. *)
Fixpoint no_backtick (s : string) : bool :=
  match s with
  | EmptyString => true
  | String c rest => negb (Ascii.eqb c "`"%char) && no_backtick rest
  end.

(** A text without its last character. *)
Definition drop_last (s : string) : string :=
  PyStr.take (String.length s - 1) s.

(** The JSON values that are neither objects, arrays nor strings. *)
Definition is_scalar (v : value) : bool :=
  match v with
  | VNone | VBool _ | VInt _ | VFloat _ => true
  | _ => false
  end.

Definition is_dict (v : value) : bool :=
  match v with
  | VDict _ => true
  | _ => false
  end.

(** The file was successfully analyzed by the metrics pass. *)
Definition analyzed (cc_visit : string -> result (list cc_item))
           (f : CodeFile) : bool :=
  match scored cc_visit f with
  | Some _ => true
  | None => false
  end.

(** The file entry is classified [high]. *)
Definition is_high (fc : file_complexity) : bool :=
  String.eqb (fc_complexity_level fc) "high".

(** The number of paths under each extension of a table. *)
Definition counts_of (d : ext_table) : list (string * nat) :=
  map (fun e => (fst e, List.length (snd e))) d.

(** A file the signature pass looks at. *)
Definition has_methods_extension (f : CodeFile) : bool :=
  String.eqb (extension f) ".java" || String.eqb (extension f) ".py".

(** Every answer of the model is a text whose payload the JSON parser
    rejects. *)
Definition garbled (json_loads : string -> result value) (llm : Type)
           (invoke : llm -> string -> string -> result string * llm)
  : Prop :=
  forall s system user,
  exists response s' msg,
    invoke s system user = (Ok response, s')
    /\ json_loads (LLMProvider.extract_json response)
       = Raise (JSONDecodeError msg).

(** A text without a newline character. *)
Definition single_line (s : string) : Prop :=
  PyStr.count_char (ascii_of_nat 10) s = 0.

(** The pattern the signature pass applies to a file with one of the
    two extensions it looks at. *)
Definition pattern_of (f : CodeFile) : string :=
  if String.eqb (extension f) ".java" then Pipeline.java_method_pattern
  else Pipeline.python_method_pattern.

(** No call of the model raises. *)
Definition never_raises (llm : Type)
           (invoke : llm -> string -> string -> result string * llm)
  : Prop :=
  forall s system user,
  exists response s', invoke s system user = (Ok response, s').

(** [json.loads] raises nothing but [JSONDecodeError]. *)
Definition decode_errors_only (json_loads : string -> result value)
  : Prop :=
  forall text e,
    json_loads text = Raise e -> exists msg, e = JSONDecodeError msg.

(** Every answer of the model whose payload parses is a well-formed
    analysis: a JSON object that the aggregation loop accepts. *)
Definition answers_well_formed (json_loads : string -> result value)
           (llm : Type)
           (invoke : llm -> string -> string -> result string * llm)
  : Prop :=
  forall s system user response s' v,
    invoke s system user = (Ok response, s') ->
    json_loads (LLMProvider.extract_json response) = Ok v ->
    is_dict v = true
    /\ exists r, OutputFormatter.format_chunk v = Ok r.

(** The items of a dict without the keys [classes] and
    [key_functions]. *)
Definition without_lists (d : list (string * value))
  : list (string * value) :=
  filter (fun kv => negb (String.eqb (fst kv) "classes"
                          || String.eqb (fst kv) "key_functions")) d.

End Notions.

(* ================================================================== *)
(** * Further concrete inputs *)
(* ================================================================== *)

Module MoreFixtures.

Import Chunker Fixtures.

(** A decoder that knows the JSON number 42 and rejects every other
    text. *)
Definition decode_number (text : string) : result value :=
  if String.eqb text "42" then Ok (VInt 42)
  else Raise (JSONDecodeError "Expecting value: line 1 column 1 (char 0)").

(** A model that always answers with the number 42. *)
Definition number_invoke (calls : nat) (system user : string)
  : result string * nat :=
  (Ok "42", S calls).

(** A model that always answers with a text that is not JSON. *)
Definition garbled_invoke (calls : nat) (system user : string)
  : result string * nat :=
  (Ok "nope", S calls).

(** A model whose answer to the overview request is not JSON, whose
    answer for the first chunk is the structured document, and whose
    later answers are fenced texts that are not JSON. *)
Definition scenario_invoke (calls : nat) (system user : string)
  : result string * nat :=
  (Ok (nth calls ["nope"; fenced structured_text] (fenced "nope")),
   S calls).

(** A model whose second call times out. *)
Definition flaky_invoke (calls : nat) (system user : string)
  : result string * nat :=
  if calls =? 1 then (Raise (ExternalError "timeout"), S calls)
  else (Ok "nope", S calls).

(** The fallback for the text [nope] at a given chunk index. *)
Definition raw_partial_at (chunk_id : nat) : value :=
  LLMProvider.parse_fallback chunk_id "nope"
    "Expecting value: line 1 column 1 (char 0)".

(** Three chunks of one file each. *)
Definition three_chunks : list CodeChunk :=
  create_chunks count_chars 100 [doc_a; doc_b; doc_c].

(** A class object with seven methods. *)
Definition seven_methods : list (string * value) :=
  [ ("name", VStr "Parser");
    ("methods", VList (List.repeat (VDict [("name", VStr "run")]) 7)) ].

(** A file entry whose [classes] is null. *)
Definition null_classes : list (string * value) :=
  [ ("path", VStr "a.py"); ("classes", VNone) ].

(** A Python file with the branchy function, and the entry the metrics
    pass records for it. *)
Definition branchy_file : CodeFile :=
  mkCodeFile "/repo/m.py" "m.py" branchy_source ".py".

Definition branchy_entry : Analyzer.file_complexity :=
  Analyzer.mkFileComplexity "m.py"
    [Analyzer.mkFunction "f" 11 "F" 1 "high"] 11 "high".

(** A pattern matcher that finds one function definition in the text
    [def run(x): pass] and nothing anywhere else. *)
Definition find_run (pattern text : string) : list (nat -> string) :=
  if String.eqb pattern Pipeline.python_method_pattern
     && String.eqb text "def run(x): pass"
  then [fun group => match group with
                     | 0 => "def run(x):"
                     | _ => "run"
                     end]
  else [].

Definition run_file : CodeFile :=
  mkCodeFile "/repo/run.py" "run.py" "def run(x): pass" ".py".

(** File-system stages that succeed. *)
Definition saved_results {F : Type} (formatted : F) (name : option string)
  : result string :=
  Ok "output/analysis_results.json".

Definition saved_summary {F : Type} (formatted : F) : result string :=
  Ok "output/analysis_summary.txt".

End MoreFixtures.

(* ================================================================== *)
(** * Properties *)
(* ================================================================== *)

(** ** The order on strings and the stable sort *)

Module SortFacts.

Lemma ascii_compare_trans_le (a b c : ascii) :
  Ascii.compare a b <> Gt -> Ascii.compare b c <> Gt ->
  Ascii.compare a c <> Gt.
Proof.
  unfold Ascii.compare. rewrite !N.compare_le_iff. intros; lia.
Qed.

Lemma leb_refl (a : string) : PyStr.leb a a = true.
Proof.
  destruct (String.leb_total a a); assumption.
Qed.

Lemma leb_trans (a b c : string) :
  PyStr.leb a b = true -> PyStr.leb b c = true -> PyStr.leb a c = true.
Proof.
  unfold PyStr.leb, String.leb.
  revert b c. induction a as [|x a IH]; intros [|y b] [|z c]; cbn;
    try reflexivity; try discriminate.
  intros Hab Hbc.
  destruct (Ascii.compare x y) eqn:Exy; try discriminate;
    destruct (Ascii.compare y z) eqn:Eyz; try discriminate.
  - apply Ascii.compare_eq_iff in Exy, Eyz. subst.
    replace (Ascii.compare z z) with Eq.
    + now apply (IH b c).
    + unfold Ascii.compare. now rewrite N.compare_refl.
  - apply Ascii.compare_eq_iff in Exy. subst. now rewrite Eyz.
  - apply Ascii.compare_eq_iff in Eyz. subst. now rewrite Exy.
  - assert (H : Ascii.compare x z = Lt).
    { unfold Ascii.compare in *. rewrite N.compare_lt_iff in *. lia. }
    now rewrite H.
Qed.

Section Sorting.

Context {A : Type} (key : A -> string).

Local Abbreviation key_le := (Invariants.key_le key).

Lemma insert_by_perm (x : A) (l : list A) :
  Permutation (x :: l) (PyStr.insert_by key x l).
Proof.
  induction l as [|y l IH]; cbn.
  - apply Permutation_refl.
  - destruct (PyStr.leb (key x) (key y)).
    + apply Permutation_refl.
    + eapply perm_trans; [apply perm_swap|]. now apply perm_skip.
Qed.

Lemma sorted_by_perm (l : list A) : Permutation l (PyStr.sorted_by key l).
Proof.
  induction l as [|x l IH]; cbn.
  - constructor.
  - eapply perm_trans; [apply perm_skip, IH|]. apply insert_by_perm.
Qed.

Lemma insert_by_sorted (x : A) (l : list A) :
  StronglySorted key_le l ->
  StronglySorted key_le (PyStr.insert_by key x l).
Proof.
  induction 1 as [|y l Hs IH Hall]; cbn.
  - repeat constructor.
  - destruct (PyStr.leb (key x) (key y)) eqn:E.
    + constructor; [now constructor|].
      constructor; [exact E|].
      eapply Forall_impl; [|exact Hall].
      intros z Hz. unfold Invariants.key_le in *.
      eapply leb_trans; eassumption.
    + constructor; [exact IH|].
      assert (Hyx : key_le y x).
      { unfold Invariants.key_le. destruct (String.leb_total (key x) (key y)) as [H|H];
          [unfold PyStr.leb in E; congruence | exact H]. }
      apply (Permutation_Forall (insert_by_perm x l)).
      now constructor.
Qed.

Lemma sorted_by_sorted (l : list A) :
  StronglySorted key_le (PyStr.sorted_by key l).
Proof.
  induction l; cbn; [constructor | now apply insert_by_sorted].
Qed.

Lemma key_injective_on (l : list A) (x y : A) :
  NoDup (map key l) -> In x l -> In y l -> key x = key y -> x = y.
Proof.
  induction l as [|z l IH]; cbn; [easy|].
  intros Hnd Hx Hy E. inversion Hnd as [|? ? Hnotin Hnd']; subst.
  destruct Hx as [->|Hx], Hy as [->|Hy]; auto.
  - exfalso. apply Hnotin. rewrite E. now apply in_map.
  - exfalso. apply Hnotin. rewrite <- E. now apply in_map.
Qed.

(** Two sorted arrangements of the same elements coincide when the
    keys are pairwise distinct. *)
Lemma sorted_unique (l1 l2 : list A) :
  NoDup (map key l1) ->
  Permutation l1 l2 ->
  StronglySorted key_le l1 -> StronglySorted key_le l2 ->
  l1 = l2.
Proof.
  revert l2. induction l1 as [|x l1 IH]; intros l2 Hnd Hp H1 H2.
  - now apply Permutation_nil in Hp.
  - destruct l2 as [|y l2].
    { apply Permutation_sym, Permutation_nil in Hp. discriminate. }
    assert (E : x = y).
    { apply (key_injective_on (x :: l1)); auto.
      - now left.
      - apply (Permutation_in y (Permutation_sym Hp)). now left.
      - apply StronglySorted_inv in H1 as [_ Hx].
        apply StronglySorted_inv in H2 as [_ Hy].
        assert (Hxin : In x (y :: l2))
          by (apply (Permutation_in x Hp); now left).
        assert (Hyin : In y (x :: l1))
          by (apply (Permutation_in y (Permutation_sym Hp)); now left).
        rewrite Forall_forall in Hx, Hy.
        apply String.leb_antisym.
        + destruct Hyin as [->|Hyin]; [apply leb_refl | now apply Hx].
        + destruct Hxin as [->|Hxin]; [apply leb_refl | now apply Hy]. }
    subst y. f_equal.
    apply IH.
    + now inversion Hnd.
    + now apply Permutation_cons_inv in Hp.
    + now apply StronglySorted_inv in H1.
    + now apply StronglySorted_inv in H2.
Qed.

Lemma sorted_by_permutation_invariant (l1 l2 : list A) :
  NoDup (map key l1) -> Permutation l1 l2 ->
  PyStr.sorted_by key l1 = PyStr.sorted_by key l2.
Proof.
  intros Hnd Hp. apply sorted_unique.
  - apply (Permutation_NoDup (l := map key l1)); [|exact Hnd].
    apply Permutation_map, sorted_by_perm.
  - eapply perm_trans; [apply Permutation_sym, sorted_by_perm|].
    eapply perm_trans; [exact Hp|]. apply sorted_by_perm.
  - apply sorted_by_sorted.
  - apply sorted_by_sorted.
Qed.

End Sorting.

End SortFacts.

(** ** The chunking loop *)

Module ChunkerFacts.

Import Chunker.
Local Open Scope list_scope.

Section Loop.

Variable count_tokens : string -> nat.
Variable max_tokens : Z.

Local Abbreviation exceeds := (Chunker.exceeds max_tokens).
Local Abbreviation test_tokens_of := (Chunker.test_tokens_of count_tokens).
Local Abbreviation loop_body := (Chunker.loop_body count_tokens max_tokens).
Local Abbreviation create_chunks :=
  (Chunker.create_chunks count_tokens max_tokens).
Local Abbreviation cost := (Invariants.cost count_tokens).
Local Abbreviation consumed := Invariants.consumed.
Local Abbreviation numbered := Invariants.numbered.
Local Abbreviation within_budget :=
  (Invariants.within_budget count_tokens max_tokens).
Local Abbreviation chunk_ok :=
  (Invariants.chunk_ok count_tokens max_tokens).
Local Abbreviation pending_ok :=
  (Invariants.pending_ok count_tokens max_tokens).
Local Abbreviation budget_inv :=
  (Invariants.budget_inv count_tokens max_tokens).

Lemma to_text_files (c : CodeChunk) :
  to_text c = to_text (new_CodeChunk (files c) 0).
Proof. reflexivity. Qed.

Lemma test_tokens_cost (st : loop_state) (f : CodeFile) :
  test_tokens_of st f = cost (current_chunk_files st ++ [f]).
Proof. reflexivity. Qed.

(** The candidate fits: the file joins the pending list. *)
Lemma loop_body_fits (st : loop_state) (f : CodeFile) :
  exceeds (test_tokens_of st f) = false ->
  loop_body st f =
  {| chunks := chunks st;
     current_chunk_files := current_chunk_files st ++ [f];
     current_tokens := test_tokens_of st f;
     next_chunk_id := next_chunk_id st |}.
Proof.
  intros H. unfold Chunker.loop_body, finalize_or_add, separate_large.
  rewrite H. reflexivity.
Qed.

(** The candidate does not fit and nothing is pending: the file is
    sealed alone. *)
Lemma loop_body_oversized (st : loop_state) (f : CodeFile) :
  exceeds (test_tokens_of st f) = true ->
  current_chunk_files st = [] ->
  loop_body st f =
  {| chunks :=
       chunks st ++
       [ {| files := [f]; chunk_id := next_chunk_id st;
            token_count := test_tokens_of st f |} ];
     current_chunk_files := [];
     current_tokens := 0;
     next_chunk_id := S (next_chunk_id st) |}.
Proof.
  intros H E. unfold Chunker.loop_body, finalize_or_add, separate_large.
  rewrite H, E. reflexivity.
Qed.

(** The candidate does not fit and files are pending: the pending list
    is sealed, and the second conditional, which still reads the
    candidate cost, seals the file alone as well. *)
Lemma loop_body_overflow (st : loop_state) (f : CodeFile) :
  exceeds (test_tokens_of st f) = true ->
  current_chunk_files st <> [] ->
  loop_body st f =
  {| chunks :=
       chunks st ++
       [ {| files := current_chunk_files st;
            chunk_id := next_chunk_id st;
            token_count := current_tokens st |};
         {| files := [f]; chunk_id := S (next_chunk_id st);
            token_count := test_tokens_of st f |} ];
     current_chunk_files := [];
     current_tokens := 0;
     next_chunk_id := S (S (next_chunk_id st)) |}.
Proof.
  intros H E. unfold Chunker.loop_body, finalize_or_add, separate_large.
  cbv zeta. rewrite !H.
  destruct (current_chunk_files st) as [|g gs] eqn:Ec; [contradiction|].
  cbn [truthy andb negb removelast current_chunk_files chunks next_chunk_id].
  rewrite <- app_assoc. reflexivity.
Qed.

(** The three cases are exhaustive. *)
Lemma loop_body_cases (st : loop_state) (f : CodeFile) :
  (exceeds (test_tokens_of st f) = false /\
   loop_body st f =
   mkLoop (chunks st) (current_chunk_files st ++ [f])
          (test_tokens_of st f) (next_chunk_id st))
  \/ (exceeds (test_tokens_of st f) = true /\
      current_chunk_files st = [] /\
      loop_body st f =
      mkLoop (chunks st ++
              [mkCodeChunk [f] (next_chunk_id st) (test_tokens_of st f)])
             [] 0 (S (next_chunk_id st)))
  \/ (exceeds (test_tokens_of st f) = true /\
      current_chunk_files st <> [] /\
      loop_body st f =
      mkLoop (chunks st ++
              [mkCodeChunk (current_chunk_files st) (next_chunk_id st)
                           (current_tokens st);
               mkCodeChunk [f] (S (next_chunk_id st))
                           (test_tokens_of st f)])
             [] 0 (S (S (next_chunk_id st)))).
Proof.
  destruct (exceeds (test_tokens_of st f)) eqn:H.
  - destruct (current_chunk_files st) as [|g gs] eqn:E.
    + right; left. repeat split. rewrite <- E at 1.
      rewrite loop_body_oversized; auto. now rewrite E.
    + right; right. repeat split; [discriminate|].
      rewrite <- E. apply loop_body_overflow; auto. rewrite E. discriminate.
  - left. split; auto. now apply loop_body_fits.
Qed.

(** *** Coverage *)

Lemma consumed_loop_body (st : loop_state) (f : CodeFile) :
  consumed (loop_body st f) = consumed st ++ [f].
Proof.
  unfold Invariants.consumed.
  destruct (loop_body_cases st f) as [[_ ->]|[[_ [E ->]]|[_ [_ ->]]]]; cbn.
  - now rewrite app_assoc.
  - rewrite E, map_app, concat_app. cbn. now rewrite !app_nil_r.
  - rewrite map_app, concat_app. cbn.
    now rewrite !app_nil_r, <- !app_assoc.
Qed.

Lemma consumed_fold (l : list CodeFile) (st : loop_state) :
  consumed (fold_left loop_body l st) = consumed st ++ l.
Proof.
  revert st. induction l as [|f l IH]; intros st; cbn.
  - now rewrite app_nil_r.
  - rewrite IH, consumed_loop_body, <- app_assoc. reflexivity.
Qed.

Lemma add_remaining_files (st : loop_state) :
  List.concat (map files (add_remaining st)) = consumed st.
Proof.
  unfold add_remaining, Invariants.consumed.
  destruct (current_chunk_files st); cbn.
  - now rewrite app_nil_r.
  - rewrite map_app, concat_app. cbn. now rewrite app_nil_r.
Qed.

Lemma create_chunks_concat (code_files : list CodeFile) :
  List.concat (map files (create_chunks code_files)) =
  sorted_by_path code_files.
Proof.
  unfold Chunker.create_chunks.
  rewrite add_remaining_files, consumed_fold. reflexivity.
Qed.

(** *** Sequence numbers *)

Lemma numbered_snoc (cs : list CodeChunk) (c : CodeChunk) :
  map chunk_id cs = seq 0 (List.length cs) ->
  chunk_id c = List.length cs ->
  map chunk_id (cs ++ [c]) = seq 0 (List.length (cs ++ [c])).
Proof.
  intros H E. rewrite map_app, length_app, seq_app, H. cbn. now rewrite E.
Qed.

Lemma numbered_loop_body (st : loop_state) (f : CodeFile) :
  numbered st -> numbered (loop_body st f).
Proof.
  intros [Hm Hn]. unfold Invariants.numbered.
  destruct (loop_body_cases st f) as [[_ ->]|[[_ [_ ->]]|[_ [_ ->]]]]; cbn.
  - now split.
  - split; [now apply numbered_snoc|]. rewrite length_app. cbn. lia.
  - split.
    + change [?a; ?b] with ([a] ++ [b]). rewrite app_assoc.
      apply numbered_snoc; [now apply numbered_snoc|].
      cbn. rewrite length_app. cbn. lia.
    + rewrite length_app. cbn. lia.
Qed.

Lemma numbered_fold (l : list CodeFile) (st : loop_state) :
  numbered st -> numbered (fold_left loop_body l st).
Proof.
  revert st. induction l; intros st H; cbn; auto using numbered_loop_body.
Qed.

Lemma create_chunks_ids (code_files : list CodeFile) :
  map chunk_id (create_chunks code_files) =
  seq 0 (List.length (create_chunks code_files)).
Proof.
  unfold Chunker.create_chunks.
  destruct (numbered_fold (sorted_by_path code_files) initial) as [Hm Hn].
  { split; reflexivity. }
  unfold add_remaining.
  destruct (truthy _); [|exact Hm].
  now apply numbered_snoc.
Qed.

(** *** Budget *)

Lemma exceeds_false (n : nat) :
  exceeds n = false <-> (Z.of_nat n <= max_tokens)%Z.
Proof. unfold Chunker.exceeds. rewrite Z.ltb_ge. reflexivity. Qed.

Lemma exceeds_true (n : nat) :
  exceeds n = true <-> (max_tokens < Z.of_nat n)%Z.
Proof. unfold Chunker.exceeds. rewrite Z.ltb_lt. reflexivity. Qed.

Lemma budget_inv_loop_body (st : loop_state) (f : CodeFile) :
  budget_inv st -> budget_inv (loop_body st f).
Proof.
  intros [Hc Hp]. unfold Invariants.budget_inv, Invariants.pending_ok.
  destruct (loop_body_cases st f) as [[H ->]|[[H [_ ->]]|[H [E ->]]]]; cbn.
  - split; [exact Hc|]. intros _.
    apply exceeds_false in H. split; [exact H | reflexivity].
  - split; [|intros Hne; now contradiction Hne].
    apply Forall_app. split; [exact Hc|].
    constructor; [|constructor].
    split; [discriminate|]. right. cbn. split; [reflexivity|].
    now apply exceeds_true.
  - split; [|intros Hne; now contradiction Hne].
    apply Forall_app. split; [exact Hc|].
    constructor; [|constructor; [|constructor]].
    + split; [exact E|]. left. cbn. now apply Hp.
    + split; [discriminate|]. right. cbn. split; [reflexivity|].
      now apply exceeds_true.
Qed.

Lemma budget_inv_fold (l : list CodeFile) (st : loop_state) :
  budget_inv st -> budget_inv (fold_left loop_body l st).
Proof.
  revert st. induction l; intros st H; cbn;
    auto using budget_inv_loop_body.
Qed.

Lemma create_chunks_ok (code_files : list CodeFile) :
  Forall chunk_ok (create_chunks code_files).
Proof.
  unfold Chunker.create_chunks.
  destruct (budget_inv_fold (sorted_by_path code_files) initial)
    as [Hc Hp].
  { split; [constructor | intros H; now contradiction H]. }
  unfold add_remaining, Invariants.pending_ok in *.
  destruct (current_chunk_files _) as [|g gs] eqn:E; cbn; [exact Hc|].
  apply Forall_app. split; [exact Hc|].
  constructor; [|constructor].
  split; [discriminate|]. left. cbn. apply Hp. discriminate.
Qed.

End Loop.

End ChunkerFacts.

(** ** The chunker: coverage, budget, overflow, determinism, tie-break *)

Module ChunkerClaims.

Import Chunker ChunkerFacts Fixtures.
Local Open Scope list_scope.

(** Distinct keys mean distinct elements. *)
Lemma NoDup_of_paths (l : list CodeFile) :
  NoDup (map relative_path l) -> NoDup l.
Proof. apply NoDup_map_inv. Qed.

(** C1 (coverage).  For input documents with pairwise distinct relative
    paths and a positive budget, the files of the chunks returned by
    [create_chunks], concatenated in chunk order, are exactly the input
    sorted by relative path: a duplicate-free rearrangement of the
    input, in non-decreasing path order, and the chunks carry the
    sequence numbers 0, 1, 2, ... in that order. *)
Theorem create_chunks_coverage
        (count_tokens : string -> nat) (max_tokens : Z)
        (code_files : list CodeFile) :
  NoDup (map relative_path code_files) ->
  (0 < max_tokens)%Z ->
  let result := create_chunks count_tokens max_tokens code_files in
  let recovered := List.concat (map files result) in
  recovered = sorted_by_path code_files
  /\ Permutation code_files recovered
  /\ NoDup recovered
  /\ StronglySorted
       (fun x y => PyStr.leb (relative_path x) (relative_path y) = true)
       recovered
  /\ map chunk_id result = seq 0 (List.length result).
Proof.
  intros Hnd _ result recovered.
  assert (E : recovered = sorted_by_path code_files)
    by apply create_chunks_concat.
  assert (Hp : Permutation code_files recovered).
  { rewrite E. apply SortFacts.sorted_by_perm. }
  repeat split.
  - exact E.
  - exact Hp.
  - apply (Permutation_NoDup Hp). now apply NoDup_of_paths.
  - rewrite E. apply (SortFacts.sorted_by_sorted relative_path).
  - apply create_chunks_ids.
Qed.

Lemma create_chunks_coverage_witness :
  NoDup (map relative_path [doc_c; doc_a; doc_b])
  /\ (0 < 300)%Z
  /\ List.concat
       (map files (create_chunks count_chars 300 [doc_c; doc_a; doc_b]))
     = [doc_a; doc_b; doc_c].
Proof.
  assert (Hnd : NoDup (map relative_path [doc_c; doc_a; doc_b])).
  { repeat (constructor; [cbn; intuition discriminate|]). constructor. }
  assert (Hpos : (0 < 300)%Z) by reflexivity.
  split; [exact Hnd|]. split; [exact Hpos|].
  exact (proj1 (create_chunks_coverage count_chars 300
                  [doc_c; doc_a; doc_b] Hnd Hpos)).
Defined.

(** C2, as the code has it.  A chunk object has no [oversized]
    attribute.  Every chunk returned by [create_chunks] is non-empty,
    and either the cost of its serialized text is within the budget, or
    it holds exactly one file and its recorded [token_count] is above
    the budget. *)
Theorem budget_respect_by_token_count
        (count_tokens : string -> nat) (max_tokens : Z)
        (code_files : list CodeFile) (c : CodeChunk) :
  In c (create_chunks count_tokens max_tokens code_files) ->
  getattr c "oversized" = None
  /\ files c <> []
  /\ ((Z.of_nat (count_tokens (to_text c)) <= max_tokens)%Z
      \/ (List.length (files c) = 1
          /\ (max_tokens < Z.of_nat (token_count c))%Z)).
Proof.
  intros Hin.
  pose proof (create_chunks_ok count_tokens max_tokens code_files) as Hall.
  rewrite Forall_forall in Hall.
  destruct (Hall c Hin) as [Hne [[Hfit _]|Hbig]].
  - repeat split; auto.
  - repeat split; auto.
Qed.

Lemma budget_respect_by_token_count_witness :
  In (mkCodeChunk [doc_a] 0 140) (create_chunks count_chars 100 [doc_a])
  /\ List.length (files (mkCodeChunk [doc_a] 0 140)) = 1
  /\ (100 < Z.of_nat (token_count (mkCodeChunk [doc_a] 0 140)))%Z
  /\ getattr (mkCodeChunk [doc_a] 0 140) "oversized" = None.
Proof.
  assert (Hin : In (mkCodeChunk [doc_a] 0 140)
                   (create_chunks count_chars 100 [doc_a]))
    by (left; reflexivity).
  split; [exact Hin|].
  split; [reflexivity|]. split; [reflexivity|].
  exact (proj1 (budget_respect_by_token_count count_chars 100 [doc_a]
                  (mkCodeChunk [doc_a] 0 140) Hin)).
Defined.

(** C2, as worded, fails: a single file whose text costs 140 under a
    budget of 100 is returned as a chunk that is over the budget and
    carries no true [oversized] attribute. *)
Lemma budget_respect_flag_missing :
  ~ Stated.budget_respect count_chars 100 [doc_a].
Proof.
  intros H.
  destruct (H (mkCodeChunk [doc_a] 0 140) (or_introl eq_refl))
    as [Hfit | [_ Hflag]].
  - vm_compute in Hfit. now apply Hfit.
  - unfold Stated.flagged_oversized in Hflag. cbn in Hflag. discriminate.
Qed.

(** C3, on a concrete input.  With one token per character and a budget
    of 300, the file [c.py] overflows the pending pair [a.py, b.py].
    Its own text costs 140, and together with [d.py] it would cost 281;
    the loop nevertheless seals it alone, records the candidate cost 422
    as its [token_count], and [d.py] starts a chunk of its own. *)
Theorem overflow_seals_fitting_file :
  let result :=
    create_chunks count_chars 300 [doc_a; doc_b; doc_c; doc_d] in
  count_chars (to_text (new_CodeChunk [doc_c] 1)) = 140
  /\ count_chars (to_text (new_CodeChunk [doc_c; doc_d] 1)) = 281
  /\ map get_file_list result = [["a.py"; "b.py"]; ["c.py"]; ["d.py"]]
  /\ map token_count result = [281; 422; 140].
Proof. repeat split. Qed.

(** C4 (determinism).  Two enumerations of the same documents, with
    pairwise distinct relative paths, yield the same list of chunks
    under the same tokenizer and budget. *)
Theorem create_chunks_deterministic
        (count_tokens : string -> nat) (max_tokens : Z)
        (l1 l2 : list CodeFile) :
  NoDup (map relative_path l1) ->
  Permutation l1 l2 ->
  create_chunks count_tokens max_tokens l1 =
  create_chunks count_tokens max_tokens l2.
Proof.
  intros Hnd Hp. unfold create_chunks, sorted_by_path.
  now rewrite (SortFacts.sorted_by_permutation_invariant
                 relative_path l1 l2 Hnd Hp).
Qed.

Lemma create_chunks_deterministic_witness :
  NoDup (map relative_path [doc_c; doc_a; doc_b])
  /\ Permutation [doc_c; doc_a; doc_b] [doc_b; doc_c; doc_a]
  /\ create_chunks count_chars 300 [doc_c; doc_a; doc_b] =
     create_chunks count_chars 300 [doc_b; doc_c; doc_a].
Proof.
  assert (Hnd : NoDup (map relative_path [doc_c; doc_a; doc_b])).
  { repeat (constructor; [cbn; intuition discriminate|]). constructor. }
  assert (Hp : Permutation [doc_c; doc_a; doc_b] [doc_b; doc_c; doc_a]).
  { eapply perm_trans; [apply perm_skip, perm_swap | apply perm_swap]. }
  split; [exact Hnd|]. split; [exact Hp|].
  exact (create_chunks_deterministic count_chars 300 _ _ Hnd Hp).
Defined.

(** The tie with nothing pending.  A file whose own serialized cost
    equals the budget is appended to the pending list and no chunk is
    sealed; the file is accepted exactly when its cost is at most the
    budget, and sealed alone exactly when its cost is strictly greater.
    In any state, an iteration seals a chunk only when the cost it
    tests, the cost of the pending files together with the file, is
    strictly greater than the budget. *)
Lemma budget_tie_break
        (count_tokens : string -> nat) (max_tokens : Z)
        (st : loop_state) (f : CodeFile) :
  current_chunk_files st = [] ->
  let own := count_tokens (to_text (new_CodeChunk [f] (next_chunk_id st))) in
  let accepted := mkLoop (chunks st) [f] own (next_chunk_id st) in
  let sealed :=
    mkLoop (chunks st ++ [mkCodeChunk [f] (next_chunk_id st) own])
           [] 0 (S (next_chunk_id st)) in
  (Z.of_nat own = max_tokens ->
   loop_body count_tokens max_tokens st f = accepted)
  /\ ((Z.of_nat own <= max_tokens)%Z <->
      loop_body count_tokens max_tokens st f = accepted)
  /\ ((max_tokens < Z.of_nat own)%Z <->
      loop_body count_tokens max_tokens st f = sealed)
  /\ (forall (st' : loop_state) (g : CodeFile),
        chunks (loop_body count_tokens max_tokens st' g) <> chunks st' ->
        (max_tokens < Z.of_nat (test_tokens_of count_tokens st' g))%Z).
Proof.
  intros E own accepted sealed.
  assert (Hown : test_tokens_of count_tokens st f = own).
  { unfold test_tokens_of. now rewrite E. }
  assert (Hle : (Z.of_nat own <= max_tokens)%Z ->
                loop_body count_tokens max_tokens st f = accepted).
  { intros H. rewrite loop_body_fits.
    - unfold accepted. now rewrite E, Hown.
    - rewrite Hown. now apply exceeds_false. }
  assert (Hgt : (max_tokens < Z.of_nat own)%Z ->
                loop_body count_tokens max_tokens st f = sealed).
  { intros H. rewrite loop_body_oversized; auto.
    - unfold sealed. now rewrite Hown.
    - rewrite Hown. now apply exceeds_true. }
  split; [intros H; apply Hle; lia|].
  split; [split; auto|split; [split; auto|]].
  - intros H. destruct (Z.le_gt_cases (Z.of_nat own) max_tokens) as [|Hlt];
      [assumption|].
    rewrite (Hgt Hlt) in H. discriminate.
  - intros H. destruct (Z.le_gt_cases (Z.of_nat own) max_tokens) as [Hl|];
      [|assumption].
    rewrite (Hle Hl) in H. discriminate.
  - intros st' g Hsealed.
    destruct (exceeds max_tokens (test_tokens_of count_tokens st' g)) eqn:Hx.
    + now apply exceeds_true in Hx.
    + rewrite (loop_body_fits count_tokens max_tokens st' g Hx) in Hsealed.
      now contradiction Hsealed.
Qed.

Lemma budget_tie_break_witness :
  current_chunk_files initial = []
  /\ Z.of_nat (count_chars (to_text (new_CodeChunk [doc_a] 0))) = 140%Z
  /\ loop_body count_chars 140 initial doc_a = mkLoop [] [doc_a] 140 0.
Proof.
  split; [reflexivity|]. split; [reflexivity|].
  exact (proj1 (budget_tie_break count_chars 140 initial doc_a eq_refl)
               eq_refl).
Defined.

(** C8, on a concrete input.  With one token per character and a budget
    of 140, the text of [a.py] alone costs exactly 140 and the file is
    accepted as the pending list: the tie is not treated as oversized.
    The text of [b.py] alone costs exactly 140 as well.  It arrives
    while [a.py] is pending, the candidate pair costs 281, the pending
    chunk is sealed and [b.py] becomes the pending list; the branch for
    a single file above the limit then seals [b.py] alone and records
    281 as its [token_count], although its own cost is not above the
    budget. *)
Theorem tie_cost_file_sealed_as_large :
  let own := count_chars (to_text (new_CodeChunk [doc_b] 1)) in
  let pending := loop_body count_chars 140 initial doc_a in
  Z.of_nat own = 140%Z
  /\ exceeds 140 own = false
  /\ pending = mkLoop [] [doc_a] 140 0
  /\ finalize_or_add count_chars 140 pending doc_b
     = mkLoop [mkCodeChunk [doc_a] 0 140] [doc_b] 140 1
  /\ loop_body count_chars 140 pending doc_b
     = mkLoop [mkCodeChunk [doc_a] 0 140; mkCodeChunk [doc_b] 1 281] [] 0 2
  /\ create_chunks count_chars 140 [doc_a; doc_b]
     = [mkCodeChunk [doc_a] 0 140; mkCodeChunk [doc_b] 1 281].
Proof. repeat split. Qed.

End ChunkerClaims.

(** ** The project overview *)

Module OverviewClaims.

Import Chunker Stated Fixtures.
Local Open Scope list_scope.

Lemma fold_overview_table (l : list CodeFile) (d : ext_table)
      (r : option string) :
  fst (fold_left overview_step l (d, r)) =
  fold_left (fun d n => add_path (fst n) (snd n) d) (map name_of l) d.
Proof.
  revert d r. induction l as [|f l IH]; intros d r; cbn; [reflexivity|].
  unfold overview_step at 2. cbn. apply IH.
Qed.

Lemma fold_overview_readme (l : list CodeFile) (d : ext_table)
      (r : option string) :
  snd (fold_left overview_step l (d, r)) =
  match last_readme l with
  | Some x => Some (content x)
  | None => r
  end.
Proof.
  revert d r. induction l as [|f l IH]; intros d r; cbn; [reflexivity|].
  unfold overview_step at 2. cbn. rewrite IH.
  destruct (last_readme l); [reflexivity|].
  destruct (is_readme f); reflexivity.
Qed.

Lemma overview_unfold (l : list CodeFile) :
  create_project_overview_chunk l =
  overview_text (table_of (map name_of l))
                (option_map content (last_readme l)).
Proof.
  unfold create_project_overview_chunk, overview_text, table_of.
  rewrite fold_overview_table, fold_overview_readme.
  destruct (last_readme l); reflexivity.
Qed.

Lemma last_readme_app (pre post : list CodeFile) (r : CodeFile) :
  is_readme r = true ->
  Forall (fun f => is_readme f = false) post ->
  last_readme (pre ++ r :: post) = Some r.
Proof.
  intros Hr Hpost.
  assert (Hnone : last_readme post = None).
  { induction Hpost as [|f post Hf _ IH]; cbn; [reflexivity|].
    now rewrite IH, Hf. }
  induction pre as [|p pre IH]; cbn.
  - now rewrite Hnone, Hr.
  - now rewrite IH.
Qed.

Lemma same_name_names (l1 l2 : list CodeFile) :
  Forall2 same_name l1 l2 -> map name_of l1 = map name_of l2.
Proof.
  induction 1 as [|f g l1 l2 [Hp He] _ IH]; cbn; [reflexivity|].
  unfold name_of at 1 3, ext_or_default. now rewrite Hp, He, IH.
Qed.

(** C10 (readme selection).  Let [r] be the last document of the input
    whose path contains [readme], ignoring case.  The overview is the
    structure listing, which depends on paths and extensions only,
    followed by the README section built from the content of [r] alone;
    replacing the documents before [r] (among them any earlier readme
    match) by documents with the same paths and extensions but other
    contents leaves the overview unchanged. *)
Theorem overview_uses_last_readme
        (pre pre' post : list CodeFile) (r : CodeFile) :
  is_readme r = true ->
  Forall (fun f => is_readme f = false) post ->
  Forall2 same_name pre' pre ->
  create_project_overview_chunk (pre ++ r :: post) =
    overview_text (table_of (map name_of (pre ++ r :: post)))
                  (Some (content r))
  /\ create_project_overview_chunk (pre' ++ r :: post) =
     create_project_overview_chunk (pre ++ r :: post).
Proof.
  intros Hr Hpost Hsame.
  rewrite !overview_unfold, !last_readme_app by assumption.
  split; [reflexivity|].
  rewrite !map_app, (same_name_names pre' pre Hsame). reflexivity.
Qed.

Lemma overview_uses_last_readme_witness :
  is_readme readme_last = true
  /\ is_readme readme_first = true
  /\ content readme_first' <> content readme_first
  /\ create_project_overview_chunk [readme_first'; readme_last; doc_a] =
     create_project_overview_chunk [readme_first; readme_last; doc_a]
  /\ PyStr.contains "last text"
       (create_project_overview_chunk [readme_first; readme_last; doc_a])
     = true
  /\ PyStr.contains "first text"
       (create_project_overview_chunk [readme_first; readme_last; doc_a])
     = false.
Proof.
  split; [reflexivity|]. split; [reflexivity|]. split; [discriminate|].
  split; [|split; reflexivity].
  refine (proj2 (overview_uses_last_readme
                   [readme_first] [readme_first'] [doc_a] readme_last
                   eq_refl _ _)).
  - constructor; [reflexivity | constructor].
  - constructor; [split; reflexivity | constructor].
Defined.

End OverviewClaims.

(** ** Parse failures and the detailed analysis *)

Module DetailedFacts.

Import LLMProvider OutputFormatter.
Local Open Scope list_scope.

Lemma prefix_app_left (a b s : string) :
  String.prefix (a ++ b)%string s = true -> String.prefix a s = true.
Proof.
  revert s. induction a as [|x a IH]; intros [|y s] H; cbn in *;
    try reflexivity; try discriminate.
  destruct (ascii_dec x y); [now apply IH | discriminate].
Qed.

Lemma contains_app_left (a b s : string) :
  PyStr.contains (a ++ b)%string s = true -> PyStr.contains a s = true.
Proof.
  induction s as [|y s IH]; cbn [PyStr.contains]; unfold PyStr.startswith;
    rewrite !orb_true_iff; intros [H|H].
  - left. now apply (prefix_app_left a b).
  - discriminate.
  - left. now apply (prefix_app_left a b).
  - right. now apply IH.
Qed.

(** Without a fence the whole response is the payload. *)
Lemma extract_json_plain (response : string) :
  PyStr.contains "```" response = false ->
  extract_json response = response.
Proof.
  intros H. unfold extract_json. rewrite H.
  destruct (PyStr.contains "```json" response) eqn:E; [|reflexivity].
  apply (contains_app_left "```" "json") in E. congruence.
Qed.

Lemma mapM_app {A B : Type} (f : A -> result B) (l1 l2 : list A) :
  mapM f (l1 ++ l2) =
  Py.bind (mapM f l1) (fun ys1 =>
  Py.bind (mapM f l2) (fun ys2 => Ok (ys1 ++ ys2))).
Proof.
  induction l1 as [|x l1 IH]; cbn.
  - now destruct (mapM f l2).
  - destruct (f x); cbn; [|reflexivity].
    rewrite IH. destruct (mapM f l1); cbn; [|reflexivity].
    now destruct (mapM f l2).
Qed.

Lemma mapM_length {A B : Type} (f : A -> result B) (l : list A)
      (ys : list B) :
  mapM f l = Ok ys -> List.length ys = List.length l.
Proof.
  revert ys. induction l as [|x l IH]; cbn; intros ys H.
  - now inversion H.
  - destruct (f x); cbn in H; [|discriminate].
    destruct (mapM f l) eqn:E; cbn in H; [|discriminate].
    inversion H; subst. cbn. f_equal. now apply IH.
Qed.

(** The fallback object has the key [files] with an empty list, so the
    loop body appends nothing for it. *)
Lemma format_chunk_fallback (chunk_id : nat) (response msg : string) :
  format_chunk (parse_fallback chunk_id response msg) = Ok ([], []).
Proof. reflexivity. Qed.

(** A chunk that appends nothing can be left out of the loop. *)
Lemma mapM_skip (before after : list value) (x : value) :
  format_chunk x = Ok ([], []) ->
  collect (before ++ x :: after) = collect (before ++ after).
Proof.
  intros Hx. unfold collect. rewrite !mapM_app. cbn. rewrite Hx. cbn.
  destruct (mapM format_chunk before) as [ys1|]; cbn; [|reflexivity].
  destruct (mapM format_chunk after) as [ys2|]; cbn; [|reflexivity].
  now rewrite !map_app, !concat_app.
Qed.

Lemma format_skip (before after : list value) (x : value) :
  format_chunk x = Ok ([], []) ->
  _format_detailed_analysis (before ++ x :: after) =
  _format_detailed_analysis (before ++ after).
Proof.
  intros Hx. unfold _format_detailed_analysis. now rewrite mapM_skip.
Qed.

End DetailedFacts.

Module DetailedClaims.

Import LLMProvider OutputFormatter DetailedFacts Fixtures.
Local Open Scope list_scope.

(** The parsing step on a payload that [json.loads] rejects.  It does
    not raise: it returns the fallback object, whose [raw_response] is
    the text that was handed to [json.loads] (the response itself when
    it contains no fence) and whose [parse_error] is the message of the
    exception.  The fallback adds no class and no key function: the
    detailed analysis of a list of analyses is the one obtained without
    it, and when the other analyses can be aggregated the classes of
    the report are theirs. *)
Lemma fallback_chunk_skipped
      (json_loads : string -> result value)
      (response msg : string) (chunk_id : nat)
      (before after : list value) :
  json_loads (extract_json response) = Raise (JSONDecodeError msg) ->
  let partial := parse_fallback chunk_id (extract_json response) msg in
  parse_response json_loads response chunk_id = Ok partial
  /\ Py.getitem partial "raw_response" = Ok (VStr (extract_json response))
  /\ Py.getitem partial "parse_error" = Ok (VStr msg)
  /\ (PyStr.contains "```" response = false ->
      extract_json response = response)
  /\ format_chunk partial = Ok ([], [])
  /\ _format_detailed_analysis (before ++ partial :: after) =
     _format_detailed_analysis (before ++ after)
  /\ (forall per_chunk,
        mapM format_chunk (before ++ after) = Ok per_chunk ->
        _format_detailed_analysis (before ++ partial :: after)
        = Ok {| total_classes_identified :=
                  List.length (List.concat (map fst per_chunk));
                total_key_functions_identified :=
                  List.length (List.concat (map snd per_chunk));
                classes := List.concat (map fst per_chunk);
                key_functions :=
                  firstn 50 (List.concat (map snd per_chunk)) |}).
Proof.
  intros Hfail partial.
  assert (Hskip : _format_detailed_analysis (before ++ partial :: after) =
                  _format_detailed_analysis (before ++ after))
    by (apply format_skip, format_chunk_fallback).
  repeat split.
  - unfold parse_response. now rewrite Hfail.
  - apply extract_json_plain.
  - exact Hskip.
  - intros per_chunk Hper. rewrite Hskip.
    unfold _format_detailed_analysis, collect. rewrite Hper. reflexivity.
Qed.


End DetailedClaims.

(** ** Complexity metrics and the caps of the report *)

Module ComplexityFacts.

Import Analyzer OutputFormatter Stated.
Local Open Scope list_scope.

Lemma max_fold_right (l : list Z) (m x : Z) :
  fold_right Z.max (Z.max m x) l = Z.max x (fold_right Z.max m l).
Proof.
  induction l as [|y l IH]; cbn; [lia|]. rewrite IH. lia.
Qed.

Lemma max_fold_left (l : list Z) (m : Z) :
  fold_left Z.max l m = fold_right Z.max m l.
Proof.
  revert m. induction l as [|x l IH]; intros m; cbn; [reflexivity|].
  rewrite IH. apply max_fold_right.
Qed.

(** The running maximum of the inner loop. *)
Lemma visit_items_max (items : list cc_item) :
  snd (visit_items items) = file_maximum items.
Proof.
  unfold visit_items, file_maximum. rewrite <- max_fold_left.
  match goal with
  | |- snd (fold_left ?step _ ?init) = _ =>
      change 0%Z with (snd init) at 2; generalize init as p
  end.
  induction items as [|i items IH]; intros p; cbn; [reflexivity|].
  now rewrite IH.
Qed.

Section Fold.

Variable cc_visit : string -> result (list cc_item).

Local Abbreviation entry_of := (Invariants.entry_of cc_visit).
Local Abbreviation high_of := Invariants.high_of.

Lemma visit_file_entry (a : acc) (f : CodeFile) :
  visit_file cc_visit a f =
  {| acc_files := acc_files a ++ entry_of f;
     acc_high := acc_high a ++ map high_of (above 10 (entry_of f));
     total_complexity :=
       total_complexity a + sum (map fc_max_complexity (entry_of f));
     analyzed_count := analyzed_count a + List.length (entry_of f) |}.
Proof.
  unfold visit_file, Invariants.entry_of, scored.
  destruct (supported f); cbn.
  - destruct (cc_visit (content f)) as [items|e]; cbn.
    + pose proof (visit_items_max items) as Hm.
      destruct (visit_items items) as [fs m]. cbn in *. subst m.
      destruct (10 <? file_maximum items)%Z; cbn;
        f_equal; try lia; now rewrite ?app_nil_r.
    + destruct a; cbn. f_equal; try lia; now rewrite ?app_nil_r.
  - destruct a; cbn. f_equal; try lia; now rewrite ?app_nil_r.
Qed.

Lemma sum_app (l1 l2 : list Z) : sum (l1 ++ l2) = (sum l1 + sum l2)%Z.
Proof. unfold sum. induction l1; cbn; lia. Qed.

Lemma fold_visit_file (l : list CodeFile) (a : acc) :
  fold_left (visit_file cc_visit) l a =
  {| acc_files := acc_files a ++ flat_map entry_of l;
     acc_high :=
       acc_high a ++ map high_of (above 10 (flat_map entry_of l));
     total_complexity :=
       total_complexity a
       + sum (map fc_max_complexity (flat_map entry_of l));
     analyzed_count :=
       analyzed_count a + List.length (flat_map entry_of l) |}.
Proof.
  revert a. induction l as [|f l IH]; intros a; cbn.
  - destruct a; cbn. f_equal; try lia; now rewrite ?app_nil_r.
  - rewrite IH, visit_file_entry. cbn. unfold above.
    rewrite filter_app, !map_app, sum_app, length_app, <- !app_assoc.
    f_equal; lia.
Qed.

Lemma entry_maxima (l : list CodeFile) :
  map fc_max_complexity (flat_map entry_of l) = scored_maxima cc_visit l.
Proof.
  unfold scored_maxima. induction l as [|f l IH]; cbn; [reflexivity|].
  rewrite map_app, IH. unfold Invariants.entry_of.
  now destruct (scored cc_visit f).
Qed.

End Fold.

End ComplexityFacts.

Module ComplexityClaims.

Import Analyzer OutputFormatter Stated ComplexityFacts DetailedFacts Fixtures.
Local Open Scope list_scope.

(** C9 (average complexity).  The files that count are those with a
    supported extension on which the metrics collaborator did not fail.
    [analyzed_files] is their number, the maxima recorded per file are
    their maxima, and [average_complexity] is [round(total / count, 2)]
    for the sum and the number of these maxima, or the integer 0 when
    there is none. *)
Theorem average_complexity_of_scored
        (float : Type) (truediv : Z -> Z -> float)
        (round : float -> Z -> float)
        (cc_visit : string -> result (list cc_item))
        (code_files : list CodeFile) :
  let results :=
    analyze_complexity float truediv round cc_visit code_files in
  let maxima := scored_maxima cc_visit code_files in
  map fc_max_complexity (cr_files float results) = maxima
  /\ analyzed_files float (cr_summary float results) = List.length maxima
  /\ average_complexity float (cr_summary float results) =
     match maxima with
     | [] => NInt float 0
     | _ :: _ =>
         NFloat float
           (round (truediv (sum maxima) (Z.of_nat (List.length maxima)))
                  2%Z)
     end.
Proof.
  intros results maxima. unfold results, analyze_complexity.
  rewrite fold_visit_file. cbn.
  rewrite <- (length_map fc_max_complexity), !entry_maxima.
  fold maxima. repeat split.
  destruct maxima; reflexivity.
Qed.

(** C6, as the code has it.  When the loop over the chunk analyses
    completes, the reported key-function list is the first 50 of the
    functions found, so its length is the minimum of their number and
    50.  The [high_complexity_files] list holds every analyzed file
    whose maximum exceeds 10, without a cap; the cap of 20 is on
    [detailed_metrics], the list of analyzed files whose maximum
    exceeds 5. *)
Theorem report_caps
        (float : Type) (truediv : Z -> Z -> float)
        (round : float -> Z -> float)
        (cc_visit : string -> result (list cc_item))
        (code_files : list CodeFile)
        (chunk_analyses : list value)
        (all_classes : list class_info)
        (all_key_functions : list function_info) :
  collect chunk_analyses = Ok (all_classes, all_key_functions) ->
  let results :=
    analyze_complexity float truediv round cc_visit code_files in
  let report := _format_complexity_analysis float (Some results) in
  (exists detailed,
      _format_detailed_analysis chunk_analyses = Ok detailed
      /\ total_key_functions_identified detailed
         = List.length all_key_functions
      /\ key_functions detailed = firstn 50 all_key_functions
      /\ List.length (key_functions detailed)
         = Nat.min (List.length all_key_functions) 50)
  /\ report_high_complexity_files report
     = map Invariants.high_of (above 10 (cr_files float results))
  /\ List.length (report_high_complexity_files report)
     = List.length (above 10 (cr_files float results))
  /\ List.length (report_detailed_metrics report)
     = Nat.min (List.length (above 5 (cr_files float results))) 20.
Proof.
  intros Hcollect results report.
  split; [|split; [|split]].
  - unfold _format_detailed_analysis. rewrite Hcollect.
    eexists. split; [reflexivity|].
    cbn [Py.bind fst snd total_key_functions_identified key_functions].
    split; [reflexivity|]. split; [reflexivity|].
    rewrite length_firstn. apply Nat.min_comm.
  - unfold report, results, analyze_complexity. cbn.
    now rewrite fold_visit_file.
  - unfold report, results, analyze_complexity. cbn.
    rewrite fold_visit_file. cbn. now rewrite length_map.
  - unfold report, _format_complexity_analysis, report_detailed_metrics,
      detailed_metrics_of, above.
    rewrite length_firstn, length_map. apply Nat.min_comm.
Qed.

Lemma report_caps_witness :
  collect [many_functions 51] = Ok ([], map (fun _ =>
    {| f_name := VStr "f"; f_file := VStr "a.py";
       f_description := VStr "" |}) (seq 0 51))
  /\ (exists detailed,
        _format_detailed_analysis [many_functions 51] = Ok detailed
        /\ total_key_functions_identified detailed = 51
        /\ List.length (key_functions detailed) = 50)
  /\ List.length
       (report_high_complexity_files
          (_format_complexity_analysis sym_float
             (Some (analyze_complexity sym_float Quot Rounded
                      cc_known complex_files)))) = 21
  /\ List.length
       (report_detailed_metrics
          (_format_complexity_analysis sym_float
             (Some (analyze_complexity sym_float Quot Rounded
                      cc_known complex_files)))) = 20.
Proof.
  pose proof (report_caps sym_float Quot Rounded cc_known complex_files
                [many_functions 51] _ _ eq_refl) as H.
  cbv zeta in H.
  destruct H as ((detailed & Hd & Htotal & _ & Hlen) & _ & Hhigh & Hmetrics).
  split; [reflexivity|].
  split.
  - exists detailed. split; [exact Hd|]. split; [exact Htotal|exact Hlen].
  - split; [exact Hhigh | exact Hmetrics].
Defined.

(** C6, as worded, fails for the high-complexity list: twenty-one
    files of maximum complexity 11 are all listed. *)
Lemma high_complexity_list_uncapped :
  ~ Stated.high_complexity_capped sym_float
      (analyze_complexity sym_float Quot Rounded cc_known
                          complex_files).
Proof.
  unfold Stated.high_complexity_capped. vm_compute. discriminate.
Qed.

End ComplexityClaims.

(** ** One analysis per chunk *)

Module AlignmentFacts.

Import Chunker LLMProvider Analyzer.
Local Open Scope list_scope.

Section Run.

Variable json_loads : string -> result value.
Variable llm : Type.
Variable invoke : llm -> string -> string -> result string * llm.

Local Abbreviation analyze_code_chunk :=
  (LLMProvider.analyze_code_chunk json_loads llm invoke).
Local Abbreviation analyze_chunks_from :=
  (Analyzer.analyze_chunks_from json_loads llm invoke).

(** A completed loop has one analysis per chunk, and the analysis at
    position [k] is what the call for the chunk at position [k]
    returned, in the state the earlier calls left. *)
Lemma completed_loop_aligned (chunks : list CodeChunk) :
  forall (st : llm) (i total : nat) (analyses : list value) (st' : llm),
    analyze_chunks_from st i total chunks = (Ok analyses, st') ->
    List.length analyses = List.length chunks
    /\ forall (k : nat) (chunk : CodeChunk),
         nth_error chunks k = Some chunk ->
         exists analysis,
           nth_error analyses k = Some analysis
           /\ fst (analyze_code_chunk
                     (snd (analyze_chunks_from st i total (firstn k chunks)))
                     (to_text chunk) (i + k) total)
              = Ok analysis.
Proof.
  induction chunks as [|c rest IH]; intros st i total analyses st' H.
  - cbn in H. inversion H; subst. split; [reflexivity|].
    intros [|k] chunk Hk; discriminate.
  - cbn [Analyzer.analyze_chunks_from] in H.
    destruct (analyze_code_chunk st (to_text c) i total) as [r st1] eqn:E1.
    destruct r as [a|e]; [|discriminate].
    destruct (analyze_chunks_from st1 (S i) total rest) as [rs st2] eqn:E2.
    destruct rs as [as'|e]; [|discriminate].
    inversion H; subst.
    destruct (IH _ _ _ _ _ E2) as [Hlen Hnth].
    split; [cbn; now rewrite Hlen|].
    intros [|k] chunk Hk; cbn in Hk.
    + inversion Hk; subst. exists a. split; [reflexivity|].
      cbn [firstn Analyzer.analyze_chunks_from snd].
      rewrite Nat.add_0_r, E1. reflexivity.
    + destruct (Hnth k chunk Hk) as (analysis & Ha & Hcall).
      exists analysis. split; [exact Ha|].
      cbn [firstn Analyzer.analyze_chunks_from]. rewrite E1.
      destruct (analyze_chunks_from st1 (S i) total (firstn k rest))
        as [rs' st3] eqn:E3.
      cbn [snd] in *. rewrite Nat.add_succ_r. exact Hcall.
Qed.

(** The parsing step raises only what [json.loads] raises besides
    [JSONDecodeError]. *)
Lemma parse_response_returns (response : string) (chunk_id : nat) :
  (forall text e, json_loads text = Raise e ->
                  exists msg, e = JSONDecodeError msg) ->
  exists v, parse_response json_loads response chunk_id = Ok v.
Proof.
  intros Hjson. unfold parse_response.
  destruct (json_loads (extract_json response)) as [v|e] eqn:E.
  - now exists v.
  - destruct (Hjson _ _ E) as [msg ->]. eexists. reflexivity.
Qed.

(** When no call of the model raises, the loop completes. *)
Lemma loop_completes (chunks : list CodeChunk) :
  (forall s system user,
      exists response s', invoke s system user = (Ok response, s')) ->
  (forall text e, json_loads text = Raise e ->
                  exists msg, e = JSONDecodeError msg) ->
  forall (st : llm) (i total : nat),
  exists analyses st',
    analyze_chunks_from st i total chunks = (Ok analyses, st').
Proof.
  intros Hllm Hjson.
  induction chunks as [|c rest IH]; intros st i total.
  - exists [], st. reflexivity.
  - cbn [Analyzer.analyze_chunks_from].
    unfold LLMProvider.analyze_code_chunk.
    destruct (Hllm st system_prompt (user_prompt (to_text c) i total))
      as (response & st1 & ->).
    destruct (parse_response_returns response i Hjson) as [v ->].
    destruct (IH st1 (S i) total) as (analyses & st2 & ->).
    exists (v :: analyses), st2. reflexivity.
Qed.

End Run.

End AlignmentFacts.

Module AlignmentClaims.

Import Chunker LLMProvider Analyzer Stated AlignmentFacts Fixtures.
Local Open Scope list_scope.

(** C7 (alignment).  When no call of the model raises and [json.loads]
    raises nothing but [JSONDecodeError], the loop over the chunks
    completes with exactly one analysis per chunk, and the analysis at
    index [i] is the result of [analyze_code_chunk] on the text of
    [chunks[i]], called with index [i] and the number of chunks, in the
    state the calls for the earlier chunks left the model in. *)
Theorem chunk_analyses_aligned
        (json_loads : string -> result value) (llm : Type)
        (invoke : llm -> string -> string -> result string * llm)
        (st : llm) (chunks : list CodeChunk) :
  (forall s system user,
      exists response s', invoke s system user = (Ok response, s')) ->
  (forall text e, json_loads text = Raise e ->
                  exists msg, e = JSONDecodeError msg) ->
  exists analyses st',
    analyze_chunks json_loads llm invoke st chunks = (Ok analyses, st')
    /\ List.length analyses = List.length chunks
    /\ forall (i : nat) (chunk : CodeChunk),
         nth_error chunks i = Some chunk ->
         exists analysis,
           nth_error analyses i = Some analysis
           /\ fst (analyze_code_chunk json_loads llm invoke
                     (state_before json_loads llm invoke st chunks i)
                     (to_text chunk) i (List.length chunks))
              = Ok analysis.
Proof.
  intros Hllm Hjson. unfold analyze_chunks.
  destruct (loop_completes json_loads llm invoke chunks Hllm Hjson
              st 0 (List.length chunks)) as (analyses & st' & Hrun).
  exists analyses, st'. split; [exact Hrun|].
  exact (completed_loop_aligned json_loads llm invoke chunks
           st 0 (List.length chunks) analyses st' Hrun).
Qed.

Lemma chunk_analyses_aligned_witness :
  (forall s system user,
      exists response s', canned_invoke s system user = (Ok response, s'))
  /\ (forall text e, decode text = Raise e ->
                     exists msg, e = JSONDecodeError msg)
  /\ analyze_chunks decode nat canned_invoke 0 two_chunks
     = (Ok [structured_value; raw_partial], 2)
  /\ exists analyses st',
       analyze_chunks decode nat canned_invoke 0 two_chunks
       = (Ok analyses, st')
       /\ List.length analyses = List.length two_chunks.
Proof.
  assert (Hllm : forall s system user,
             exists response s',
               canned_invoke s system user = (Ok response, s')).
  { intros s system user. eexists. eexists. reflexivity. }
  assert (Hjson : forall text e, decode text = Raise e ->
                                 exists msg, e = JSONDecodeError msg).
  { intros text e. unfold decode.
    destruct (String.eqb text structured_text); intros H.
    - discriminate H.
    - injection H as <-. eexists. reflexivity. }
  split; [exact Hllm|]. split; [exact Hjson|].
  split; [reflexivity|].
  destruct (chunk_analyses_aligned decode nat canned_invoke 0 two_chunks
              Hllm Hjson) as (analyses & st' & Hrun & Hlen & _).
  exists analyses, st'. split; [exact Hrun | exact Hlen].
Defined.

End AlignmentClaims.

(* ================================================================== *)
(** * Further properties of the chunker *)
(* ================================================================== *)

Module ChunkerMore.

Import Chunker ChunkerFacts Notions Fixtures.
Local Open Scope list_scope.

Lemma concat_length_ge {A : Type} (ls : list (list A)) :
  Forall (fun l => l <> []) ls ->
  List.length ls <= List.length (List.concat ls).
Proof.
  induction 1 as [|l ls Hl _ IH]; cbn; [lia|].
  rewrite length_app. destruct l; [contradiction|]. cbn. lia.
Qed.

Lemma sorted_by_path_length (l : list CodeFile) :
  List.length (sorted_by_path l) = List.length l.
Proof.
  symmetry. apply Permutation_length, SortFacts.sorted_by_perm.
Qed.

Lemma chunks_le_files (count_tokens : string -> nat) (max_tokens : Z)
      (code_files : list CodeFile) :
  List.length (create_chunks count_tokens max_tokens code_files)
  <= List.length code_files.
Proof.
  rewrite <- sorted_by_path_length.
  rewrite <- (create_chunks_concat count_tokens max_tokens code_files).
  rewrite <- (length_map files). apply concat_length_ge.
  apply Forall_map. eapply Forall_impl; [|apply create_chunks_ok].
  intros c [H _]. exact H.
Qed.

(** X1.  No chunk is empty, there are at most as many chunks as files,
    and the result is empty exactly for an empty input. *)
Theorem chunk_count_bounds
        (count_tokens : string -> nat) (max_tokens : Z)
        (code_files : list CodeFile) :
  let result := create_chunks count_tokens max_tokens code_files in
  Forall (fun c => files c <> []) result
  /\ List.length result <= List.length code_files
  /\ (result = [] <-> code_files = []).
Proof.
  intros result.
  assert (Hne : Forall (fun c => files c <> []) result).
  { eapply Forall_impl; [|apply create_chunks_ok].
    intros c [H _]. exact H. }
  assert (Hcat : List.concat (map files result) = sorted_by_path code_files)
    by apply create_chunks_concat.
  assert (Hlen : List.length result <= List.length code_files).
  { rewrite <- sorted_by_path_length, <- Hcat, <- (length_map files).
    apply concat_length_ge. now apply Forall_map. }
  split; [exact Hne|]. split; [exact Hlen|]. split.
  - intros E. rewrite E in Hcat. cbn in Hcat.
    apply length_zero_iff_nil. rewrite <- sorted_by_path_length, <- Hcat.
    reflexivity.
  - intros E. apply length_zero_iff_nil. rewrite E in Hlen. cbn in Hlen. lia.
Qed.

(** X2.  A chunk that holds more than one file is within the budget,
    and its recorded [token_count] is the cost of its serialized
    text. *)
Theorem multi_file_chunk_exact
        (count_tokens : string -> nat) (max_tokens : Z)
        (code_files : list CodeFile) (c : CodeChunk) :
  In c (create_chunks count_tokens max_tokens code_files) ->
  List.length (files c) <> 1 ->
  2 <= List.length (files c)
  /\ (Z.of_nat (count_tokens (to_text c)) <= max_tokens)%Z
  /\ token_count c = count_tokens (to_text c).
Proof.
  intros Hin Hlen.
  pose proof (create_chunks_ok count_tokens max_tokens code_files) as Hall.
  rewrite Forall_forall in Hall.
  destruct (Hall c Hin) as [Hne [[Hfit Htok]|[Hone _]]]; [|contradiction].
  split; [|split; assumption].
  destruct (files c) as [|f [|g l]]; cbn in *; [contradiction|lia|lia].
Qed.

Lemma multi_file_chunk_exact_witness :
  In (mkCodeChunk [doc_a; doc_b] 0 281)
     (create_chunks count_chars 300 [doc_b; doc_a])
  /\ List.length (files (mkCodeChunk [doc_a; doc_b] 0 281)) <> 1
  /\ token_count (mkCodeChunk [doc_a; doc_b] 0 281)
     = count_chars (to_text (mkCodeChunk [doc_a; doc_b] 0 281)).
Proof.
  assert (Hin : In (mkCodeChunk [doc_a; doc_b] 0 281)
                   (create_chunks count_chars 300 [doc_b; doc_a]))
    by (left; reflexivity).
  assert (Hlen : List.length (files (mkCodeChunk [doc_a; doc_b] 0 281)) <> 1)
    by (cbn; discriminate).
  split; [exact Hin|]. split; [exact Hlen|].
  exact (proj2 (proj2 (multi_file_chunk_exact count_chars 300
                         [doc_b; doc_a] _ Hin Hlen))).
Defined.

Lemma fold_all_oversized (count_tokens : string -> nat) (max_tokens : Z)
      (l : list CodeFile) :
  Forall (fun f =>
            (max_tokens < Z.of_nat (Invariants.cost count_tokens [f]))%Z) l ->
  forall st : loop_state,
    current_chunk_files st = [] ->
    let final := fold_left (loop_body count_tokens max_tokens) l st in
    chunks final = chunks st ++ singles count_tokens (next_chunk_id st) l
    /\ current_chunk_files final = [].
Proof.
  induction 1 as [|f l Hf _ IH]; intros st E; cbn.
  - now rewrite app_nil_r.
  - assert (Ht : test_tokens_of count_tokens st f
                 = Invariants.cost count_tokens [f]).
    { unfold test_tokens_of. now rewrite E. }
    rewrite (loop_body_oversized count_tokens max_tokens st f).
    + destruct (IH (mkLoop
                      (chunks st ++
                       [mkCodeChunk [f] (next_chunk_id st)
                                    (test_tokens_of count_tokens st f)])
                      [] 0 (S (next_chunk_id st))) eq_refl) as [Hc Hp].
      cbn in Hc, Hp. split; [|exact Hp].
      rewrite Hc, <- app_assoc, Ht. reflexivity.
    + rewrite Ht. now apply exceeds_true.
    + exact E.
Qed.

(** X3.  When every file alone costs more than the budget (as under a
    budget of zero or less with a tokenizer that never answers 0), each
    file becomes a chunk of its own, in path order, recording its own
    cost. *)
Theorem all_oversized_singletons
        (count_tokens : string -> nat) (max_tokens : Z)
        (code_files : list CodeFile) :
  Forall (fun f =>
            (max_tokens < Z.of_nat (count_tokens (single_text f)))%Z)
         code_files ->
  create_chunks count_tokens max_tokens code_files
  = singles count_tokens 0 (sorted_by_path code_files).
Proof.
  intros Hall.
  assert (Hsorted : Forall (fun f =>
             (max_tokens < Z.of_nat (Invariants.cost count_tokens [f]))%Z)
             (sorted_by_path code_files)).
  { apply (Permutation_Forall
             (SortFacts.sorted_by_perm relative_path code_files)).
    exact Hall. }
  destruct (fold_all_oversized count_tokens max_tokens _ Hsorted
              initial eq_refl) as [Hc Hp].
  unfold create_chunks, add_remaining. rewrite Hp. cbn [truthy].
  exact Hc.
Qed.

Lemma all_oversized_singletons_witness :
  Forall (fun f => (100 < Z.of_nat (count_chars (single_text f)))%Z)
         [doc_b; doc_a]
  /\ create_chunks count_chars 100 [doc_b; doc_a]
     = [mkCodeChunk [doc_a] 0 140; mkCodeChunk [doc_b] 1 140].
Proof.
  assert (H : Forall (fun f =>
                        (100 < Z.of_nat (count_chars (single_text f)))%Z)
                     [doc_b; doc_a]).
  { repeat constructor. }
  split; [exact H|].
  exact (all_oversized_singletons count_chars 100 [doc_b; doc_a] H).
Defined.

Lemma fold_all_fit (count_tokens : string -> nat) (max_tokens : Z)
      (l : list CodeFile) :
  forall st : loop_state,
    (forall k, 1 <= k <= List.length l ->
               (Z.of_nat (Invariants.cost count_tokens
                            (current_chunk_files st ++ firstn k l))
                <= max_tokens)%Z) ->
    l <> [] ->
    fold_left (loop_body count_tokens max_tokens) l st
    = mkLoop (chunks st) (current_chunk_files st ++ l)
             (Invariants.cost count_tokens (current_chunk_files st ++ l))
             (next_chunk_id st).
Proof.
  induction l as [|f l IH]; intros st Hfit Hne; [contradiction|].
  cbn [fold_left].
  assert (Hstep : loop_body count_tokens max_tokens st f
                  = mkLoop (chunks st) (current_chunk_files st ++ [f])
                           (test_tokens_of count_tokens st f)
                           (next_chunk_id st)).
  { apply loop_body_fits. apply exceeds_false.
    rewrite test_tokens_cost. apply (Hfit 1). cbn. lia. }
  rewrite Hstep. destruct l as [|g l].
  - cbn. now rewrite test_tokens_cost.
  - rewrite IH; cbn [chunks current_chunk_files next_chunk_id].
    + now rewrite <- !app_assoc.
    + intros k Hk. rewrite <- app_assoc. apply (Hfit (S k)).
      cbn in *. lia.
    + discriminate.
Qed.

(** X4.  When every non-empty prefix of the path-sorted input fits the
    budget, the whole input is returned as one chunk, numbered 0, whose
    [token_count] is the cost of its text. *)
Theorem all_fit_single_chunk
        (count_tokens : string -> nat) (max_tokens : Z)
        (code_files : list CodeFile) :
  code_files <> [] ->
  (forall k, 1 <= k <= List.length code_files ->
             (Z.of_nat (count_tokens
                          (to_text (new_CodeChunk
                                      (firstn k (sorted_by_path code_files))
                                      0)))
              <= max_tokens)%Z) ->
  create_chunks count_tokens max_tokens code_files
  = [ mkCodeChunk (sorted_by_path code_files) 0
        (count_tokens
           (to_text (new_CodeChunk (sorted_by_path code_files) 0))) ].
Proof.
  intros Hne Hfit.
  assert (Hs : sorted_by_path code_files <> []).
  { intros E. apply Hne, length_zero_iff_nil.
    now rewrite <- sorted_by_path_length, E. }
  unfold create_chunks.
  rewrite (fold_all_fit count_tokens max_tokens _ initial).
  - unfold add_remaining. cbn [current_chunk_files initial app].
    destruct (sorted_by_path code_files); [contradiction|]. reflexivity.
  - intros k Hk. cbn [current_chunk_files initial app]. apply Hfit.
    now rewrite <- sorted_by_path_length.
  - exact Hs.
Qed.

Lemma all_fit_single_chunk_witness :
  [doc_b; doc_a] <> []
  /\ create_chunks count_chars 300 [doc_b; doc_a]
     = [mkCodeChunk [doc_a; doc_b] 0 281].
Proof.
  assert (Hne : [doc_b; doc_a] <> []) by discriminate.
  split; [exact Hne|].
  refine (all_fit_single_chunk count_chars 300 [doc_b; doc_a] Hne _).
  intros k Hk. destruct k as [|[|[|k]]]; cbn in Hk.
  - lia.
  - vm_compute. discriminate.
  - vm_compute. discriminate.
  - lia.
Defined.

Lemma join_cons (sep p : string) (rest : list string) :
  rest <> [] ->
  PyStr.join sep (p :: rest) = (p ++ sep ++ PyStr.join sep rest)%string.
Proof. destruct rest; [contradiction | reflexivity]. Qed.

Lemma string_app_assoc (a b c : string) :
  ((a ++ b) ++ c)%string = (a ++ (b ++ c))%string.
Proof. induction a; cbn; [reflexivity | now rewrite IHa]. Qed.

Lemma join_app (sep : string) (l1 l2 : list string) :
  l1 <> [] -> l2 <> [] ->
  PyStr.join sep (l1 ++ l2)
  = (PyStr.join sep l1 ++ sep ++ PyStr.join sep l2)%string.
Proof.
  intros H1 H2. induction l1 as [|p l1 IH]; [contradiction|].
  destruct l1 as [|p' l1].
  - cbn [app]. now rewrite join_cons.
  - change ((p :: p' :: l1) ++ l2) with (p :: ((p' :: l1) ++ l2)).
    rewrite join_cons by discriminate.
    rewrite IH by discriminate.
    rewrite (join_cons sep p (p' :: l1)) by discriminate.
    now rewrite !string_app_assoc.
Qed.

(** X5.  The serialized text of a chunk is the serialized blocks of its
    files joined by newlines; it depends neither on [chunk_id] nor on
    [token_count]. *)
Theorem to_text_joins_files (c : CodeChunk) :
  to_text c = PyStr.join PyStr.LF (map single_text (files c)).
Proof.
  unfold to_text. induction (files c) as [|f fs IH]; [reflexivity|].
  cbn [flat_map map]. destruct fs as [|g fs].
  - cbn [flat_map map]. rewrite app_nil_r. reflexivity.
  - rewrite join_app.
    + rewrite IH. rewrite (join_cons _ (single_text f)) by discriminate.
      unfold single_text, to_text. cbn [files new_CodeChunk flat_map].
      now rewrite app_nil_r.
    + discriminate.
    + discriminate.
Qed.

End ChunkerMore.

(* ================================================================== *)
(** * Further properties of the project overview text *)
(* ================================================================== *)

Module OverviewMore.

Import Chunker Stated Notions Pipeline Fixtures.
Local Open Scope list_scope.

Lemma count_step_add_path (d : ext_table) (f : CodeFile) :
  count_step (counts_of d) f
  = counts_of (add_path (ext_or_default f) (relative_path f) d).
Proof.
  unfold count_step. generalize (ext_or_default f) as ext.
  generalize (relative_path f) as p. intros p ext.
  induction d as [|[k ps] d IH]; cbn; [reflexivity|].
  destruct (String.eqb k ext); cbn.
  - rewrite length_app. reflexivity.
  - f_equal. exact IH.
Qed.

Lemma count_fold_table (l : list CodeFile) (d : ext_table) :
  fold_left count_step l (counts_of d)
  = counts_of (fold_left (fun d n => add_path (fst n) (snd n) d)
                         (map name_of l) d).
Proof.
  revert d. induction l as [|f l IH]; intros d; cbn; [reflexivity|].
  rewrite count_step_add_path. apply IH.
Qed.

Lemma counts_total_cons (k : string) (ps : list string) (d : ext_table) :
  PyMore.total (map snd (counts_of ((k, ps) :: d)))
  = List.length ps + PyMore.total (map snd (counts_of d)).
Proof. reflexivity. Qed.

Lemma add_path_total (ext p : string) (d : ext_table) :
  PyMore.total (map snd (counts_of (add_path ext p d)))
  = S (PyMore.total (map snd (counts_of d))).
Proof.
  induction d as [|[k ps] d IH]; [reflexivity|].
  cbn [add_path]. destruct (String.eqb k ext).
  - rewrite !counts_total_cons, length_app. cbn. lia.
  - rewrite !counts_total_cons, IH. lia.
Qed.

Lemma table_total (names : list (string * string)) (d : ext_table) :
  PyMore.total
    (map snd (counts_of (fold_left (fun d n => add_path (fst n) (snd n) d)
                                   names d)))
  = PyMore.total (map snd (counts_of d)) + List.length names.
Proof.
  revert d. induction names as [|n names IH]; intros d;
    cbn [fold_left List.length]; [lia|].
  rewrite IH, add_path_total. lia.
Qed.

(** X6.  The per-extension counts of the statistics agree, key by key
    and in the same order, with the per-extension lists the overview
    builds, and they add up to the number of files. *)
Theorem extension_counts_agree (code_files : list CodeFile) :
  _count_files_by_extension code_files
  = counts_of (fst (fold_left overview_step code_files ([], None)))
  /\ PyMore.total (map snd (_count_files_by_extension code_files))
     = List.length code_files.
Proof.
  unfold _count_files_by_extension.
  rewrite OverviewClaims.fold_overview_table.
  change (@nil (string * nat)) with (counts_of []).
  rewrite count_fold_table. split; [reflexivity|].
  rewrite table_total, length_map. reflexivity.
Qed.

Lemma insert_by_length {A : Type} (key : A -> string) (x : A) (l : list A) :
  List.length (PyStr.insert_by key x l) = S (List.length l).
Proof.
  induction l as [|y l IH]; cbn; [reflexivity|].
  destruct (PyStr.leb (key x) (key y)); cbn; [reflexivity | now rewrite IH].
Qed.

Lemma sorted_by_length {A : Type} (key : A -> string) (l : list A) :
  List.length (PyStr.sorted_by key l) = List.length l.
Proof.
  induction l as [|x l IH]; cbn; [reflexivity|].
  now rewrite insert_by_length, IH.
Qed.

Lemma ext_parts_length (entry : string * list string) :
  List.length (ext_parts entry)
  = 1 + Nat.min (List.length (snd entry)) 50
    + (if 50 <? List.length (snd entry) then 1 else 0).
Proof.
  destruct entry as [ext fs]. unfold ext_parts. cbn [snd List.length].
  rewrite length_app, length_map, length_firstn.
  unfold PyStr.sorted. rewrite sorted_by_length.
  destruct (50 <? List.length fs); cbn [List.length]; lia.
Qed.

Lemma add_path_length (ext p : string) (d : ext_table) :
  List.length (add_path ext p d) <= S (List.length d).
Proof.
  induction d as [|[k ps] d IH]; cbn; [lia|].
  destruct (String.eqb k ext); cbn; lia.
Qed.

Lemma table_length (names : list (string * string)) (d : ext_table) :
  List.length (fold_left (fun d n => add_path (fst n) (snd n) d) names d)
  <= List.length d + List.length names.
Proof.
  revert d. induction names as [|n names IH]; intros d; cbn; [lia|].
  specialize (IH (add_path (fst n) (snd n) d)).
  pose proof (add_path_length (fst n) (snd n) d). lia.
Qed.

Lemma count_char_app (c : ascii) (a b : string) :
  PyStr.count_char c (a ++ b)%string
  = PyStr.count_char c a + PyStr.count_char c b.
Proof.
  induction a as [|x a IH]; cbn [String.append PyStr.count_char];
    [reflexivity|].
  rewrite IH. lia.
Qed.

Lemma single_line_app (a b : string) :
  single_line a -> single_line b -> single_line (a ++ b)%string.
Proof.
  unfold single_line. intros Ha Hb. rewrite count_char_app. lia.
Qed.

(** Decimal digits are not newlines. *)
Lemma uint_single_line (d : Decimal.uint) :
  single_line (NilEmpty.string_of_uint d).
Proof. unfold single_line. induction d; cbn; auto. Qed.

Lemma of_nat_single_line (n : nat) : single_line (PyStr.of_nat n).
Proof. apply uint_single_line. Qed.

Lemma single_lines_sum (l : list string) :
  Forall single_line l ->
  list_sum (map (PyStr.count_char (ascii_of_nat 10)) l) = 0.
Proof.
  induction 1 as [|p l Hp _ IH]; [reflexivity|].
  unfold single_line in Hp. unfold list_sum in *.
  cbn [map fold_right]. lia.
Qed.

(** The newlines of a joined text: those of the parts, and one between
    any two neighbours. *)
Lemma join_newlines (l : list string) :
  PyStr.count_char (ascii_of_nat 10) (PyStr.join PyStr.LF l)
  = list_sum (map (PyStr.count_char (ascii_of_nat 10)) l)
    + (List.length l - 1).
Proof.
  induction l as [|p [|q rest] IH]; [reflexivity | cbn; lia |].
  change (PyStr.join PyStr.LF (p :: q :: rest))
    with (p ++ PyStr.LF ++ PyStr.join PyStr.LF (q :: rest))%string.
  rewrite !count_char_app, IH.
  change (PyStr.count_char (ascii_of_nat 10) PyStr.LF) with 1.
  unfold list_sum. cbn [map fold_right List.length]. lia.
Qed.

Lemma Forall_take {A : Type} (P : A -> Prop) (n : nat) (l : list A) :
  Forall P l -> Forall P (firstn n l).
Proof.
  revert l. induction n as [|n IH]; intros l H; [constructor|].
  destruct H; cbn [firstn]; constructor; auto.
Qed.

(** Among the elements appended for one extension, only the heading
    holds a newline: the one it starts with. *)
Lemma ext_parts_newlines (ext : string) (fs : list string) :
  single_line ext ->
  Forall single_line fs ->
  list_sum (map (PyStr.count_char (ascii_of_nat 10)) (ext_parts (ext, fs)))
  = 1.
Proof.
  intros Hext Hfs. unfold ext_parts.
  rewrite map_cons, map_app.
  change (list_sum (?x :: ?l)) with (x + list_sum l).
  rewrite list_sum_app.
  assert (Hitems : Forall single_line
                     (map (fun p => ("  - " ++ p)%string)
                          (firstn 50 (PyStr.sorted fs)))).
  { apply Forall_map, Forall_take.
    eapply Forall_impl;
      [|eapply Permutation_Forall;
         [apply (SortFacts.sorted_by_perm (fun s : string => s))
         |exact Hfs]].
    intros p Hp. apply single_line_app; [reflexivity | exact Hp]. }
  rewrite (single_lines_sum _ Hitems).
  assert (Htail : Forall single_line
                    (if 50 <? List.length fs
                     then [("  ... and "
                            ++ PyStr.of_nat (List.length fs - 50)
                            ++ " more")%string]
                     else [])).
  { destruct (50 <? List.length fs); constructor; [|constructor].
    repeat apply single_line_app;
      try reflexivity; apply of_nat_single_line. }
  rewrite (single_lines_sum _ Htail).
  rewrite !count_char_app.
  change (PyStr.count_char (ascii_of_nat 10) PyStr.LF) with 1.
  change (PyStr.count_char (ascii_of_nat 10) " files (") with 0.
  change (PyStr.count_char (ascii_of_nat 10) "):") with 0.
  pose proof (of_nat_single_line (List.length fs)) as Hn.
  unfold single_line in Hext, Hn. lia.
Qed.

Lemma ext_or_default_single_line (f : CodeFile) :
  single_line (extension f) -> single_line (ext_or_default f).
Proof.
  unfold ext_or_default. destruct (PyStr.is_empty (extension f));
    [reflexivity | auto].
Qed.

Lemma add_path_single_lines (ext p : string) (d : ext_table) :
  single_line ext ->
  single_line p ->
  Forall (fun e => single_line (fst e) /\ Forall single_line (snd e)) d ->
  Forall (fun e => single_line (fst e) /\ Forall single_line (snd e))
         (add_path ext p d).
Proof.
  intros Hx Hp. induction 1 as [|[k ps] d [Hk Hps] Hd IH]; cbn [add_path].
  - repeat constructor; assumption.
  - cbn [fst snd] in Hk, Hps. destruct (String.eqb k ext).
    + constructor; [|exact Hd]. split; [exact Hk|].
      cbn [snd]. apply Forall_app. split; [exact Hps|].
      constructor; [exact Hp | constructor].
    + constructor; [split; assumption | exact IH].
Qed.

Lemma table_single_lines (names : list (string * string)) (d : ext_table) :
  Forall (fun n => single_line (fst n) /\ single_line (snd n)) names ->
  Forall (fun e => single_line (fst e) /\ Forall single_line (snd e)) d ->
  Forall (fun e => single_line (fst e) /\ Forall single_line (snd e))
         (fold_left (fun d n => add_path (fst n) (snd n) d) names d).
Proof.
  intros Hnames. revert d.
  induction Hnames as [|n names [Hx Hp] _ IH]; intros d Hd;
    cbn [fold_left]; [exact Hd|].
  apply IH. now apply add_path_single_lines.
Qed.

(** X7.  When no path and no extension holds a newline, the segment of
    the overview text for one extension is made of the elements the
    loop appends there: one heading, at most 50 paths and one remainder
    element when there are more than 50, so at most 52 elements.  The
    heading starts with a newline, hence the segment has one line more
    than it has elements (the first one empty): at most 53 lines,
    whatever the number of files.  There are no more segments than
    files. *)
Theorem structure_listing_bounded (code_files : list CodeFile) :
  Forall (fun f => single_line (relative_path f)
                   /\ single_line (extension f)) code_files ->
  let table := fst (fold_left overview_step code_files ([], None)) in
  Forall (fun entry =>
            List.length (ext_parts entry)
            = 1 + Nat.min (List.length (snd entry)) 50
              + (if 50 <? List.length (snd entry) then 1 else 0)
            /\ List.length (ext_parts entry) <= 52
            /\ PyStr.line_count (PyStr.join PyStr.LF (ext_parts entry))
               = S (List.length (ext_parts entry))
            /\ PyStr.line_count (PyStr.join PyStr.LF (ext_parts entry))
               <= 53)
         (PyStr.sorted_by fst table)
  /\ List.length (PyStr.sorted_by fst table) <= List.length code_files.
Proof.
  intros Hfiles table.
  assert (Hclean : Forall (fun e => single_line (fst e)
                                    /\ Forall single_line (snd e)) table).
  { unfold table. rewrite OverviewClaims.fold_overview_table.
    apply table_single_lines; [|constructor].
    apply Forall_map. eapply Forall_impl; [|exact Hfiles].
    intros f [Hp He]. split; [|exact Hp].
    now apply ext_or_default_single_line. }
  split.
  - eapply Forall_impl;
      [|eapply Permutation_Forall;
         [apply (SortFacts.sorted_by_perm fst) | exact Hclean]].
    intros [ext fs] [Hext Hfs]. cbn [fst snd] in Hext, Hfs.
    pose proof (ext_parts_length (ext, fs)) as Hlen.
    assert (Hlines :
              PyStr.line_count (PyStr.join PyStr.LF (ext_parts (ext, fs)))
              = S (List.length (ext_parts (ext, fs)))).
    { unfold PyStr.line_count.
      rewrite join_newlines, (ext_parts_newlines ext fs Hext Hfs), Hlen.
      lia. }
    split; [exact Hlen|]. rewrite Hlines, Hlen. cbn [snd].
    destruct (50 <? List.length fs); repeat split; lia.
  - rewrite sorted_by_length. unfold table.
    rewrite OverviewClaims.fold_overview_table.
    pose proof (table_length (map name_of code_files) []) as H.
    rewrite length_map in H. exact H.
Qed.

Lemma structure_listing_bounded_witness :
  Forall (fun f => single_line (relative_path f)
                   /\ single_line (extension f)) [doc_b; readme_first; doc_a]
  /\ Forall (fun entry =>
               PyStr.line_count (PyStr.join PyStr.LF (ext_parts entry))
               = S (List.length (ext_parts entry)))
            [(".md", ["README.md"]); (".py", ["b.py"; "a.py"])].
Proof.
  assert (H : Forall (fun f => single_line (relative_path f)
                               /\ single_line (extension f))
                     [doc_b; readme_first; doc_a]).
  { repeat constructor. }
  split; [exact H|].
  pose proof (proj1 (structure_listing_bounded
                       [doc_b; readme_first; doc_a] H)) as Hall.
  change (PyStr.sorted_by fst
            (fst (fold_left overview_step [doc_b; readme_first; doc_a]
                    ([], None))))
    with [(".md", ["README.md"]); (".py", ["b.py"; "a.py"])] in Hall.
  eapply Forall_impl; [|exact Hall].
  intros entry (_ & _ & Hlines & _). exact Hlines.
Defined.

(** X8.  When the last document whose path matches [readme] has an
    empty content, the overview has no README section, whatever the
    earlier matches contain: it is the structure listing alone. *)
Theorem empty_last_readme_omitted (code_files : list CodeFile)
        (r : CodeFile) :
  last_readme code_files = Some r ->
  content r = EmptyString ->
  create_project_overview_chunk code_files
  = overview_text (table_of (map name_of code_files)) None.
Proof.
  intros Hlast Hempty. rewrite OverviewClaims.overview_unfold, Hlast.
  unfold overview_text. cbn [option_map readme_parts].
  now rewrite Hempty.
Qed.

Lemma empty_last_readme_omitted_witness :
  last_readme [readme_first; mkCodeFile "/repo/x/README" "x/README" "" ""]
  = Some (mkCodeFile "/repo/x/README" "x/README" "" "")
  /\ PyStr.contains "first text"
       (create_project_overview_chunk
          [readme_first; mkCodeFile "/repo/x/README" "x/README" "" ""])
     = false.
Proof.
  split; [reflexivity|].
  rewrite (empty_last_readme_omitted
             [readme_first; mkCodeFile "/repo/x/README" "x/README" "" ""]
             (mkCodeFile "/repo/x/README" "x/README" "" "")
             eq_refl eq_refl).
  reflexivity.
Defined.

End OverviewMore.

(* ================================================================== *)
(** * Further properties of the response parsing *)
(* ================================================================== *)

Module ExtractFacts.

Import LLMProvider Notions.

Lemma length_app (a b : string) :
  String.length (a ++ b) = String.length a + String.length b.
Proof. induction a; cbn; [reflexivity | now rewrite IHa]. Qed.

Lemma prefix_app (sub t : string) : String.prefix sub (sub ++ t) = true.
Proof.
  induction sub as [|c sub IH]; cbn [String.prefix append];
    [now destruct t|].
  destruct (ascii_dec c c); [exact IH | contradiction].
Qed.

Lemma prefix_backtick (sub' t : string) (c : ascii) :
  Ascii.eqb c "`"%char = false ->
  String.prefix (String "`"%char sub') (String c t) = false.
Proof.
  intros H. cbn [String.prefix].
  destruct (ascii_dec "`"%char c) as [E|]; [|reflexivity].
  subst c. discriminate H.
Qed.

Lemma drop_app (a b : string) : PyStr.drop (String.length a) (a ++ b) = b.
Proof. induction a; cbn; [now destruct b | exact IHa]. Qed.

Lemma drop_app_plus (n : nat) (a b : string) :
  PyStr.drop (String.length a + n) (a ++ b) = PyStr.drop n b.
Proof. induction a; cbn; [reflexivity | exact IHa]. Qed.

Lemma take_app (a b : string) : PyStr.take (String.length a) (a ++ b) = a.
Proof. induction a; cbn; [now destruct b | now rewrite IHa]. Qed.

Lemma take_app_le (n : nat) (a b : string) :
  n <= String.length a -> PyStr.take n (a ++ b) = PyStr.take n a.
Proof.
  revert n. induction a as [|c a IH]; intros n H; cbn in *.
  - assert (n = 0) by lia. subst. now destruct b.
  - destruct n; [reflexivity|]. cbn. rewrite IH; [reflexivity | lia].
Qed.

(** In a text that starts with a fence-free part, the first occurrence
    of a needle that begins with the fence character is after that
    part. *)
Lemma find_from_skip (sub' pre rest : string) (base : Z) :
  no_backtick pre = true ->
  PyStr.startswith (String "`"%char sub') rest = true ->
  PyStr.find_from (String "`"%char sub') (pre ++ rest) base
  = (base + Z.of_nat (String.length pre))%Z.
Proof.
  intros Hpre Hrest. revert base.
  induction pre as [|c pre IH]; intros base.
  - cbn [append String.length]. destruct rest as [|r rest];
      cbn [PyStr.find_from]; rewrite Hrest; cbn; lia.
  - cbn in Hpre. apply andb_true_iff in Hpre as [Hc Hpre].
    apply negb_true_iff in Hc.
    cbn [append PyStr.find_from]. unfold PyStr.startswith at 1.
    rewrite (prefix_backtick sub' (pre ++ rest) c Hc).
    rewrite (IH Hpre). cbn [String.length]. lia.
Qed.

Lemma find_from_none (sub' s : string) (base : Z) :
  no_backtick s = true ->
  PyStr.find_from (String "`"%char sub') s base = (-1)%Z.
Proof.
  revert base. induction s as [|c s IH]; intros base H; [reflexivity|].
  cbn in H. apply andb_true_iff in H as [Hc H].
  apply negb_true_iff in Hc.
  cbn [PyStr.find_from]. unfold PyStr.startswith.
  rewrite (prefix_backtick sub' s c Hc). now apply IH.
Qed.

Lemma contains_intro (sub pre rest : string) :
  PyStr.startswith sub rest = true ->
  PyStr.contains sub (pre ++ rest) = true.
Proof.
  intros H. induction pre as [|c pre IH].
  - cbn [append]. destruct rest; cbn [PyStr.contains]; now rewrite H.
  - cbn [append PyStr.contains]. rewrite IH. apply orb_true_r.
Qed.

Lemma clamp_inside (len i : Z) :
  (0 <= i <= len)%Z -> PyStr.clamp len i = i.
Proof.
  intros H. unfold PyStr.clamp.
  destruct (i <? 0)%Z eqn:E; [apply Z.ltb_lt in E; lia | lia].
Qed.

Lemma clamp_minus_one (len : Z) :
  (1 <= len)%Z -> PyStr.clamp len (-1) = (len - 1)%Z.
Proof.
  intros H. unfold PyStr.clamp. cbv zeta.
  change (-1 <? 0)%Z with true. cbv iota. lia.
Qed.

End ExtractFacts.

Module ExtractClaims.

Import LLMProvider Notions ExtractFacts Fixtures.

(** X9.  A tagged fenced block embedded in a response is recovered:
    when neither the text before the opening fence nor the payload
    contains a backquote, the text handed to the JSON parser is the
    payload between the fences, stripped of surrounding whitespace,
    whatever follows the closing fence. *)
Theorem extract_json_tagged_fence (pre payload post : string) :
  no_backtick pre = true ->
  no_backtick payload = true ->
  extract_json (pre ++ "```json" ++ payload ++ "```" ++ post)
  = PyStr.strip payload.
Proof.
  intros Hpre Hpay.
  set (s := pre ++ "```json" ++ payload ++ "```" ++ post).
  assert (Hlen : String.length s
                 = String.length pre + 7 + String.length payload + 3
                   + String.length post).
  { unfold s. rewrite !length_app. cbn [String.length]. lia. }
  assert (Hhas : PyStr.contains "```json" s = true).
  { apply contains_intro. apply prefix_app. }
  assert (Hfind : PyStr.find "```json" s
                  = Z.of_nat (String.length pre)).
  { unfold PyStr.find, s. rewrite find_from_skip; [lia | exact Hpre|].
    apply prefix_app. }
  assert (Hdrop : PyStr.drop (String.length pre + 7) s
                  = payload ++ "```" ++ post).
  { unfold s. rewrite drop_app_plus. reflexivity. }
  unfold extract_json. rewrite Hhas, Hfind.
  unfold PyStr.find_at.
  replace (Z.of_nat (String.length s)
           <? Z.of_nat (String.length pre) + 7)%Z with false
    by (symmetry; apply Z.ltb_ge; lia).
  replace (Z.to_nat (Z.of_nat (String.length pre) + 7))
    with (String.length pre + 7) by lia.
  rewrite Hdrop.
  rewrite (find_from_skip "``" payload ("```" ++ post));
    [|exact Hpay | apply (prefix_app "```" post)].
  unfold PyStr.slice.
  rewrite !clamp_inside by lia.
  replace (Z.to_nat (Z.of_nat (String.length pre) + 7))
    with (String.length pre + 7) by lia.
  rewrite Hdrop.
  replace (Z.to_nat (Z.of_nat (String.length pre) + 7
                     + Z.of_nat (String.length payload)
                     - (Z.of_nat (String.length pre) + 7)))
    with (String.length payload) by lia.
  now rewrite take_app.
Qed.

Lemma extract_json_tagged_fence_witness :
  no_backtick "Here is the analysis: " = true
  /\ extract_json
       ("Here is the analysis: " ++ "```json" ++ " [1, 2] " ++ "```"
        ++ " Hope this helps.")
     = "[1, 2]".
Proof.
  split; [reflexivity|].
  exact (extract_json_tagged_fence "Here is the analysis: " " [1, 2] "
           " Hope this helps." eq_refl eq_refl).
Defined.

(** X10.  When the closing fence is missing, [find] answers -1 and the
    slice ends one character early: the payload loses its last
    character before it is stripped and parsed. *)
Theorem extract_json_unclosed_fence (pre payload : string) :
  no_backtick pre = true ->
  no_backtick payload = true ->
  extract_json (pre ++ "```json" ++ payload)
  = PyStr.strip (drop_last payload).
Proof.
  intros Hpre Hpay.
  set (s := pre ++ "```json" ++ payload).
  assert (Hlen : String.length s
                 = String.length pre + 7 + String.length payload).
  { unfold s. rewrite !length_app. cbn [String.length]. lia. }
  assert (Hhas : PyStr.contains "```json" s = true).
  { apply contains_intro. apply prefix_app. }
  assert (Hfind : PyStr.find "```json" s
                  = Z.of_nat (String.length pre)).
  { unfold PyStr.find, s. rewrite find_from_skip; [lia | exact Hpre|].
    apply prefix_app. }
  assert (Hdrop : PyStr.drop (String.length pre + 7) s = payload).
  { unfold s. rewrite drop_app_plus. reflexivity. }
  unfold extract_json. rewrite Hhas, Hfind.
  unfold PyStr.find_at.
  replace (Z.of_nat (String.length s)
           <? Z.of_nat (String.length pre) + 7)%Z with false
    by (symmetry; apply Z.ltb_ge; lia).
  replace (Z.to_nat (Z.of_nat (String.length pre) + 7))
    with (String.length pre + 7) by lia.
  rewrite Hdrop, (find_from_none "``" payload _ Hpay).
  unfold PyStr.slice.
  rewrite (clamp_inside _ (Z.of_nat (String.length pre) + 7)) by lia.
  rewrite clamp_minus_one by lia.
  replace (Z.to_nat (Z.of_nat (String.length pre) + 7))
    with (String.length pre + 7) by lia.
  rewrite Hdrop.
  replace (Z.to_nat (Z.of_nat (String.length s) - 1
                     - (Z.of_nat (String.length pre) + 7)))
    with (String.length payload - 1) by lia.
  reflexivity.
Qed.

Lemma extract_json_unclosed_fence_witness :
  no_backtick "{}" = true
  /\ extract_json ("" ++ "```json" ++ "{}") = "{".
Proof.
  split; [reflexivity|].
  exact (extract_json_unclosed_fence "" "{}" eq_refl eq_refl).
Defined.

End ExtractClaims.

(* ================================================================== *)
(** * Further properties of the detailed analysis *)
(* ================================================================== *)

Module DetailedMore.

Import LLMProvider OutputFormatter DetailedFacts Notions Fixtures
       MoreFixtures.
Local Open Scope list_scope.

Lemma format_chunk_scalar (v : value) :
  is_scalar v = true -> format_chunk v = Raise TypeError.
Proof. destruct v; cbn; intros H; try discriminate; reflexivity. Qed.

Lemma collect_raises (before after : list value) (v : value) :
  format_chunk v = Raise TypeError ->
  exists e, collect (before ++ v :: after) = Raise e.
Proof.
  intros Hv. unfold collect. rewrite mapM_app. cbn. rewrite Hv.
  destruct (mapM format_chunk before); cbn; eexists; reflexivity.
Qed.

(** X11.  A response whose payload is valid JSON but a number, a
    boolean or null is returned by the parsing step as it is, and the
    aggregation of any run that contains it raises: the exit status is
    1, whatever the other chunks hold. *)
Theorem scalar_analysis_is_fatal
        (json_loads : string -> result value)
        (response : string) (chunk_id : nat) (v : value)
        (before after : list value) :
  json_loads (extract_json response) = Ok v ->
  is_scalar v = true ->
  parse_response json_loads response chunk_id = Ok v
  /\ (exists e,
        _format_detailed_analysis (before ++ v :: after) = Raise e)
  /\ Main.exit_status (_format_detailed_analysis (before ++ v :: after))
     = 1%Z.
Proof.
  intros Hload Hscalar.
  destruct (collect_raises before after v (format_chunk_scalar v Hscalar))
    as [e He].
  assert (Hraise : _format_detailed_analysis (before ++ v :: after)
                   = Raise e).
  { unfold _format_detailed_analysis. now rewrite He. }
  split; [|split].
  - unfold parse_response. now rewrite Hload.
  - now exists e.
  - now rewrite Hraise.
Qed.

Lemma scalar_analysis_is_fatal_witness :
  decode_number (extract_json "42") = Ok (VInt 42)
  /\ parse_response decode_number "42" 1 = Ok (VInt 42)
  /\ Main.exit_status
       (_format_detailed_analysis ([structured_value] ++ VInt 42 :: []))
     = 1%Z.
Proof.
  pose proof (scalar_analysis_is_fatal decode_number "42" 1 (VInt 42)
                [structured_value] [] eq_refl eq_refl) as H.
  split; [reflexivity|]. split; [exact (proj1 H)|].
  exact (proj2 (proj2 H)).
Defined.

(** X12.  A chunk analysis that is an object without the key [files]
    adds nothing and does not disturb the other chunks. *)
Theorem analysis_without_files_ignored
        (d : list (string * value)) (before after : list value) :
  Py.lookup "files" d = None ->
  _format_detailed_analysis (before ++ VDict d :: after)
  = _format_detailed_analysis (before ++ after).
Proof.
  intros H. apply format_skip. cbn. now rewrite H.
Qed.

Lemma analysis_without_files_ignored_witness :
  Py.lookup "files" [("summary", VStr "nothing to report")] = None
  /\ _format_detailed_analysis
       ([structured_value]
        ++ VDict [("summary", VStr "nothing to report")] :: [])
     = _format_detailed_analysis [structured_value].
Proof.
  split; [reflexivity|].
  exact (analysis_without_files_ignored
           [("summary", VStr "nothing to report")] [structured_value] []
           eq_refl).
Defined.

Lemma mapM_format_method (ms : list value) :
  Forall (fun m => is_dict m = true) ms ->
  exists infos, mapM format_method ms = Ok infos
                /\ List.length infos = List.length ms.
Proof.
  induction 1 as [|m ms Hm _ [infos [IH Hlen]]].
  - exists []. split; reflexivity.
  - destruct m; try discriminate. cbn [mapM].
    unfold format_method at 1. cbn [Py.get Py.bind]. rewrite IH.
    cbn [Py.bind]. eexists. split; [reflexivity|]. cbn. now rewrite Hlen.
Qed.

Lemma Forall_firstn {A : Type} (P : A -> Prop) (n : nat) (l : list A) :
  Forall P l -> Forall P (firstn n l).
Proof.
  intros H. revert n. induction H; intros [|n]; cbn; constructor; auto.
Qed.



Lemma lookup_without_lists (k : string) (d : list (string * value)) :
  k = "classes" \/ k = "key_functions" ->
  Py.lookup k (without_lists d) = None.
Proof.
  intros Hk. induction d as [|[k' v] d IH]; [reflexivity|].
  unfold without_lists in *. cbn [filter fst].
  destruct (String.eqb k' "classes" || String.eqb k' "key_functions")
           eqn:E; cbn [negb]; [exact IH|].
  cbn [Py.lookup]. apply orb_false_iff in E as [E1 E2].
  destruct Hk as [-> | ->].
  - rewrite E1. exact IH.
  - rewrite E2. exact IH.
Qed.

(** X14.  In a file entry, a missing [classes] or [key_functions] key
    counts as an empty list, but an explicit null raises [TypeError]:
    the entry with [classes] set to null cannot be aggregated, and the
    same entry without the two keys yields no class and no function. *)
Theorem null_classes_raise_missing_default (d : list (string * value)) :
  Py.lookup "classes" d = Some VNone ->
  format_file (VDict d) = Raise TypeError
  /\ format_file (VDict (without_lists d)) = Ok ([], []).
Proof.
  intros Hnull. split.
  - unfold format_file. cbn [Py.get Py.bind]. rewrite Hnull. reflexivity.
  - unfold format_file. cbn [Py.get Py.bind].
    rewrite (lookup_without_lists "classes") by auto.
    cbn [Py.iter Py.bind mapM].
    rewrite (lookup_without_lists "key_functions") by auto.
    reflexivity.
Qed.

Lemma null_classes_raise_missing_default_witness :
  Py.lookup "classes" null_classes = Some VNone
  /\ format_file (VDict null_classes) = Raise TypeError
  /\ format_file (VDict [("path", VStr "a.py")]) = Ok ([], []).
Proof.
  split; [reflexivity|].
  exact (null_classes_raise_missing_default null_classes eq_refl).
Defined.

End DetailedMore.

(* ================================================================== *)
(** * Further properties of the calls of the model *)
(* ================================================================== *)

Module CallsMore.

Import Chunker LLMProvider Analyzer RepositoryInfo ProjectOverview Pipeline
       Notions Fixtures MoreFixtures.
Local Open Scope list_scope.

(** X15.  When the call of the model for one chunk raises, the loop
    over the chunks raises the same exception and stops there: the
    state of the model is the one that call left, no later chunk is
    sent, and the analyses already obtained are lost. *)
Theorem model_failure_aborts_loop
        (json_loads : string -> result value) (llm : Type)
        (invoke : llm -> string -> string -> result string * llm)
        (before after : list CodeChunk) (c : CodeChunk) (e : exn) :
  forall (st st1 st2 : llm) (i total : nat) (analyses : list value),
    analyze_chunks_from json_loads llm invoke st i total before
    = (Ok analyses, st1) ->
    invoke st1 LLMProvider.system_prompt
           (LLMProvider.user_prompt (to_text c)
                                    (i + List.length before) total)
    = (Raise e, st2) ->
    analyze_chunks_from json_loads llm invoke st i total
                        (before ++ c :: after)
    = (Raise e, st2).
Proof.
  induction before as [|b before IH];
    intros st st1 st2 i total analyses Hbefore Hcall.
  - cbn in Hbefore. inversion Hbefore; subst.
    cbn [app analyze_chunks_from]. unfold analyze_code_chunk.
    cbn [List.length] in Hcall. rewrite Nat.add_0_r in Hcall.
    now rewrite Hcall.
  - cbn [app analyze_chunks_from] in *.
    destruct (analyze_code_chunk json_loads llm invoke st (to_text b) i total)
      as [r sa] eqn:E1.
    destruct r as [a|e']; [|discriminate].
    destruct (analyze_chunks_from json_loads llm invoke sa (S i) total before)
      as [rs sb] eqn:E2.
    destruct rs as [as'|e']; [|discriminate].
    inversion Hbefore; subst.
    rewrite (IH sa st1 st2 (S i) total as' E2).
    + reflexivity.
    + cbn [List.length] in Hcall. now rewrite Nat.add_succ_r in Hcall.
Qed.

Lemma model_failure_aborts_loop_witness :
  analyze_chunks decode nat flaky_invoke 0 three_chunks
  = (Raise (ExternalError "timeout"), 2).
Proof.
  exact (model_failure_aborts_loop decode nat flaky_invoke
           [mkCodeChunk [doc_a] 0 140] [mkCodeChunk [doc_c] 2 140]
           (mkCodeChunk [doc_b] 1 140) (ExternalError "timeout")
           0 1 2 0 3 [raw_partial_at 0] eq_refl eq_refl).
Defined.

Lemma lookup_dict_set (k : string) (x : value) (d : list (string * value)) :
  Py.lookup k (PyMore.dict_set k x d) = Some x.
Proof.
  induction d as [|[k' v] d IH]; cbn.
  - now rewrite String.eqb_refl.
  - destruct (String.eqb k' k) eqn:E; cbn; rewrite E; [reflexivity|exact IH].
Qed.

Lemma parse_overview_dict (json_loads : string -> result value)
      (response : string) (repo_info : repository_info) (v : value) :
  parse_overview json_loads response repo_info = Ok v ->
  exists d, v = VDict d
            /\ Py.lookup "repository_info" d = Some (to_value repo_info).
Proof.
  unfold parse_overview.
  destruct (json_loads (extract_json response)) as [o|e].
  - destruct o; cbn; intros H; try discriminate.
    inversion H; subst. eexists. split; [reflexivity|].
    apply lookup_dict_set.
  - destruct e; intros H; try discriminate.
    inversion H; subst. eexists. split; reflexivity.
Qed.

Lemma overview_dict_entry (json_loads : string -> result value)
      (llm : Type)
      (invoke : llm -> string -> string -> result string * llm)
      (st st' : llm) (overview_text : string)
      (repo_info : repository_info) (v : value) :
  generate_project_overview json_loads llm invoke st overview_text repo_info
  = (Ok v, st') ->
  exists d, v = VDict d
            /\ Py.lookup "repository_info" d = Some (to_value repo_info).
Proof.
  unfold generate_project_overview.
  destruct (invoke st ProjectOverview.system_prompt
                   (ProjectOverview.user_prompt overview_text repo_info))
    as [r s1].
  destruct r as [response|e]; intros H; [|discriminate].
  inversion H as [[Hv Hs]]. now apply (parse_overview_dict json_loads response).
Qed.

(** X16.  Whenever [generate_project_overview] returns, the result is
    an object whose [repository_info] is the dict of the repository
    manager: a key of that name in the answer of the model is
    overwritten, and a parse failure yields the fallback with the same
    entry. *)
Theorem overview_is_dict_with_repository
        (json_loads : string -> result value) (llm : Type)
        (invoke : llm -> string -> string -> result string * llm)
        (st st' : llm) (overview_text : string)
        (repo_info : repository_info) (v : value) :
  generate_project_overview json_loads llm invoke st overview_text repo_info
  = (Ok v, st') ->
  exists d, v = VDict d
            /\ Py.lookup "repository_info" d = Some (to_value repo_info).
Proof.
  apply overview_dict_entry.
Qed.

Lemma overview_is_dict_with_repository_witness :
  exists d,
    fst (generate_project_overview decode nat canned_invoke 0 "overview"
           (RepoBasic "https://example.org/repo" "./data/repo"))
    = Ok (VDict d)
    /\ Py.lookup "repository_info" d
       = Some (VDict [ ("url", VStr "https://example.org/repo");
                       ("local_path", VStr "./data/repo") ]).
Proof.
  destruct (overview_is_dict_with_repository decode nat canned_invoke 0 1
              "overview"
              (RepoBasic "https://example.org/repo" "./data/repo")
              _ eq_refl) as (d & Hd & Hrepo).
  exists d. split; [|exact Hrepo].
  cbn [fst]. now rewrite <- Hd.
Defined.

(** X17.  When the answer to the overview request is valid JSON but
    not an object, the item assignment raises [TypeError], which the
    handler of the parse step does not catch: [analyze_with_llm] raises
    it after that single call, before any chunk is sent. *)
Theorem non_object_overview_aborts
        (count_tokens : string -> nat) (max_tokens : Z)
        (json_loads : string -> result value) (llm : Type)
        (invoke : llm -> string -> string -> result string * llm)
        (float : Type) (truediv : Z -> Z -> float)
        (round : float -> Z -> float)
        (cc_visit : string -> result (list cc_item))
        (finditer : string -> string -> list (nat -> string))
        (st st1 : llm) (code_files : list CodeFile)
        (repo_info : repository_info) (response : string) (v : value) :
  invoke st ProjectOverview.system_prompt
         (ProjectOverview.user_prompt
            (create_project_overview_chunk code_files) repo_info)
  = (Ok response, st1) ->
  json_loads (extract_json response) = Ok v ->
  is_dict v = false ->
  fst (analyze_with_llm count_tokens max_tokens json_loads llm invoke
         float truediv round cc_visit finditer st code_files repo_info)
  = Raise TypeError
  /\ snd (analyze_with_llm count_tokens max_tokens json_loads llm invoke
            float truediv round cc_visit finditer st code_files repo_info)
     = st1.
Proof.
  intros Hcall Hload Hnot.
  unfold analyze_with_llm, generate_project_overview.
  rewrite Hcall. unfold parse_overview. rewrite Hload.
  destruct v; try discriminate Hnot; cbn; split; reflexivity.
Qed.

Lemma non_object_overview_aborts_witness :
  analyze_with_llm count_chars 300 decode_number nat number_invoke
    sym_float Quot Rounded cc_known find_run 0 [doc_a; doc_b] RepoNone
  = (Raise TypeError, 1).
Proof.
  pose proof (non_object_overview_aborts count_chars 300 decode_number nat
                number_invoke sym_float Quot Rounded cc_known find_run
                0 1 [doc_a; doc_b] RepoNone "42" (VInt 42)
                eq_refl eq_refl eq_refl) as [H1 H2].
  destruct (analyze_with_llm count_chars 300 decode_number nat
              number_invoke sym_float Quot Rounded cc_known find_run 0
              [doc_a; doc_b] RepoNone) as [r s].
  cbn [fst snd] in H1, H2. now rewrite H1, H2.
Defined.

End CallsMore.

(* ================================================================== *)
(** * Further properties of the complexity metrics *)
(* ================================================================== *)

Module ComplexityMore.

Import Analyzer OutputFormatter Stated Notions ComplexityFacts Fixtures
       MoreFixtures.
Local Open Scope list_scope.

Lemma classify_high (m : Z) :
  String.eqb (_classify_complexity m) "high" = (10 <? m)%Z.
Proof.
  unfold _classify_complexity.
  destruct (m <=? 5)%Z eqn:E5; [|destruct (m <=? 10)%Z eqn:E10]; cbn;
    symmetry.
  - apply Z.ltb_ge. apply Z.leb_le in E5. lia.
  - apply Z.ltb_ge. now apply Z.leb_le in E10.
  - apply Z.ltb_lt. apply Z.leb_gt in E10. lia.
Qed.

(** The entries of the inner loop, in order. *)
Lemma visit_items_entries (items : list cc_item) :
  fst (visit_items items)
  = map (fun item =>
           {| fn_name := item_name item;
              fn_complexity := item_complexity item;
              fn_type := item_letter item;
              fn_line := item_lineno item;
              fn_complexity_level :=
                _classify_complexity (item_complexity item) |})
        items.
Proof.
  unfold visit_items.
  match goal with
  | |- fst (fold_left ?step _ ?init) = map ?g _ =>
      assert (H : forall l p, fst (fold_left step l p) = fst p ++ map g l)
  end.
  { induction l as [|i l IH]; intros p; cbn [fold_left map].
    - now rewrite app_nil_r.
    - rewrite IH. cbn [fst]. now rewrite <- app_assoc. }
  now rewrite H.
Qed.

Lemma entry_in (cc_visit : string -> result (list cc_item))
      (l : list CodeFile) (fc : file_complexity) :
  In fc (flat_map (Invariants.entry_of cc_visit) l) ->
  exists f items,
    In f l /\ scored cc_visit f = Some items
    /\ fc = {| fc_path := relative_path f;
               fc_functions := fst (visit_items items);
               fc_max_complexity := file_maximum items;
               fc_complexity_level :=
                 _classify_complexity (file_maximum items) |}.
Proof.
  intros H. apply in_flat_map in H as (f & Hf & Hin).
  unfold Invariants.entry_of in Hin.
  destruct (scored cc_visit f) as [items|] eqn:E; [|contradiction].
  destruct Hin as [<-|[]]. now exists f, items.
Qed.

Lemma cr_files_entries (float : Type) (truediv : Z -> Z -> float)
      (round : float -> Z -> float)
      (cc_visit : string -> result (list cc_item))
      (code_files : list CodeFile) :
  cr_files float
    (analyze_complexity float truediv round cc_visit code_files)
  = flat_map (Invariants.entry_of cc_visit) code_files.
Proof.
  unfold analyze_complexity. now rewrite fold_visit_file.
Qed.

(** X18.  The files listed in [high_complexity_files] are exactly the
    analyzed files whose [complexity_level] is [high], in the same
    order and with the same maximum. *)
Theorem high_list_is_level_high
        (float : Type) (truediv : Z -> Z -> float)
        (round : float -> Z -> float)
        (cc_visit : string -> result (list cc_item))
        (code_files : list CodeFile) :
  let results :=
    analyze_complexity float truediv round cc_visit code_files in
  high_complexity_files float (cr_summary float results)
  = map Invariants.high_of (filter is_high (cr_files float results)).
Proof.
  intros results. unfold results at 2. rewrite cr_files_entries.
  unfold results, analyze_complexity. rewrite fold_visit_file. cbn.
  f_equal. unfold above. apply filter_ext_in.
  intros fc Hin. apply entry_in in Hin as (f & items & _ & _ & ->).
  unfold is_high. cbn. now rewrite classify_high.
Qed.

Lemma maximum_bounds (items : list cc_item) :
  (0 <= file_maximum items)%Z
  /\ Forall (fun i => (item_complexity i <= file_maximum items)%Z) items
  /\ (file_maximum items = 0%Z
      \/ exists i, In i items /\ item_complexity i = file_maximum items).
Proof.
  unfold file_maximum. induction items as [|i items (H0 & Hall & Hatt)];
    cbn [map fold_right].
  - split; [lia|]. split; [constructor | now left].
  - split; [lia|]. split.
    + constructor; [lia|]. eapply Forall_impl; [|exact Hall].
      cbn. intros; lia.
    + destruct (Z.max_spec (item_complexity i)
                  (fold_right Z.max 0%Z (map item_complexity items)))
        as [[_ E]|[_ E]]; rewrite E.
      * destruct Hatt as [Hz|(j & Hj & Ej)]; [now left|].
        right. exists j. split; [now right | exact Ej].
      * right. exists i. split; [now left | reflexivity].
Qed.

(** X19.  For every analyzed file, the recorded maximum is not
    negative, bounds the complexity of each of its functions, and is
    either 0 or the complexity of one of them; a file without functions
    has maximum 0. *)
Theorem maximum_is_attained_bound
        (float : Type) (truediv : Z -> Z -> float)
        (round : float -> Z -> float)
        (cc_visit : string -> result (list cc_item))
        (code_files : list CodeFile) (fc : file_complexity) :
  In fc (cr_files float
           (analyze_complexity float truediv round cc_visit code_files)) ->
  (0 <= fc_max_complexity fc)%Z
  /\ Forall (fun fn => (fn_complexity fn <= fc_max_complexity fc)%Z)
            (fc_functions fc)
  /\ (fc_max_complexity fc = 0%Z
      \/ exists fn, In fn (fc_functions fc)
                    /\ fn_complexity fn = fc_max_complexity fc)
  /\ (fc_functions fc = [] -> fc_max_complexity fc = 0%Z).
Proof.
  rewrite cr_files_entries. intros Hin.
  apply entry_in in Hin as (f & items & _ & _ & ->).
  cbn [fc_max_complexity fc_functions]. rewrite visit_items_entries.
  destruct (maximum_bounds items) as (H0 & Hall & Hatt).
  split; [exact H0|]. split; [|split].
  - apply Forall_map. exact Hall.
  - destruct Hatt as [Hz|(i & Hi & Ei)]; [now left|].
    right. eexists. split; [apply in_map, Hi | exact Ei].
  - intros E. destruct items; [reflexivity | discriminate].
Qed.

Lemma maximum_is_attained_bound_witness :
  In branchy_entry
     (cr_files sym_float
        (analyze_complexity sym_float Quot Rounded cc_known
           [doc_a; branchy_file]))
  /\ exists fn, In fn (fc_functions branchy_entry)
                /\ fn_complexity fn = 11%Z.
Proof.
  assert (Hin : In branchy_entry
                   (cr_files sym_float
                      (analyze_complexity sym_float Quot Rounded cc_known
                         [doc_a; branchy_file])))
    by (right; left; reflexivity).
  split; [exact Hin|].
  destruct (maximum_is_attained_bound sym_float Quot Rounded cc_known
              [doc_a; branchy_file] branchy_entry Hin)
    as (_ & _ & [Hz|Hatt] & _).
  - discriminate Hz.
  - exact Hatt.
Defined.

Lemma entry_paths (cc_visit : string -> result (list cc_item))
      (l : list CodeFile) :
  map fc_path (flat_map (Invariants.entry_of cc_visit) l)
  = map relative_path (filter (analyzed cc_visit) l).
Proof.
  induction l as [|f l IH]; [reflexivity|].
  cbn [flat_map filter]. rewrite map_app, IH.
  unfold Invariants.entry_of, analyzed.
  destruct (scored cc_visit f); reflexivity.
Qed.

(** X20.  The metrics pass keeps the input order and records exactly
    the files with a supported extension on which the collaborator did
    not fail; the other files are skipped silently, so the number of
    analyzed files never exceeds the number of files. *)
Theorem analyzed_files_in_order
        (float : Type) (truediv : Z -> Z -> float)
        (round : float -> Z -> float)
        (cc_visit : string -> result (list cc_item))
        (code_files : list CodeFile) :
  let results :=
    analyze_complexity float truediv round cc_visit code_files in
  map fc_path (cr_files float results)
  = map relative_path (filter (analyzed cc_visit) code_files)
  /\ analyzed_files float (cr_summary float results)
     = List.length (filter (analyzed cc_visit) code_files)
  /\ analyzed_files float (cr_summary float results)
     <= total_files float (cr_summary float results)
  /\ total_files float (cr_summary float results)
     = List.length code_files.
Proof.
  intros results.
  assert (Hpaths : map fc_path (cr_files float results)
                   = map relative_path
                         (filter (analyzed cc_visit) code_files)).
  { unfold results. rewrite cr_files_entries. apply entry_paths. }
  assert (Hcount : analyzed_files float (cr_summary float results)
                   = List.length (filter (analyzed cc_visit) code_files)).
  { rewrite <- (length_map relative_path), <- Hpaths, length_map.
    unfold results. rewrite cr_files_entries.
    unfold analyze_complexity. rewrite fold_visit_file. reflexivity. }
  split; [exact Hpaths|]. split; [exact Hcount|]. split; [|reflexivity].
  rewrite Hcount. apply filter_length_le.
Qed.

Lemma In_firstn {A : Type} (n : nat) (l : list A) (x : A) :
  In x (firstn n l) -> In x l.
Proof.
  revert n. induction l as [|y l IH]; intros [|n]; cbn; try contradiction.
  intros [H|H]; [now left | right; now apply (IH n)].
Qed.

(** X21.  Every entry of [detailed_metrics] built from the metrics pass
    has a maximum above 5 and lists between one and ten functions, each
    of complexity above 5 and at most the maximum of the file. *)
Theorem detailed_metric_entries
        (float : Type) (truediv : Z -> Z -> float)
        (round : float -> Z -> float)
        (cc_visit : string -> result (list cc_item))
        (code_files : list CodeFile) (m : detailed_metric) :
  In m (report_detailed_metrics
          (_format_complexity_analysis float
             (Some (analyze_complexity float truediv round cc_visit
                      code_files)))) ->
  (5 < dm_max_complexity m)%Z
  /\ 1 <= List.length (dm_complex_functions m) <= 10
  /\ Forall (fun cf => (5 < cf_complexity cf <= dm_max_complexity m)%Z)
            (dm_complex_functions m).
Proof.
  cbn [_format_complexity_analysis report_detailed_metrics].
  rewrite cr_files_entries. unfold detailed_metrics_of.
  intros Hin. apply In_firstn, in_map_iff in Hin as (fc & <- & Hfc).
  apply filter_In in Hfc as [Hfc Hmax]. apply Z.ltb_lt in Hmax.
  apply entry_in in Hfc as (f & items & _ & _ & ->).
  cbn [dm_max_complexity dm_complex_functions fc_max_complexity] in *.
  unfold complex_functions_of. cbn [fc_functions].
  rewrite visit_items_entries.
  destruct (maximum_bounds items) as (_ & Hall & Hatt).
  split; [exact Hmax|]. split; [split|].
  - destruct Hatt as [Hz|(i & Hi & Ei)]; [lia|].
    assert (Hnonempty :
              In {| cf_name := item_name i;
                    cf_complexity := item_complexity i;
                    cf_line := item_lineno i |}
                 (map (fun func =>
                         {| cf_name := fn_name func;
                            cf_complexity := fn_complexity func;
                            cf_line := fn_line func |})
                      (filter (fun func => (5 <? fn_complexity func)%Z)
                         (map (fun item =>
                                 {| fn_name := item_name item;
                                    fn_complexity := item_complexity item;
                                    fn_type := item_letter item;
                                    fn_line := item_lineno item;
                                    fn_complexity_level :=
                                      _classify_complexity
                                        (item_complexity item) |})
                              items)))).
    { apply in_map_iff. eexists. split; [|apply filter_In; split].
      2: { apply in_map_iff. exists i. split; [reflexivity | exact Hi]. }
      - reflexivity.
      - cbn. apply Z.ltb_lt. lia. }
    rewrite length_firstn.
    match goal with
    | H : In _ ?l |- _ => destruct l; [contradiction | cbn; lia]
    end.
  - rewrite length_firstn. lia.
  - apply Forall_forall. intros cf Hcf.
    apply In_firstn, in_map_iff in Hcf as (fn & <- & Hfn).
    apply filter_In in Hfn as [Hfn H5]. apply Z.ltb_lt in H5.
    apply in_map_iff in Hfn as (i & <- & Hi). cbn in *.
    rewrite Forall_forall in Hall. specialize (Hall i Hi). lia.
Qed.

Lemma detailed_metric_entries_witness :
  In (mkMetric "m.py" 11 "high" [mkComplexFunction "f" 11 1])
     (report_detailed_metrics
        (_format_complexity_analysis sym_float
           (Some (analyze_complexity sym_float Quot Rounded cc_known
                    [doc_a; branchy_file]))))
  /\ (5 < 11)%Z.
Proof.
  assert (Hin : In (mkMetric "m.py" 11 "high" [mkComplexFunction "f" 11 1])
                   (report_detailed_metrics
                      (_format_complexity_analysis sym_float
                         (Some (analyze_complexity sym_float Quot Rounded
                                  cc_known [doc_a; branchy_file])))))
    by (left; reflexivity).
  split; [exact Hin|].
  exact (proj1 (detailed_metric_entries sym_float Quot Rounded cc_known
                  [doc_a; branchy_file] _ Hin)).
Defined.

End ComplexityMore.

(* ================================================================== *)
(** * Further properties of the signatures and the statistics *)
(* ================================================================== *)

Module PipelineMore.

Import Chunker LLMProvider Analyzer OutputFormatter RepositoryInfo
       ProjectOverview Pipeline Report Notions Fixtures MoreFixtures.
Local Open Scope list_scope.

Lemma dict_set_keys {V : Type} (k x : string) (v : V)
      (d : list (string * V)) :
  In x (map fst (PyMore.dict_set k v d)) -> x = k \/ In x (map fst d).
Proof.
  induction d as [|[k' v'] d IH]; cbn.
  - intros [H|[]]; now left.
  - destruct (String.eqb k' k); cbn; [now right|].
    intros [H|H]; [right; now left|].
    destruct (IH H); [now left | right; now right].
Qed.

Lemma dict_set_NoDup {V : Type} (k : string) (v : V)
      (d : list (string * V)) :
  NoDup (map fst d) -> NoDup (map fst (PyMore.dict_set k v d)).
Proof.
  induction d as [|[k' v'] d IH]; cbn; intros H.
  - constructor; [easy | constructor].
  - destruct (String.eqb k' k) eqn:E; cbn; [exact H|].
    inversion H as [|? ? Hnotin Hnd]; subst. constructor; [|now apply IH].
    intros Hin. apply dict_set_keys in Hin as [->|Hin]; [|contradiction].
    now rewrite String.eqb_refl in E.
Qed.

Lemma dict_set_Forall {V : Type} (P : string * V -> Prop) (k : string)
      (v : V) (d : list (string * V)) :
  P (k, v) -> Forall P d -> Forall P (PyMore.dict_set k v d).
Proof.
  intros Hkv. induction 1 as [|[k' v'] d Hx Hd IH]; cbn.
  - now repeat constructor.
  - destruct (String.eqb k' k) eqn:E.
    + apply String.eqb_eq in E. subst. now constructor.
    + now constructor.
Qed.

Lemma methods_of_extension
      (finditer : string -> string -> list (nat -> string)) (f : CodeFile) :
  methods_of finditer f <> [] -> has_methods_extension f = true.
Proof.
  unfold methods_of, has_methods_extension.
  destruct (String.eqb (extension f) ".java"); [reflexivity|].
  destruct (String.eqb (extension f) ".py"); [reflexivity|].
  intros H. now contradiction H.
Qed.

(** The methods of a file are built one per match of the pattern of
    its extension. *)
Lemma methods_of_length
      (finditer : string -> string -> list (nat -> string)) (f : CodeFile) :
  has_methods_extension f = true ->
  List.length (methods_of finditer f)
  = List.length (finditer (pattern_of f) (content f)).
Proof.
  unfold methods_of, has_methods_extension, pattern_of.
  destruct (String.eqb (extension f) ".java");
    [intros _; apply length_map|].
  destruct (String.eqb (extension f) ".py");
    [intros _; apply length_map | discriminate].
Qed.

Lemma dict_set_key_kept {V : Type} (k x : string) (v : V)
      (d : list (string * V)) :
  In x (map fst d) -> In x (map fst (PyMore.dict_set k v d)).
Proof.
  induction d as [|[k' v'] d IH]; cbn; [intros []|].
  destruct (String.eqb k' k); cbn; [auto|].
  intros [H|H]; [now left | right; auto].
Qed.

Lemma dict_set_key_new {V : Type} (k : string) (v : V)
      (d : list (string * V)) :
  In k (map fst (PyMore.dict_set k v d)).
Proof.
  induction d as [|[k' v'] d IH]; cbn; [now left|].
  destruct (String.eqb k' k) eqn:E; cbn.
  - left. now apply String.eqb_eq.
  - now right.
Qed.

Lemma signature_step_keys
      (finditer : string -> string -> list (nat -> string))
      (d : list (string * list method_sig)) (f : CodeFile) (x : string) :
  In x (map fst d) -> In x (map fst (signature_step finditer d f)).
Proof.
  unfold signature_step. destruct (methods_of finditer f); [auto|].
  apply dict_set_key_kept.
Qed.

Lemma signature_fold_keys
      (finditer : string -> string -> list (nat -> string))
      (l : list CodeFile) (d : list (string * list method_sig))
      (x : string) :
  In x (map fst d) ->
  In x (map fst (fold_left (signature_step finditer) l d)).
Proof.
  revert d. induction l as [|f l IH]; intros d H; cbn [fold_left];
    [exact H|].
  apply IH. now apply signature_step_keys.
Qed.

(** A file with at least one method is a key of the dict. *)
Lemma signatures_complete
      (finditer : string -> string -> list (nat -> string))
      (l : list CodeFile) (d : list (string * list method_sig))
      (f : CodeFile) :
  In f l ->
  methods_of finditer f <> [] ->
  In (relative_path f)
     (map fst (fold_left (signature_step finditer) l d)).
Proof.
  revert d. induction l as [|g l IH]; intros d Hin Hne; [destruct Hin|].
  cbn [fold_left]. destruct Hin as [->|Hin]; [|now apply IH].
  apply signature_fold_keys. unfold signature_step.
  destruct (methods_of finditer f) as [|m ms]; [now contradiction Hne|].
  apply dict_set_key_new.
Qed.

(** What holds of every entry of the dict of signatures: it is stored
    under the path of an input file with one of the two extensions, and
    holds the methods of that file, which are not empty. *)
Lemma signatures_invariant
      (finditer : string -> string -> list (nat -> string))
      (code_files : list CodeFile) :
  let d := extract_method_signatures finditer code_files in
  NoDup (map fst d)
  /\ Forall (fun kv =>
               snd kv <> []
               /\ exists f, In f code_files
                            /\ relative_path f = fst kv
                            /\ has_methods_extension f = true
                            /\ snd kv = methods_of finditer f) d.
Proof.
  unfold extract_method_signatures.
  assert (H : forall l d,
             (forall f, In f l -> In f code_files) ->
             NoDup (map fst d)
             /\ Forall (fun kv : string * list method_sig =>
                          snd kv <> []
                          /\ exists f, In f code_files
                                       /\ relative_path f = fst kv
                                       /\ has_methods_extension f = true
                                       /\ snd kv = methods_of finditer f)
                       d ->
             NoDup (map fst (fold_left (signature_step finditer) l d))
             /\ Forall (fun kv : string * list method_sig =>
                          snd kv <> []
                          /\ exists f, In f code_files
                                       /\ relative_path f = fst kv
                                       /\ has_methods_extension f = true
                                       /\ snd kv = methods_of finditer f)
                       (fold_left (signature_step finditer) l d)).
  { induction l as [|f l IH]; intros d Hsub [Hnd Hall]; cbn [fold_left].
    - now split.
    - apply IH; [intros g Hg; apply Hsub; now right|].
      unfold signature_step.
      destruct (methods_of finditer f) as [|m ms] eqn:E; [now split|].
      split; [now apply dict_set_NoDup|].
      apply dict_set_Forall; [|exact Hall].
      cbn. split; [discriminate|].
      exists f. split; [apply Hsub; now left|]. split; [reflexivity|].
      split; [|now symmetry].
      apply (methods_of_extension finditer). rewrite E. discriminate. }
  apply H; [auto|]. split; constructor.
Qed.

(** X22.  In the code structure of the report, every listed entry
    belongs to an input file with a [.java] or [.py] extension: its
    [method_count] is the number of matches of the pattern of that
    extension in the content of the file, which is at least one, and
    its [methods] are the first twenty of the methods built from these
    matches.  No path is listed twice, and every input file with such
    an extension and at least one match has its path listed. *)
Theorem code_structure_entries
        (finditer : string -> string -> list (nat -> string))
        (code_files : list CodeFile) :
  let structure :=
    code_structure_of (extract_method_signatures finditer code_files) in
  NoDup (map fi_path (cs_files structure))
  /\ total_files_with_methods structure = List.length (cs_files structure)
  /\ Forall (fun fi =>
               exists f,
                 In f code_files
                 /\ relative_path f = fi_path fi
                 /\ has_methods_extension f = true
                 /\ fi_method_count fi
                    = List.length (finditer (pattern_of f) (content f))
                 /\ 1 <= fi_method_count fi
                 /\ fi_methods fi = firstn 20 (methods_of finditer f)
                 /\ List.length (fi_methods fi)
                    = Nat.min (fi_method_count fi) 20)
            (cs_files structure)
  /\ (forall f,
        In f code_files ->
        has_methods_extension f = true ->
        finditer (pattern_of f) (content f) <> [] ->
        In (relative_path f) (map fi_path (cs_files structure))).
Proof.
  intros structure.
  destruct (signatures_invariant finditer code_files) as [Hnd Hall].
  unfold structure, code_structure_of.
  cbn [cs_files total_files_with_methods].
  split; [|split; [reflexivity|split]].
  - rewrite map_map. cbn [fi_path]. exact Hnd.
  - apply Forall_map. eapply Forall_impl; [|exact Hall].
    intros [k ms] (Hne & f & Hin & Hpath & Hext & Hms).
    cbn [fst snd fi_method_count fi_methods fi_path] in *.
    exists f. split; [exact Hin|]. split; [exact Hpath|].
    split; [exact Hext|]. subst ms.
    split; [now apply methods_of_length|].
    split; [destruct (methods_of finditer f); [contradiction | cbn; lia]|].
    split; [reflexivity|].
    rewrite length_firstn. apply Nat.min_comm.
  - intros f Hin Hext Hmatch. rewrite map_map. cbn [fi_path].
    apply signatures_complete; [exact Hin|].
    intros Hnil. apply Hmatch, length_zero_iff_nil.
    rewrite <- (methods_of_length finditer f Hext), Hnil. reflexivity.
Qed.

Lemma code_structure_entries_witness :
  In run_file [doc_a; run_file]
  /\ has_methods_extension run_file = true
  /\ find_run (pattern_of run_file) (content run_file) <> []
  /\ In "run.py"
        (map fi_path
           (cs_files
              (code_structure_of
                 (extract_method_signatures find_run [doc_a; run_file])))).
Proof.
  assert (Hin : In run_file [doc_a; run_file]) by (right; now left).
  assert (Hmatch : find_run (pattern_of run_file) (content run_file) <> [])
    by discriminate.
  split; [exact Hin|]. split; [reflexivity|]. split; [exact Hmatch|].
  exact (proj2 (proj2 (proj2 (code_structure_entries find_run
                                [doc_a; run_file])))
           run_file Hin eq_refl Hmatch).
Defined.

Section Analysis.

Variable count_tokens : string -> nat.
Variable max_tokens : Z.
Variable json_loads : string -> result value.
Variable llm : Type.
Variable invoke : llm -> string -> string -> result string * llm.
Variable float : Type.
Variable truediv : Z -> Z -> float.
Variable round : float -> Z -> float.
Variable cc_visit : string -> result (list cc_item).
Variable finditer : string -> string -> list (nat -> string).

Local Abbreviation analyze_with_llm :=
  (Pipeline.analyze_with_llm count_tokens max_tokens json_loads llm invoke
     float truediv round cc_visit finditer).

(** The parts of a completed analysis. *)
Lemma analyze_with_llm_inv (st st' : llm) (code_files : list CodeFile)
      (repo_info : repository_info) (a : analysis_results float) :
  analyze_with_llm st code_files repo_info = (Ok a, st') ->
  exists overview st1,
    generate_project_overview json_loads llm invoke st
      (create_project_overview_chunk code_files) repo_info
    = (Ok overview, st1)
    /\ analyze_chunks json_loads llm invoke st1
         (create_chunks count_tokens max_tokens code_files)
       = (Ok (chunk_analyses float a), st')
    /\ project_overview float a = overview
    /\ stats float a
       = {| total_files := List.length code_files;
            total_chunks :=
              List.length (create_chunks count_tokens max_tokens code_files);
            total_lines :=
              PyMore.total
                (map (fun f => PyStr.line_count (content f)) code_files);
            total_size_bytes := PyMore.total (map size code_files);
            files_by_extension := _count_files_by_extension code_files |}.
Proof.
  unfold Pipeline.analyze_with_llm.
  destruct (generate_project_overview json_loads llm invoke st
              (create_project_overview_chunk code_files) repo_info)
    as [r1 st1] eqn:E1.
  destruct r1 as [overview|e]; [|discriminate].
  destruct (analyze_chunks json_loads llm invoke st1
              (create_chunks count_tokens max_tokens code_files))
    as [r2 st2] eqn:E2.
  destruct r2 as [analyses|e]; [|discriminate].
  intros H. inversion H; subst. exists overview, st1.
  split; [reflexivity|]. split; [exact E2|]. split; reflexivity.
Qed.

Lemma total_lines_ge (l : list CodeFile) :
  List.length l
  <= PyMore.total (map (fun f => PyStr.line_count (content f)) l).
Proof.
  unfold PyMore.total. induction l as [|f l IH];
    cbn [map fold_right List.length]; [lia|].
  unfold PyStr.line_count at 1. lia.
Qed.

(** X23.  The statistics of a completed analysis are consistent: there
    is one analysis per chunk, no more chunks than files, at least one
    line per file, and the per-extension counts add up to the number of
    files. *)
Theorem statistics_consistent (st st' : llm) (code_files : list CodeFile)
        (repo_info : repository_info) (a : analysis_results float) :
  analyze_with_llm st code_files repo_info = (Ok a, st') ->
  total_files (stats float a) = List.length code_files
  /\ List.length (chunk_analyses float a) = total_chunks (stats float a)
  /\ total_chunks (stats float a) <= total_files (stats float a)
  /\ total_files (stats float a) <= total_lines (stats float a)
  /\ PyMore.total (map snd (files_by_extension (stats float a)))
     = total_files (stats float a).
Proof.
  intros H.
  destruct (analyze_with_llm_inv st st' code_files repo_info a H)
    as (overview & st1 & _ & Hloop & _ & ->).
  cbn [total_files total_chunks total_lines files_by_extension].
  split; [reflexivity|]. split; [|split; [|split]].
  - unfold analyze_chunks in Hloop.
    now destruct (AlignmentFacts.completed_loop_aligned json_loads llm invoke
                    _ _ _ _ _ _ Hloop).
  - apply ChunkerMore.chunks_le_files.
  - apply total_lines_ge.
  - unfold _count_files_by_extension.
    change (@nil (string * nat)) with (counts_of []).
    rewrite OverviewMore.count_fold_table, OverviewMore.table_total,
      length_map.
    reflexivity.
Qed.

Variable now : string.
Variable llm_provider : string.

(** X24.  For a completed analysis, [format_results] can only fail in
    the aggregation of the chunk analyses: it raises exactly when
    [_format_detailed_analysis] raises, with the same exception.  When
    it returns, the repository entry of the metadata is the dict of the
    repository manager and the statistics are passed through. *)
Theorem format_results_failure_source
        (st st' : llm) (code_files : list CodeFile)
        (repo_info : repository_info) (a : analysis_results float) :
  analyze_with_llm st code_files repo_info = (Ok a, st') ->
  (forall e,
      format_results float now llm_provider a = Raise e <->
      _format_detailed_analysis (chunk_analyses float a) = Raise e)
  /\ (forall formatted,
         format_results float now llm_provider a = Ok formatted ->
         repository (fr_metadata float formatted) = to_value repo_info
         /\ fr_statistics float formatted = stats float a).
Proof.
  intros H.
  destruct (analyze_with_llm_inv st st' code_files repo_info a H)
    as (overview & st1 & Hov & _ & Hproj & _).
  destruct (CallsMore.overview_dict_entry json_loads llm invoke _ _ _ _ _ Hov)
    as (d & -> & Hrepo).
  unfold format_results. rewrite Hproj. cbn [Py.get Py.bind]. rewrite Hrepo.
  destruct (_format_detailed_analysis (chunk_analyses float a))
    as [detailed|e0]; cbn [Py.bind].
  - split.
    + intros e. split; discriminate.
    + intros formatted Hf. inversion Hf; subst. split; reflexivity.
  - split.
    + intros e. split; intros He; inversion He; reflexivity.
    + intros formatted Hf. discriminate.
Qed.

End Analysis.

Lemma statistics_consistent_witness :
  match fst (Pipeline.analyze_with_llm count_chars 300 decode nat
               canned_invoke sym_float Quot Rounded cc_known find_run 0
               [doc_a; doc_b; doc_c] RepoNone) with
  | Ok a => total_chunks (stats sym_float a) = 2
            /\ List.length (chunk_analyses sym_float a) = 2
            /\ total_files (stats sym_float a) = 3
  | Raise _ => False
  end.
Proof.
  destruct (Pipeline.analyze_with_llm count_chars 300 decode nat
              canned_invoke sym_float Quot Rounded cc_known find_run 0
              [doc_a; doc_b; doc_c] RepoNone) as [[a|e] st'] eqn:E.
  - cbn [fst].
    destruct (statistics_consistent count_chars 300 decode nat canned_invoke
                sym_float Quot Rounded cc_known find_run 0 st'
                [doc_a; doc_b; doc_c] RepoNone a E)
      as (Hfiles & Hlen & _).
    assert (Hchunks : total_chunks (stats sym_float a) = 2).
    { vm_compute in E. inversion E. reflexivity. }
    split; [exact Hchunks|]. split; [now rewrite Hlen | exact Hfiles].
  - vm_compute in E. discriminate E.
Defined.

Lemma format_results_failure_source_witness :
  match fst (Pipeline.analyze_with_llm count_chars 300 decode nat
               canned_invoke sym_float Quot Rounded cc_known find_run 0
               [doc_a; doc_b; doc_c] (RepoBasic "https://example.org/r" "r"))
  with
  | Ok a =>
      forall formatted,
        format_results sym_float "2026-01-01T00:00:00" "github" a
        = Ok formatted ->
        repository (fr_metadata sym_float formatted)
        = VDict [("url", VStr "https://example.org/r");
                 ("local_path", VStr "r")]
  | Raise _ => False
  end.
Proof.
  destruct (Pipeline.analyze_with_llm count_chars 300 decode nat
              canned_invoke sym_float Quot Rounded cc_known find_run 0
              [doc_a; doc_b; doc_c] (RepoBasic "https://example.org/r" "r"))
    as [[a|e] st'] eqn:E.
  - cbn [fst]. intros formatted Hf.
    exact (proj1 (proj2 (format_results_failure_source count_chars 300
                           decode nat canned_invoke sym_float Quot Rounded
                           cc_known find_run "2026-01-01T00:00:00" "github"
                           0 st' [doc_a; doc_b; doc_c]
                           (RepoBasic "https://example.org/r" "r") a E)
                          formatted Hf)).
  - vm_compute in E. discriminate E.
Defined.

End PipelineMore.

(* ================================================================== *)
(** * Properties of the whole run *)
(* ================================================================== *)

Module ProgramMore.

Import Chunker LLMProvider Analyzer OutputFormatter RepositoryInfo
       ProjectOverview Pipeline Report Program Notions Fixtures MoreFixtures.
Local Open Scope list_scope.

Lemma all_empty_detailed (analyses : list value) :
  Forall (fun a => format_chunk a = Ok ([], [])) analyses ->
  _format_detailed_analysis analyses
  = Ok {| total_classes_identified := 0;
          total_key_functions_identified := 0;
          classes := [];
          key_functions := [] |}.
Proof.
  intros H.
  assert (Hc : collect analyses = Ok ([], [])).
  { unfold collect. induction H as [|a l Ha _ IH]; [reflexivity|].
    cbn [mapM]. rewrite Ha. cbn [Py.bind].
    destruct (mapM format_chunk l) as [ys|e]; cbn in *; [|discriminate].
    inversion IH as [[H1 H2]]. now rewrite H1, H2. }
  unfold _format_detailed_analysis. now rewrite Hc.
Qed.

Section Run.

Variable count_tokens : string -> nat.
Variable max_tokens : Z.
Variable json_loads : string -> result value.
Variable llm : Type.
Variable invoke : llm -> string -> string -> result string * llm.
Variable float : Type.
Variable truediv : Z -> Z -> float.
Variable round : float -> Z -> float.
Variable cc_visit : string -> result (list cc_item).
Variable finditer : string -> string -> list (nat -> string).
Variable now : string.
Variable llm_provider : string.
Variable repo_url : string.
Variable local_path : string.
Variable clone_repository : result (option repo_handle).
Variable read_codebase : result (list CodeFile).
Variable save_results :
  formatted_results float -> option string -> result string.
Variable save_summary : formatted_results float -> result string.
Variable new_analyzer : result unit.
Variable new_formatter : result unit.

Local Abbreviation main :=
  (Program.main count_tokens max_tokens json_loads llm invoke float truediv
     round cc_visit finditer now llm_provider repo_url local_path
     clone_repository read_codebase save_results save_summary
     new_analyzer new_formatter).

Local Abbreviation garbled := (Notions.garbled json_loads llm invoke).

Lemma garbled_loop (Hg : garbled) (chunks : list CodeChunk) :
  forall (st : llm) (i total : nat),
  exists analyses st',
    analyze_chunks_from json_loads llm invoke st i total chunks
    = (Ok analyses, st')
    /\ Forall (fun a => format_chunk a = Ok ([], [])) analyses.
Proof.
  induction chunks as [|c rest IH]; intros st i total.
  - exists [], st. split; [reflexivity | constructor].
  - cbn [analyze_chunks_from]. unfold analyze_code_chunk.
    destruct (Hg st LLMProvider.system_prompt
                 (LLMProvider.user_prompt (to_text c) i total))
      as (response & st1 & msg & -> & Hload).
    unfold parse_response. rewrite Hload.
    destruct (IH st1 (S i) total) as (analyses & st2 & -> & Hall).
    eexists. eexists. split; [reflexivity|].
    constructor; [reflexivity | exact Hall].
Qed.

(** X25.  A model whose every answer fails to parse does not fail the
    run: when the repository step, the reading of a non-empty code
    base, the constructors and the two writes succeed, [main] returns
    0. *)
Theorem garbled_model_run_succeeds
        (st : llm) (skip_clone : bool) (output_file : option string)
        (code_files : list CodeFile) :
  garbled ->
  (skip_clone = true \/ exists repo, clone_repository = Ok repo) ->
  read_codebase = Ok code_files ->
  code_files <> [] ->
  new_analyzer = Ok tt ->
  new_formatter = Ok tt ->
  (forall formatted name, exists p, save_results formatted name = Ok p) ->
  (forall formatted, exists p, save_summary formatted = Ok p) ->
  fst (main st skip_clone output_file) = 0%Z.
Proof.
  intros Hg Hrepo Hread Hne Hna Hnf Hsr Hss.
  unfold Program.main.
  assert (Hstep : exists info,
             repository_step repo_url local_path clone_repository skip_clone
             = Ok info).
  { unfold repository_step. destruct Hrepo as [->|[repo ->]].
    - eexists. reflexivity.
    - destruct skip_clone; eexists; reflexivity. }
  destruct Hstep as [info ->]. rewrite Hread.
  destruct code_files as [|f fs]; [contradiction|].
  unfold analyze_and_save. rewrite Hna.
  unfold Pipeline.analyze_with_llm, generate_project_overview.
  destruct (Hg st ProjectOverview.system_prompt
               (ProjectOverview.user_prompt
                  (create_project_overview_chunk (f :: fs)) info))
    as (response & st1 & msg & -> & Hload).
  unfold parse_overview. rewrite Hload.
  unfold analyze_chunks.
  destruct (garbled_loop Hg (create_chunks count_tokens max_tokens (f :: fs))
              st1 0
              (List.length (create_chunks count_tokens max_tokens (f :: fs))))
    as (analyses & st2 & -> & Hall).
  cbn [Py.bind]. rewrite Hnf. cbn [Py.bind].
  unfold format_results. cbn [project_overview chunk_analyses].
  unfold overview_fallback. cbn [Py.get Py.lookup String.eqb Py.bind].
  rewrite (all_empty_detailed analyses Hall). cbn [Py.bind].
  match goal with
  | |- context [save_results ?x ?y] => destruct (Hsr x y) as [p1 ->]
  end.
  cbn [Py.bind].
  match goal with
  | |- context [save_summary ?x] => destruct (Hss x) as [p2 ->]
  end.
  reflexivity.
Qed.

(** X26.  When there is nothing to analyze (the reading of the code
    base fails or finds no file), when the clone fails, or when the
    analyzer cannot be constructed, [main] returns 1 and the model is
    never called: its state is unchanged. *)
Theorem nothing_to_analyze_no_call
        (st : llm) (skip_clone : bool) (output_file : option string) :
  (forall code_files, read_codebase = Ok code_files -> code_files = [])
  \/ (skip_clone = false /\ exists e, clone_repository = Raise e)
  \/ (exists e, new_analyzer = Raise e) ->
  main st skip_clone output_file = (1%Z, st).
Proof.
  intros H. unfold Program.main, repository_step.
  destruct H as [Hread | [[-> [e ->]] | [e Hna]]].
  - destruct skip_clone.
    + destruct read_codebase as [[|f fs]|e]; try reflexivity.
      specialize (Hread _ eq_refl). discriminate.
    + destruct clone_repository as [repo|e]; cbn [Py.bind]; [|reflexivity].
      destruct read_codebase as [[|f fs]|e']; try reflexivity.
      specialize (Hread _ eq_refl). discriminate.
  - reflexivity.
  - destruct (if skip_clone
              then Ok (get_repository_info repo_url local_path None)
              else Py.bind clone_repository
                     (fun repo =>
                        Ok (get_repository_info repo_url local_path repo)))
      as [info|e']; [|reflexivity].
    destruct read_codebase as [[|f fs]|e']; try reflexivity.
    unfold analyze_and_save. rewrite Hna. reflexivity.
Qed.

End Run.

Lemma garbled_model_run_succeeds_witness :
  Program.main count_chars 300 decode nat garbled_invoke sym_float Quot
    Rounded cc_known find_run "2026-01-01T00:00:00" "github"
    "https://example.org/r" "r" (Ok None) (Ok [doc_a; doc_b; doc_c])
    saved_results saved_summary (Ok tt) (Ok tt) 0 true None
  = (0%Z, 3).
Proof.
  assert (H : fst (Program.main count_chars 300 decode nat garbled_invoke
                     sym_float Quot Rounded cc_known find_run
                     "2026-01-01T00:00:00" "github" "https://example.org/r"
                     "r" (Ok None) (Ok [doc_a; doc_b; doc_c])
                     saved_results saved_summary (Ok tt) (Ok tt) 0 true None)
               = 0%Z).
  { apply (garbled_model_run_succeeds count_chars 300 decode nat
             garbled_invoke sym_float Quot Rounded cc_known find_run
             "2026-01-01T00:00:00" "github" "https://example.org/r" "r"
             (Ok None) (Ok [doc_a; doc_b; doc_c]) saved_results
             saved_summary (Ok tt) (Ok tt) 0 true None
             [doc_a; doc_b; doc_c]).
    - intros s system user. exists "nope", (S s). eexists.
      split; reflexivity.
    - now left.
    - reflexivity.
    - discriminate.
    - reflexivity.
    - reflexivity.
    - intros formatted name. eexists. reflexivity.
    - intros formatted. eexists. reflexivity. }
  destruct (Program.main count_chars 300 decode nat garbled_invoke
              sym_float Quot Rounded cc_known find_run
              "2026-01-01T00:00:00" "github" "https://example.org/r"
              "r" (Ok None) (Ok [doc_a; doc_b; doc_c])
              saved_results saved_summary (Ok tt) (Ok tt) 0 true None)
    as [status calls] eqn:E.
  cbn [fst] in H. subst status.
  vm_compute in E. now inversion E.
Defined.

Lemma nothing_to_analyze_no_call_witness :
  Program.main count_chars 300 decode nat garbled_invoke sym_float Quot
    Rounded cc_known find_run "2026-01-01T00:00:00" "github"
    "https://example.org/r" "r" (Ok None) (Ok [])
    saved_results saved_summary (Ok tt) (Ok tt) 0 true None
  = (1%Z, 0).
Proof.
  apply (nothing_to_analyze_no_call count_chars 300 decode nat
           garbled_invoke sym_float Quot Rounded cc_known find_run
           "2026-01-01T00:00:00" "github" "https://example.org/r" "r"
           (Ok None) (Ok []) saved_results saved_summary (Ok tt) (Ok tt)
           0 true None).
  left. intros code_files H. now inversion H.
Defined.

End ProgramMore.

(* ================================================================== *)
(** * Parse failures and the exit status of the run *)
(* ================================================================== *)

Module DegradationClaims.

Import Chunker LLMProvider Analyzer OutputFormatter RepositoryInfo
       ProjectOverview Pipeline Report Program Stated Notions
       Fixtures MoreFixtures.
Local Open Scope list_scope.

(** A loop whose body returns on every element returns. *)
Lemma mapM_returns {A B : Type} (f : A -> result B) (l : list A) :
  Forall (fun x => exists y, f x = Ok y) l -> exists ys, mapM f l = Ok ys.
Proof.
  induction 1 as [|x l [y Hy] _ [ys IH]].
  - now exists [].
  - exists (y :: ys). cbn [mapM]. rewrite Hy. cbn [Py.bind].
    rewrite IH. reflexivity.
Qed.

Section Run.

Variable count_tokens : string -> nat.
Variable max_tokens : Z.
Variable json_loads : string -> result value.
Variable llm : Type.
Variable invoke : llm -> string -> string -> result string * llm.
Variable float : Type.
Variable truediv : Z -> Z -> float.
Variable round : float -> Z -> float.
Variable cc_visit : string -> result (list cc_item).
Variable finditer : string -> string -> list (nat -> string).
Variable now : string.
Variable llm_provider : string.
Variable repo_url : string.
Variable local_path : string.
Variable clone_repository : result (option repo_handle).
Variable read_codebase : result (list CodeFile).
Variable save_results :
  formatted_results float -> option string -> result string.
Variable save_summary : formatted_results float -> result string.
Variable new_analyzer : result unit.
Variable new_formatter : result unit.

Local Abbreviation main :=
  (Program.main count_tokens max_tokens json_loads llm invoke float truediv
     round cc_visit finditer now llm_provider repo_url local_path
     clone_repository read_codebase save_results save_summary
     new_analyzer new_formatter).

Local Abbreviation analyze_with_llm :=
  (Pipeline.analyze_with_llm count_tokens max_tokens json_loads llm invoke
     float truediv round cc_visit finditer).

Local Abbreviation well_behaved :=
  (never_raises llm invoke
   /\ decode_errors_only json_loads
   /\ answers_well_formed json_loads llm invoke).

(** With a well-behaved model the overview request returns an object,
    parsed or fallback. *)
Lemma overview_returns (st : llm) (overview_text : string)
      (repo_info : repository_info) :
  well_behaved ->
  exists d st1,
    generate_project_overview json_loads llm invoke st overview_text
      repo_info
    = (Ok (VDict d), st1).
Proof.
  intros (Hllm & Hjson & Hwell). unfold generate_project_overview.
  destruct (Hllm st ProjectOverview.system_prompt
              (ProjectOverview.user_prompt overview_text repo_info))
    as (response & st1 & Hcall).
  rewrite Hcall. unfold parse_overview.
  destruct (json_loads (extract_json response)) as [v|e] eqn:E.
  - destruct (Hwell _ _ _ _ _ _ Hcall E) as [Hd _].
    destruct v; try discriminate Hd. cbn [PyMore.setitem].
    eexists. eexists. reflexivity.
  - destruct (Hjson _ _ E) as [msg ->]. unfold overview_fallback.
    eexists. eexists. reflexivity.
Qed.

(** With a well-behaved model the loop over the chunks completes, and
    the aggregation loop accepts each of its analyses. *)
Lemma loop_returns_well_formed (chunks : list CodeChunk) :
  well_behaved ->
  forall (st : llm) (i total : nat),
  exists analyses st',
    analyze_chunks_from json_loads llm invoke st i total chunks
    = (Ok analyses, st')
    /\ Forall (fun a => exists r, format_chunk a = Ok r) analyses.
Proof.
  intros (Hllm & Hjson & Hwell).
  induction chunks as [|c rest IH]; intros st i total.
  - exists [], st. split; [reflexivity | constructor].
  - cbn [analyze_chunks_from]. unfold analyze_code_chunk.
    destruct (Hllm st LLMProvider.system_prompt
                (LLMProvider.user_prompt (to_text c) i total))
      as (response & st1 & Hcall).
    rewrite Hcall. unfold parse_response.
    destruct (IH st1 (S i) total) as (analyses & st2 & Hrest & Hall).
    destruct (json_loads (extract_json response)) as [v|e] eqn:E.
    + destruct (Hwell _ _ _ _ _ _ Hcall E) as [_ Hr].
      rewrite Hrest. eexists. eexists. split; [reflexivity|].
      constructor; assumption.
    + destruct (Hjson _ _ E) as [msg ->].
      rewrite Hrest. eexists. eexists. split; [reflexivity|].
      constructor; [|assumption]. eexists. reflexivity.
Qed.

(** The result of [analyze_with_llm] when its two stages that call the
    model return. *)
Lemma analysis_of_parts (st st1 st' : llm) (code_files : list CodeFile)
      (repo_info : repository_info) (overview : value)
      (analyses : list value) :
  generate_project_overview json_loads llm invoke st
    (create_project_overview_chunk code_files) repo_info
  = (Ok overview, st1) ->
  analyze_chunks json_loads llm invoke st1
    (create_chunks count_tokens max_tokens code_files)
  = (Ok analyses, st') ->
  exists a,
    analyze_with_llm st code_files repo_info = (Ok a, st')
    /\ project_overview float a = overview
    /\ chunk_analyses float a = analyses.
Proof.
  intros Hov Hloop. unfold Pipeline.analyze_with_llm.
  rewrite Hov, Hloop. eexists. split; [reflexivity|]. split; reflexivity.
Qed.

(** With an overview that is an object, [format_results] returns as
    soon as the aggregation of the chunk analyses does. *)
Lemma format_results_of_dict (a : analysis_results float)
      (d : list (string * value)) (detailed : detailed_report) :
  project_overview float a = VDict d ->
  _format_detailed_analysis (chunk_analyses float a) = Ok detailed ->
  exists formatted,
    format_results float now llm_provider a = Ok formatted
    /\ fr_detailed_analysis float formatted = detailed.
Proof.
  intros Hov Hdet. unfold format_results. rewrite Hov, Hdet.
  cbn [Py.get Py.bind]. eexists. split; reflexivity.
Qed.

(** [main] returns 0 when every stage returns. *)
Lemma main_of_completed (st st' : llm) (skip_clone : bool)
      (output_file : option string) (code_files : list CodeFile)
      (info : repository_info) (a : analysis_results float)
      (formatted : formatted_results float) :
  repository_step repo_url local_path clone_repository skip_clone
  = Ok info ->
  read_codebase = Ok code_files ->
  code_files <> [] ->
  new_analyzer = Ok tt ->
  new_formatter = Ok tt ->
  (forall formatted name, exists p, save_results formatted name = Ok p) ->
  (forall formatted, exists p, save_summary formatted = Ok p) ->
  analyze_with_llm st code_files info = (Ok a, st') ->
  format_results float now llm_provider a = Ok formatted ->
  main st skip_clone output_file = (0%Z, st').
Proof.
  intros Hstep Hread Hne Hna Hnf Hsr Hss Hrun Hfmt.
  unfold Program.main. rewrite Hstep, Hread.
  destruct code_files as [|f fs]; [contradiction|].
  unfold analyze_and_save. rewrite Hna, Hrun. cbn [Py.bind].
  rewrite Hnf. cbn [Py.bind]. rewrite Hfmt. cbn [Py.bind].
  destruct (Hsr formatted output_file) as [p1 ->]. cbn [Py.bind].
  destruct (Hss formatted) as [p2 ->]. reflexivity.
Qed.


End Run.


End DegradationClaims.
